(** * Vibration feature extraction and prediction: a model of
      [src/modules/model_predictor.py]

    The development embeds the predictor module function by function
    and proves the properties its specification states.  Conventions of
    the embedding:

    - a numpy array of float64 holds real numbers ([R]); arithmetic on
      them is exact real arithmetic (no rounding, no overflow), and a
      scalar that numpy may report as NaN has type [npfloat].  The
      properties are stated so that they do not rest on this exactness;
      where a value of the code depends on the rounding, the overflow
      or the underflow of binary64, the lines concerned are evaluated
      in binary64 ([Module Binary64]);
    - a Python exception is a value [exn]; code that can raise returns
      [py A], and code that also draws random numbers is a state
      transformer over the generator ([rnd A]);
    - numpy's global generator is the stream of standard normal
      variates it delivers;
    - a Python [dict] is an insertion-ordered association list;
    - identifiers are strings of ASCII characters;
    - the value under ["samples"] is a list of numbers or a list of
      lists of numbers; [np.array] refuses rows of unequal length
      (numpy 1.24 and later);
    - log messages are not modelled. *)

From Stdlib Require Import Reals Lra Lia List String Ascii ZArith Bool Arith.
From Stdlib Require Import DecimalString Decimal DecimalZ.
From Stdlib Require PrimFloat Uint63.
Import ListNotations.

Set Implicit Arguments.

(** ** Python values and control *)

Module Py.

(** The classes of exception met here; all derive from [Exception]. *)
Inductive exn_kind :=
| ValueError | IndexError | ZeroDivisionError | TypeError | KeyError
| OtherException.

(** An exception object: its class and the text of [str(e)]. *)
Record exn := Exn { exn_class : exn_kind; exn_str : string }.

Inductive py (A : Type) :=
| Return (a : A)
| Raise (e : exn).
Arguments Raise {A} e.

Definition bind {A B} (m : py A) (k : A -> py B) : py B :=
  match m with
  | Return a => k a
  | Raise e => Raise e
  end.

(** Insertion-ordered dictionaries with string keys. *)
Definition dict (V : Type) := list (string * V).

Fixpoint dict_get {V} (k : string) (d : dict V) : option V :=
  match d with
  | [] => None
  | (k', v) :: d' => if String.eqb k k' then Some v else dict_get k d'
  end.

(** [d[k] = v]: overwrite in place, or append a new key. *)
Fixpoint dict_set {V} (k : string) (v : V) (d : dict V) : dict V :=
  match d with
  | [] => [(k, v)]
  | (k', v') :: d' =>
      if String.eqb k k' then (k', v) :: d' else (k', v') :: dict_set k v d'
  end.

Definition dict_keys {V} (d : dict V) : list string := map fst d.
Definition dict_values {V} (d : dict V) : list V := map snd d.

(** [k in d] *)
Definition dict_mem {V} (k : string) (d : dict V) : bool :=
  match dict_get k d with Some _ => true | None => false end.

End Py.
Import Py.

Declare Scope py_scope.
Delimit Scope py_scope with py.
Notation "x <- m ;; k" := (Py.bind m (fun x => k))
  (at level 61, m at next level, right associativity) : py_scope.

(** ** numpy on one-dimensional arrays of reals *)

Module Np.
Local Open Scope R_scope.

(** A float64 scalar as numpy reports it: a real number or NaN. *)
Inductive npfloat :=
| Fin (r : R)
| NaN.

Definition np_sum (a : list R) : R := fold_right Rplus 0 a.

(** [np.mean(a)]: NaN (with a warning) on an empty array. *)
Definition np_mean (a : list R) : npfloat :=
  match a with
  | [] => NaN
  | _ => Fin (np_sum a / INR (List.length a))
  end.

(** [np.std(a)], the population standard deviation. *)
Definition np_std (a : list R) : npfloat :=
  match a with
  | [] => NaN
  | _ =>
      let m := np_sum a / INR (List.length a) in
      Fin (sqrt (np_sum (map (fun x => (x - m) * (x - m)) a) / INR (List.length a)))
  end.

(** [np.sqrt]: NaN on NaN and on a negative argument. *)
Definition np_sqrt (x : npfloat) : npfloat :=
  match x with
  | Fin r => if Rlt_dec r 0 then NaN else Fin (sqrt r)
  | NaN => NaN
  end.

Fixpoint max_list (x : R) (a : list R) : R :=
  match a with
  | [] => x
  | y :: a' => max_list (Rmax x y) a'
  end.

Fixpoint min_list (x : R) (a : list R) : R :=
  match a with
  | [] => x
  | y :: a' => min_list (Rmin x y) a'
  end.

(** [np.max(a)] and [np.min(a)] raise on a zero-size array. *)
Definition np_max (a : list R) : py R :=
  match a with
  | [] => Raise (Exn ValueError
      "zero-size array to reduction operation maximum which has no identity")
  | x :: a' => Return (max_list x a')
  end.

Definition np_min (a : list R) : py R :=
  match a with
  | [] => Raise (Exn ValueError
      "zero-size array to reduction operation minimum which has no identity")
  | x :: a' => Return (min_list x a')
  end.

Definition np_sign (x : R) : R :=
  if Rlt_dec x 0 then -1 else if Rlt_dec 0 x then 1 else 0.

(** [np.diff(a)]: [a[i+1] - a[i]]. *)
Fixpoint np_diff (a : list R) : list R :=
  match a with
  | x :: ((y :: _) as a') => (y - x) :: np_diff a'
  | _ => []
  end.

(** [np.sum(a != 0)] *)
Definition count_nonzero (a : list R) : nat :=
  List.length (filter (fun x => if Req_dec_T x 0 then false else true) a).

(** [num / den if den > 0 else np.nan], the guard of the ratio
    features; a comparison with NaN is false. *)
Definition ratio_if_pos (num den : npfloat) : npfloat :=
  match den with
  | Fin d =>
      if Rlt_dec 0 d
      then match num with Fin n => Fin (n / d) | NaN => NaN end
      else NaN
  | NaN => NaN
  end.

(** [count / len(a)] for an integer count: 0/0 is NaN. *)
Definition count_over_len (count len : nat) : npfloat :=
  match len with
  | O => NaN
  | _ => Fin (INR count / INR len)
  end.

(** [np.argmax(a)]: the first index of the maximum. *)
Fixpoint argmax_from (best : R) (besti i : nat) (a : list R) : nat :=
  match a with
  | [] => besti
  | y :: a' =>
      if Rlt_dec best y then argmax_from y i (S i) a'
      else argmax_from best besti (S i) a'
  end.

Definition np_argmax (a : list R) : nat :=
  match a with
  | [] => O
  | x :: a' => argmax_from x O 1%nat a'
  end.

End Np.
Import Np.

(** ** scipy: the discrete Fourier transform and the moment statistics

    [scipy.fft.fft], [scipy.fft.fftfreq], [scipy.stats.skew] and
    [scipy.stats.kurtosis] are library functions; they are given here by
    the formulas of their documentation, over the reals. *)

Module Scipy.
Local Open Scope R_scope.

(** A complex number: real and imaginary part. *)
Definition complex := (R * R)%type.

Definition cabs (z : complex) : R := sqrt (fst z * fst z + snd z * snd z).

(** [sum_n x[n] * f (n0 + n)] *)
Fixpoint weighted_sum (f : nat -> R) (n0 : nat) (x : list R) : R :=
  match x with
  | [] => 0
  | xn :: x' => xn * f n0 + weighted_sum f (S n0) x'
  end.

(** [y[k] = sum_n x[n] * exp(-2 pi i k n / N)] *)
Definition dft_coeff (x : list R) (k : nat) : complex :=
  let N := INR (List.length x) in
  (weighted_sum (fun n => cos (2 * PI * INR k * INR n / N)) 0 x,
   - weighted_sum (fun n => sin (2 * PI * INR k * INR n / N)) 0 x).

Definition fft (x : list R) : py (list complex) :=
  match x with
  | [] => Raise (Exn ValueError "invalid number of data points (0) specified")
  | _ => Return (map (dft_coeff x) (seq 0 (List.length x)))
  end.

(** [fftfreq(n, d)]: [val = 1.0 / (n * d)], then the bins
    [0, 1, ..., (n-1)//2, -(n//2), ..., -1] times [val]. *)
Definition fftfreq (n : nat) (d : R) : py (list R) :=
  if Req_dec_T (INR n * d) 0
  then Raise (Exn ZeroDivisionError "float division by zero")
  else
    let val := 1 / (INR n * d) in
    let n1 := ((n - 1) / 2 + 1)%nat in
    Return (map (fun k => INR k * val) (seq 0 (Nat.min n n1))
            ++ map (fun j => - INR (n / 2 - j) * val) (seq 0 (n - n1))).

(** The central moment [mean((x - mean(x))^p)] for [p = 2, 3, 4]. *)
Definition moment (p : nat) (x : list R) : R :=
  let m := np_sum x / INR (List.length x) in
  np_sum (map (fun v => (v - m) ^ p) x) / INR (List.length x).

(** [skew(x)] (biased): [m3 / m2^1.5]; NaN when the variance vanishes
    or the sample is empty. *)
Definition skew (x : list R) : npfloat :=
  match x with
  | [] => NaN
  | _ =>
      let m2 := moment 2 x in
      if Req_dec_T m2 0 then NaN else Fin (moment 3 x / (m2 * sqrt m2))
  end.

(** [kurtosis(x)] (Fisher, biased): [m4 / m2^2 - 3]. *)
Definition kurtosis (x : list R) : npfloat :=
  match x with
  | [] => NaN
  | _ =>
      let m2 := moment 2 x in
      if Req_dec_T m2 0 then NaN else Fin (moment 4 x / (m2 * m2) - 3)
  end.

End Scipy.
Import Scipy.

(** ** Two-dimensional arrays, data frames and the random source *)

Module Data.
Local Open Scope R_scope.

(** The arrays the module handles: a vector, or a matrix given by its
    rows; every row of [Arr2 ncols rows] has [ncols] entries. *)
Inductive ndarray :=
| Arr1 (v : list R)
| Arr2 (ncols : nat) (rows : list (list R)).

Definition well_shaped (a : ndarray) : Prop :=
  match a with
  | Arr1 _ => True
  | Arr2 ncols rows => Forall (fun r => List.length r = ncols) rows
  end.

(** [a.shape[1]]: a vector has a one-element shape tuple. *)
Definition shape1 (a : ndarray) : py nat :=
  match a with
  | Arr1 _ => Raise (Exn IndexError "tuple index out of range")
  | Arr2 ncols _ => Return ncols
  end.

Definition column (j : nat) (rows : list (list R)) : list R :=
  map (fun r => nth j r 0) rows.

(** [a[:, j]] for a Python integer [j]; a negative index counts from
    the last column. *)
Definition get_col (a : ndarray) (j : Z) : py (list R) :=
  match a with
  | Arr1 _ => Raise (Exn IndexError "too many indices for array")
  | Arr2 ncols rows =>
      if (0 <=? j)%Z && (j <? Z.of_nat ncols)%Z
      then Return (column (Z.to_nat j) rows)
      else if (j <? 0)%Z && (- Z.of_nat ncols <=? j)%Z
      then Return (column (Z.to_nat (Z.of_nat ncols + j)) rows)
      else Raise (Exn IndexError "index is out of bounds for axis 1")
  end.

(** [np.zeros((n, m))] *)
Definition zeros (n m : nat) : list (list R) := repeat (repeat 0 m) n.

Fixpoint set_nth (j : nat) (x : R) (r : list R) : list R :=
  match r, j with
  | [], _ => []
  | _ :: r', O => x :: r'
  | y :: r', S j' => y :: set_nth j' x r'
  end.

(** [m[:, j] = col], for a column of the height of [m] *)
Fixpoint set_col (j : nat) (col : list R) (rows : list (list R))
  : list (list R) :=
  match rows, col with
  | r :: rows', x :: col' => set_nth j x r :: set_col j col' rows'
  | _, _ => rows
  end.

(** A data frame: its column labels and its rows. *)
Record DataFrame := { df_columns : list string; df_rows : list (list npfloat) }.

(** [pd.DataFrame()] *)
Definition empty_frame : DataFrame := {| df_columns := []; df_rows := [] |}.

(** [pd.DataFrame([d])]: one row, one column per key. *)
Definition frame_of_dict (d : dict npfloat) : DataFrame :=
  {| df_columns := dict_keys d; df_rows := [dict_values d] |}.

(** [df.empty]: some axis has length 0. *)
Definition df_empty (df : DataFrame) : bool :=
  match df_columns df, df_rows df with
  | [], _ => true
  | _, [] => true
  | _, _ => false
  end.

(** [df.shape] *)
Definition df_shape0 (df : DataFrame) : nat := List.length (df_rows df).
Definition df_shape1 (df : DataFrame) : nat := List.length (df_columns df).

(** The state of numpy's global generator: the standard normal
    variates it will deliver, in order. *)
Definition rng := nat -> R.

Definition rng_take (n : nat) (g : rng) : list R := map g (seq 0 n).
Definition rng_skip (n : nat) (g : rng) : rng := fun i => g (n + i)%nat.

(** Code that may raise and may draw random numbers. *)
Definition rnd (A : Type) := rng -> py A * rng.

Definition rret {A} (a : A) : rnd A := fun g => (Return a, g).
Definition rlift {A} (m : py A) : rnd A := fun g => (m, g).
Definition rbind {A B} (m : rnd A) (k : A -> rnd B) : rnd B :=
  fun g =>
    match m g with
    | (Return a, g') => k a g'
    | (Raise e, g') => (Raise e, g')
    end.

Definition rtry {A} (m : rnd A) (h : exn -> rnd A) : rnd A :=
  fun g =>
    match m g with
    | (Return a, g') => (Return a, g')
    | (Raise e, g') => h e g'
    end.

(** [np.random.normal(loc, scale, size)]: [loc + scale * z] for the
    next [size] variates [z].  A NaN [scale] arises only as the
    deviation of an empty array, where [size] is 0 and nothing is
    drawn; for a positive [size] its variates would be NaN, which an
    array of this model does not hold, and the branch is never
    taken. *)
Definition normal (loc : R) (scale : npfloat) (size : nat) : rnd (list R) :=
  fun g =>
    match scale with
    | Fin s =>
        if Rlt_dec s 0 then (Raise (Exn ValueError "scale < 0"), g)
        else (Return (map (fun z => loc + s * z) (rng_take size g)),
              rng_skip size g)
    | NaN => (Return (map (fun _ => loc) (rng_take size g)), rng_skip size g)
    end.

(** [c * x] for a numpy scalar [x] *)
Definition scale_by (c : R) (x : npfloat) : npfloat :=
  match x with Fin r => Fin (c * r) | NaN => NaN end.

(** [a + b], elementwise, for arrays of one length *)
Fixpoint vec_add (a b : list R) : list R :=
  match a, b with
  | x :: a', y :: b' => (x + y) :: vec_add a' b'
  | _, _ => []
  end.

End Data.
Import Data.

Declare Scope rnd_scope.
Delimit Scope rnd_scope with rnd.
Notation "x <- m ;; k" := (Data.rbind m (fun x => k))
  (at level 61, m at next level, right associativity) : rnd_scope.

(** ** Python strings *)

Module Str.
Local Open Scope string_scope.

Definition is_upper (c : ascii) : bool :=
  (65 <=? nat_of_ascii c)%nat && (nat_of_ascii c <=? 90)%nat.

Definition lower_char (c : ascii) : ascii :=
  if is_upper c then ascii_of_nat (nat_of_ascii c + 32) else c.

(** [s.lower()] *)
Fixpoint lower (s : string) : string :=
  match s with
  | EmptyString => EmptyString
  | String c s' => String (lower_char c) (lower s')
  end.

(** [needle in s] *)
Fixpoint contains (needle s : string) : bool :=
  String.prefix needle s
  || match s with
     | EmptyString => false
     | String _ s' => contains needle s'
     end.

(** [s.split(sep)] for a one-character separator *)
Fixpoint split (sep : ascii) (s : string) : list string :=
  match s with
  | EmptyString => [EmptyString]
  | String c s' =>
      if Ascii.eqb c sep then EmptyString :: split sep s'
      else match split sep s' with
           | t :: ts => String c t :: ts
           | [] => [String c EmptyString]
           end
  end.

Definition is_digit_char (c : ascii) : bool :=
  (48 <=? nat_of_ascii c)%nat && (nat_of_ascii c <=? 57)%nat.

Fixpoint all_digits (s : string) : bool :=
  match s with
  | EmptyString => true
  | String c s' => is_digit_char c && all_digits s'
  end.

(** [s.isdigit()]: at least one character, and all of them digits *)
Definition isdigit (s : string) : bool :=
  match s with
  | EmptyString => false
  | _ => all_digits s
  end.

Fixpoint int_from (acc : Z) (s : string) : Z :=
  match s with
  | EmptyString => acc
  | String c s' => int_from (10 * acc + Z.of_nat (nat_of_ascii c - 48)) s'
  end.

(** [int(s)] on a string of digits *)
Definition int_of_digits (s : string) : Z := int_from 0 s.

(** [str(z)] for an integer *)
Definition str_of_int (z : Z) : string := NilZero.string_of_int (Z.to_int z).

End Str.
Import Str.

(** ** The predictor *)

Module ModelPredictor.
Local Open Scope R_scope.
Local Open Scope string_scope.

Definition CLASS_NAMES : list (Z * string) :=
  [ (0%Z, "normal"); (1%Z, "horizontal-misalignment");
    (2%Z, "vertical-misalignment"); (3%Z, "imbalance");
    (4%Z, "ball_fault"); (5%Z, "cage_fault"); (6%Z, "outer_race") ].

Fixpoint class_names_get (k : Z) (t : list (Z * string)) (default : string)
  : string :=
  match t with
  | [] => default
  | (k', v) :: t' => if Z.eqb k k' then v else class_names_get k t' default
  end.

Definition sq (x : R) : R := x * x.

Definition compute_basic_time_features (signal : list R)
  : py (dict npfloat) :=
  (let mean_val := np_mean signal in
   let std_val := np_std signal in
   let rms_val := np_sqrt (np_mean (map sq signal)) in
   max_val <- np_max signal ;;
   min_val <- np_min signal ;;
   let peak_to_peak := max_val - min_val in
   let mean_abs := np_mean (map Rabs signal) in
   Return
     [ ("mean", mean_val);
       ("std", std_val);
       ("rms", rms_val);
       ("max", Fin max_val);
       ("min", Fin min_val);
       ("peak_to_peak", Fin peak_to_peak);
       ("mean_abs", mean_abs);
       ("crest_factor", ratio_if_pos (Fin max_val) rms_val);
       ("shape_factor", ratio_if_pos rms_val mean_abs);
       ("impulse_factor", ratio_if_pos (Fin max_val) mean_abs);
       ("skewness", skew signal);
       ("kurtosis", kurtosis signal);
       ("energy", Fin (np_sum (map sq signal)));
       ("zero_crossing_rate",
         count_over_len (count_nonzero (np_diff (map np_sign signal)))
                        (List.length signal)) ])%py.

(** [1 / sampling_rate] on a Python number *)
Definition py_inv (x : R) : py R :=
  if Req_dec_T x 0
  then Raise (Exn ZeroDivisionError "division by zero")
  else Return (1 / x).

(** [np.abs(yf[:N // 2]) * 2 / N] *)
Definition amplitudes_of (N : nat) (yf : list complex) : list R :=
  map (fun z => cabs z * 2 / INR N) (firstn (N / 2) yf).

Definition nan_frequency_features : dict npfloat :=
  [ ("dominant_freq", NaN);
    ("dominant_amp", NaN);
    ("spectral_energy", NaN);
    ("spectral_centroid", NaN);
    ("spectral_bandwidth", NaN);
    ("spectral_flatness", NaN) ].

Definition vec_mul (a b : list R) : list R :=
  map (fun p => fst p * snd p) (combine a b).

Definition compute_frequency_features (signal : list R) (sampling_rate : R)
  : py (dict npfloat) :=
  (let N := List.length signal in
   yf <- fft signal ;;
   d <- py_inv sampling_rate ;;
   freqs <- fftfreq N d ;;
   let xf := firstn (N / 2) freqs in
   let amplitudes := amplitudes_of N yf in
   if (List.length amplitudes =? 0)%nat
      || (if Req_dec_T (np_sum amplitudes) 0 then true else false)
   then Return nan_frequency_features
   else
     let dominant_idx := np_argmax amplitudes in
     let spectral_centroid_numerator := np_sum (vec_mul xf amplitudes) in
     let spectral_centroid_denominator := np_sum amplitudes in
     let centroid :=
       spectral_centroid_numerator / spectral_centroid_denominator in
     let squared_diff := map (fun f => sq (f - centroid)) xf in
     let bandwidth :=
       np_sqrt (Fin (np_sum (vec_mul squared_diff amplitudes)
                     / spectral_centroid_denominator)) in
     let nonzero_amps :=
       filter (fun a => if Rlt_dec 0 a then true else false) amplitudes in
     let geometric_mean :=
       match nonzero_amps with
       | [] => 0
       | _ => exp (np_sum (map ln nonzero_amps)
                   / INR (List.length nonzero_amps))
       end in
     let arithmetic_mean :=
       match nonzero_amps with
       | [] => 0
       | _ => np_sum nonzero_amps / INR (List.length nonzero_amps)
       end in
     let flatness :=
       ratio_if_pos (Fin geometric_mean) (Fin arithmetic_mean) in
     Return
       [ ("dominant_freq", Fin (nth dominant_idx xf 0));
         ("dominant_amp", Fin (nth dominant_idx amplitudes 0));
         ("spectral_energy", Fin (np_sum (map sq amplitudes)));
         ("spectral_centroid", Fin centroid);
         ("spectral_bandwidth", bandwidth);
         ("spectral_flatness", flatness) ])%py.

(** [for k, v in features.items(): all_features[name k] = v] *)
Definition add_features (name : string -> string) (features : dict npfloat)
    (all_features : dict npfloat) : dict npfloat :=
  fold_left (fun acc kv => dict_set (name (fst kv)) (snd kv) acc)
            features all_features.

(** A [for] loop whose body may raise. *)
Fixpoint pfor {A S : Type} (l : list A) (body : A -> S -> py S) (s : S)
  : py S :=
  match l with
  | [] => Return s
  | a :: l' => (s' <- body a s ;; pfor l' body s')%py
  end.

(** A [for] loop whose body may raise and may draw random numbers. *)
Fixpoint rfor {A S : Type} (l : list A) (body : A -> S -> rnd S) (s : S)
  : rnd S :=
  match l with
  | [] => rret s
  | a :: l' => (s' <- body a s ;; rfor l' body s')%rnd
  end.

Definition column_names : list string :=
  [ "tachometer"; "underhang-axial"; "underhang-radial";
    "underhang-tangential"; "overhang-axial"; "overhang-radial";
    "overhang-tangential" ].

Definition time_name (suffix feat_name : string) : string :=
  "time_" ++ feat_name ++ suffix.
Definition freq_name (suffix feat_name : string) : string :=
  "freq_" ++ feat_name ++ suffix.

(** The body of the loop over [df.columns] (lines 148-159), for the
    column [col] and its values. *)
Definition channel_features (sampling_rate : R) (col : string * list R)
    (all_features : dict npfloat) : py (dict npfloat) :=
  (let signal := snd col in
   time_features <- compute_basic_time_features signal ;;
   let all_features :=
     add_features (time_name ("_" ++ fst col)) time_features all_features in
   freq_features <- compute_frequency_features signal sampling_rate ;;
   Return (add_features (freq_name ("_" ++ fst col)) freq_features
                        all_features))%py.

Definition extract_features_from_multi_channel_data
    (samples_data : ndarray) (sampling_rate : R) : py DataFrame :=
  (ncols <- shape1 samples_data ;;
   let column_names :=
     if (ncols <? List.length column_names)%nat
     then firstn ncols column_names
     else column_names in
   let rows := match samples_data with Arr2 _ r => r | Arr1 _ => [] end in
   let df :=
     combine column_names
       (map (fun j => column j rows) (seq 0 (List.length column_names))) in
   all_features <- pfor df (channel_features sampling_rate) [] ;;
   Return (frame_of_dict all_features))%py.

Definition axes : list string := [ "axial"; "radial"; "tangential" ].

(** [enumerate(l)] *)
Definition enumerate {A} (l : list A) : list (nat * A) :=
  combine (seq 0 (List.length l)) l.

(** The signal of axis number [i] (lines 195-208). *)
Definition axis_signal (samples_data : ndarray) (i : nat) (axis : string)
  : rnd (list R) :=
  match samples_data with
  | Arr1 v =>
      if String.eqb axis "axial" then rret v
      else if String.eqb axis "radial" then
        (noise <- normal 0 (scale_by (1 / 10) (np_std v)) (List.length v) ;;
         rret (vec_add v noise))%rnd
      else
        (noise <- normal 0 (scale_by (15 / 100) (np_std v))
                        (List.length v) ;;
         rret (vec_add v noise))%rnd
  | Arr2 ncols _ =>
      let col_idx := Z.min (Z.of_nat i + 1) (Z.of_nat ncols - 1) in
      rlift (get_col samples_data col_idx)
  end.

(** The body of the loop over the axes (lines 194-219). *)
Definition axis_features (samples_data : ndarray) (sampling_rate : R)
    (ia : nat * string) (all_features : dict npfloat)
  : rnd (dict npfloat) :=
  (let i := fst ia in
   let axis := snd ia in
   signal <- axis_signal samples_data i axis ;;
   time_features <- rlift (compute_basic_time_features signal) ;;
   freq_features <-
     rlift (compute_frequency_features signal sampling_rate) ;;
   let all_features :=
     add_features (time_name ("_" ++ axis)) time_features all_features in
   rret (add_features (freq_name ("_" ++ axis)) freq_features
                      all_features))%rnd.

Definition extract_3axis_features
    (samples_data : ndarray) (sampling_rate : R) : rnd DataFrame :=
  (all_features <-
     rfor (enumerate axes) (axis_features samples_data sampling_rate) [] ;;
   rret (frame_of_dict all_features))%rnd.

(** The signal of a single-axis model (lines 229-241). *)
Definition single_axis_signal (samples_data : ndarray) (axis_type : string)
  : py (list R) :=
  match samples_data with
  | Arr1 v => Return v
  | Arr2 ncols _ =>
      let col_idx :=
        if String.eqb axis_type "axial" then 1%Z
        else if String.eqb axis_type "radial" then 2%Z
        else 3%Z in
      let col_idx := Z.min col_idx (Z.of_nat ncols - 1) in
      get_col samples_data col_idx
  end.

Definition extract_single_axis_features
    (samples_data : ndarray) (sampling_rate : R) (axis_type : string)
  : py DataFrame :=
  (signal <- single_axis_signal samples_data axis_type ;;
   time_features <- compute_basic_time_features signal ;;
   freq_features <- compute_frequency_features signal sampling_rate ;;
   let all_features := add_features (time_name "") time_features [] in
   Return (frame_of_dict
             (add_features (freq_name "") freq_features all_features)))%py.

Definition extract_features_by_model_type
    (samples_data : ndarray) (model_name : string) (sampling_rate : R)
  : rnd DataFrame :=
  if contains "3axis" (lower model_name) then
    extract_3axis_features samples_data sampling_rate
  else if contains "axial" (lower model_name) then
    rlift (extract_single_axis_features samples_data sampling_rate "axial")
  else if contains "radial" (lower model_name) then
    rlift (extract_single_axis_features samples_data sampling_rate "radial")
  else if contains "tangential" (lower model_name) then
    rlift (extract_single_axis_features samples_data sampling_rate
                                        "tangential")
  else
    rlift (extract_features_from_multi_channel_data samples_data
                                                    sampling_rate).

(** The value stored under ["samples"]: a list of numbers or a list of
    lists of numbers. *)
Inductive samples_value :=
| FlatList (l : list R)
| NestedList (ll : list (list R)).

(** [np.array(v)]: rows of unequal length are refused. *)
Definition np_array (v : samples_value) : py ndarray :=
  match v with
  | FlatList l => Return (Arr1 l)
  | NestedList [] => Return (Arr1 [])
  | NestedList (r :: rs) =>
      if forallb (fun r' => (List.length r' =? List.length r)%nat) rs
      then Return (Arr2 (List.length r) (r :: rs))
      else Raise (Exn ValueError
        "setting an array element with a sequence. The requested array has an inhomogeneous shape")
  end.

(** [d[k]] *)
Definition dict_item {V} (k : string) (d : dict V) : py V :=
  match dict_get k d with
  | Some v => Return v
  | None => Raise (Exn KeyError k)
  end.

(** The body of the loop that fills the simulated channels
    (lines 272-278). *)
Definition fill_channel (samples : list R) (i : nat)
    (multi_channel_data : list (list R)) : rnd (list (list R)) :=
  if (i =? 0)%nat then
    rret (set_col i (map (fun x => x * (1 / 10)) samples)
                  multi_channel_data)
  else
    (let noise_factor := 1 / 10 + INR i * (5 / 100) in
     noise <- normal 0 (scale_by noise_factor (np_std samples))
                     (List.length samples) ;;
     rret (set_col i (vec_add samples noise) multi_channel_data))%rnd.

(** The simulated channel matrix of a single-channel recording
    (lines 268-278). *)
Definition simulate_channels (samples : list R) : rnd ndarray :=
  (let n_channels := 7%nat in
   let multi_channel_data := zeros (List.length samples) n_channels in
   multi_channel_data <-
     rfor (seq 0 n_channels) (fill_channel samples) multi_channel_data ;;
   rret (Arr2 n_channels multi_channel_data))%rnd.

(** The [try] block of [preprocess_data] (lines 261-286). *)
Definition preprocess_body
    (data : dict samples_value) (model_name : string) (sampling_rate : R)
  : rnd DataFrame :=
  if dict_mem "samples" data then
    (raw <- rlift (dict_item "samples" data) ;;
     samples <- rlift (np_array raw) ;;
     multi_channel_data <-
       match samples with
       | Arr1 v => simulate_channels v
       | Arr2 _ _ => rret samples
       end ;;
     extract_features_by_model_type multi_channel_data model_name
                                    sampling_rate)%rnd
  else rret empty_frame.

Definition preprocess_data
    (data : dict samples_value) (model_name : string) (sampling_rate : R)
  : rnd DataFrame :=
  rtry (preprocess_body data model_name sampling_rate)
       (fun e => rret empty_frame).

(** What a classifier labels a row with, as a Python value. *)
Inductive pyval :=
| PyInt (z : Z)
| PyStr (s : string).

(** An element of the array [model.predict] returns: a numpy scalar,
    which has [item()], or a plain Python object. *)
Inductive element :=
| NpScalar (v : pyval)
| PyObject (v : pyval).

(** A loaded classifier: [predict], and the optional [predict_proba]
    and [classes_] (integer class codes). *)
Record Classifier := {
  clf_predict : DataFrame -> py (list element);
  clf_predict_proba : option (DataFrame -> py (list (list R)));
  clf_classes_ : option (list Z)
}.

Definition py_str (v : pyval) : string :=
  match v with PyInt z => str_of_int z | PyStr s => s end.

Definition py_int (v : pyval) : Z :=
  match v with PyInt z => z | PyStr s => int_of_digits s end.

(** [a[0]] *)
Definition index0 {A} (a : list A) : py A :=
  match a with
  | x :: _ => Return x
  | [] => Raise (Exn IndexError "index 0 is out of bounds for axis 0 with size 0")
  end.

(** [CLASS_NAMES.get(v, default)]: only an integer is a key. *)
Definition class_name_of (v : pyval) (default : string) : string :=
  match v with
  | PyInt z => class_names_get z CLASS_NAMES default
  | PyStr _ => default
  end.

Record Prediction := {
  prediction : string;
  prediction_class : pyval;
  probabilities : option (dict R);
  model_used : string;
  features_count : nat;
  sampling_rate : Z
}.

(** The dictionary [predict] returns. *)
Inductive result :=
| Error (msg : string)
| Ok (p : Prediction).

(** The first token of [parts] that is all digits, as an integer. *)
Fixpoint scan_parts (parts : list string) (sampling_rate : Z) : Z :=
  match parts with
  | [] => sampling_rate
  | part :: parts' =>
      if isdigit part then int_of_digits part
      else scan_parts parts' sampling_rate
  end.

(** Lines 306-313: the sampling rate read off the model name. *)
Definition infer_sampling_rate (model_name : string) : Z :=
  let sampling_rate := 25000%Z in
  if contains "_" model_name
  then scan_parts (split "_"%char model_name) sampling_rate
  else sampling_rate.

(** Lines 335-350: the probabilities by class name, when the model
    estimates them. *)
Definition probability_dict (model : Classifier) (features_df : DataFrame)
  : py (option (dict R)) :=
  match clf_predict_proba model with
  | Some predict_proba =>
      (proba <- predict_proba features_df ;;
       proba_result <- index0 proba ;;
       let probabilities := proba_result in
       match clf_classes_ model with
       | Some classes_ =>
           Return (Some
             (fold_left
                (fun prob_dict cp =>
                   let cls_name :=
                     class_names_get (fst cp) CLASS_NAMES
                       ("clase_" ++ str_of_int (fst cp)) in
                   dict_set cls_name (snd cp) prob_dict)
                (combine classes_ probabilities) []))
       | None =>
           Return (Some
             (fold_left
                (fun prob_dict ip =>
                   let i := Z.of_nat (fst ip) in
                   dict_set
                     (class_names_get i CLASS_NAMES
                        ("clase_" ++ str_of_int i))
                     (snd ip) prob_dict)
                (enumerate probabilities) []))
       end)%py
  | None => Return None
  end.

(** Lines 324-359: the prediction on the features, and the result. *)
Definition classify (model : Classifier) (features_df : DataFrame)
    (model_name : string) (sampling_rate : Z) : py result :=
  (predicted <- clf_predict model features_df ;;
   prediction <- index0 predicted ;;
   let prediction_num :=
     match prediction with
     | NpScalar v => v
     | PyObject v => if isdigit (py_str v) then PyInt (py_int v) else v
     end in
   let prediction_name :=
     class_name_of prediction_num ("clase_" ++ py_str prediction_num) in
   prob_dict <- probability_dict model features_df ;;
   Return (Ok {| prediction := prediction_name;
                 prediction_class := prediction_num;
                 probabilities := prob_dict;
                 model_used := model_name;
                 features_count := df_shape1 features_df;
                 sampling_rate := sampling_rate |}))%py.

(** Lines 303-359: the run with the model name settled. *)
Definition predict_with (models : dict Classifier)
    (data : dict samples_value) (model_name : string) : rnd result :=
  (model <- rlift (dict_item model_name models) ;;
   let sampling_rate := infer_sampling_rate model_name in
   features_df <- preprocess_data data model_name (IZR sampling_rate) ;;
   if df_empty features_df then rret (Error "No features extracted")
   else rlift (classify model features_df model_name sampling_rate))%rnd.

Definition predict (models : dict Classifier) (data : dict samples_value)
    (model_name : string) : rnd result :=
  rtry
    (if negb (dict_mem model_name models) then
       let available_models := dict_keys models in
       match available_models with
       | first :: _ => predict_with models data first
       | [] => rret (Error "No models available")
       end
     else predict_with models data model_name)
    (fun e => rret (Error (exn_str e))).

(** [load_models] (lines 38-52), run on an empty [self.models].  The
    directory is the environment: [path_exists] is
    [self.models_path.exists()], and [files] lists, in the order of
    [glob("*.joblib")], the stem of each file with what [joblib.load]
    gives for it.  A load that raises is logged and skipped. *)
Definition load_models (path_exists : bool)
    (files : list (string * py Classifier)) : dict Classifier :=
  if path_exists then
    fold_left
      (fun models model_file =>
         let model_name := fst model_file in
         match snd model_file with
         | Return model => dict_set model_name model models
         | Raise _ => models
         end)
      files []
  else [].

End ModelPredictor.
Import ModelPredictor.

(** ** The root mean square and the crest factor in binary64

    Lines 58, 59 and 72 of [compute_basic_time_features] as numpy runs
    them on an array of float64, for arrays of fewer than eight
    elements, which [np.sum] adds in order. *)

Module Binary64.
Import PrimFloat.
Local Open Scope float_scope.

(** The number of elements, as a float *)
Definition of_len (n : nat) : float :=
  of_uint63 (Uint63.of_Z (Z.of_nat n)).

Definition np_sum (a : list float) : float :=
  match a with
  | [] => 0
  | x :: a' => fold_left PrimFloat.add a' x
  end.

(** [np.mean(a)]: the sum over the number of elements *)
Definition np_mean (a : list float) : float :=
  np_sum a / of_len (List.length a).

(** Line 58: [np.sqrt(np.mean(signal**2))] *)
Definition rms_val (signal : list float) : float :=
  PrimFloat.sqrt (np_mean (map (fun x => x * x) signal)).

Fixpoint max_list (x : float) (a : list float) : float :=
  match a with
  | [] => x
  | y :: a' => max_list (if PrimFloat.ltb x y then y else x) a'
  end.

(** Line 59: [np.max(signal)], on a non-empty array *)
Definition max_val (signal : list float) : float :=
  match signal with
  | [] => nan
  | x :: a => max_list x a
  end.



End Binary64.

(** ** The period summary of [app.py] *)

Module App.
Local Open Scope string_scope.

(** An entry of the list [predict_period_data] builds (lines 773-803):
    the result of [predict] with ["success": True], or the message of
    an exception with ["success": False]. *)
Inductive period_entry :=
| Predicted (recording_id : string) (prediction : result)
| Failed (recording_id : string) (error : string).

(** [p.get("success")] *)
Definition entry_success (p : period_entry) : bool :=
  match p with Predicted _ _ => true | Failed _ _ => false end.

(** [pred.get("prediction", {}).get("prediction", "unknown")]: the
    result of [predict] is a dict, with the key "prediction" when it is
    not an error. *)
Definition entry_class (p : period_entry) : string :=
  match p with
  | Predicted _ (Ok r) => prediction r
  | Predicted _ (Error _) => "unknown"
  | Failed _ _ => "unknown"
  end.

(** [max(items, key=lambda x: x[1])]: the first item of largest count. *)
Fixpoint max_by_count (best : string * nat) (items : list (string * nat))
  : string * nat :=
  match items with
  | [] => best
  | item :: items' =>
      if (snd best <? snd item)%nat then max_by_count item items'
      else max_by_count best items'
  end.

Record class_share := { share_count : nat; share_percentage : R }.

Record period_summary := {
  prediction_distribution : dict class_share;
  most_common_prediction : option (string * class_share)
}.

(** [d.get(k, default)] *)
Definition dict_get_default {V} (k : string) (default : V) (d : dict V) : V :=
  match dict_get k d with
  | Some v => v
  | None => default
  end.

(** The body of the counting loop (lines 842-849). *)
Definition count_prediction (prediction_counts : dict nat)
    (pred : period_entry) : dict nat :=
  let prediction_class := entry_class pred in
  dict_set prediction_class
           (dict_get_default prediction_class O prediction_counts + 1)%nat
           prediction_counts.

(** [round((count / total_predictions) * 100, 2)] *)
Definition percentage (round2 : R -> R) (total_predictions count : nat) : R :=
  round2 (INR count / INR total_predictions * 100)%R.

(** The value of the dictionary comprehension (lines 852-858). *)
Definition class_share_of (round2 : R -> R) (total_predictions count : nat)
  : class_share :=
  {| share_count := count;
     share_percentage := percentage round2 total_predictions count |}.

(** [_calculate_period_summary] (lines 826-868).  [round2] stands for
    Python's [round(x, 2)] on a float. *)
Definition _calculate_period_summary (round2 : R -> R)
    (predictions : list period_entry) : period_summary :=
  let successful_predictions := filter entry_success predictions in
  match successful_predictions with
  | [] => {| prediction_distribution := []; most_common_prediction := None |}
  | _ =>
      let total_predictions := List.length successful_predictions in
      let prediction_counts :=
        fold_left count_prediction successful_predictions [] in
      let prediction_distribution :=
        map (fun cc =>
               (fst cc, class_share_of round2 total_predictions (snd cc)))
            prediction_counts in
      let most_common :=
        match prediction_counts with
        | [] => ("unknown", O)
        | item :: items => max_by_count item items
        end in
      {| prediction_distribution := prediction_distribution;
         most_common_prediction :=
           Some (fst most_common,
                 {| share_count := snd most_common;
                    share_percentage :=
                      if (0 <? total_predictions)%nat
                      then percentage round2 total_predictions
                                      (snd most_common)
                      else 0%R |}) |}
  end.

End App.
Import App.

(** ** Notions the properties are stated with *)

Module Spec.
Local Open Scope R_scope.

(** The magnitude spectrum of a signal: the amplitudes of the first
    half of its Fourier transform, scaled by [2 / N]. *)
Definition spectrum (signal : list R) : list R :=
  amplitudes_of (List.length signal)
    (map (dft_coeff signal) (seq 0 (List.length signal))).

(** The keys of a dictionary after [d[k] = v]. *)
Definition set_key (k : string) (ks : list string) : list string :=
  if existsb (String.eqb k) ks then ks else (ks ++ [k])%list.

Definition add_keys (name : string -> string) (feats ks : list string)
  : list string :=
  fold_left (fun acc k => set_key (name k) acc) feats ks.

Definition time_feature_names : list string :=
  [ "mean"; "std"; "rms"; "max"; "min"; "peak_to_peak"; "mean_abs";
    "crest_factor"; "shape_factor"; "impulse_factor"; "skewness";
    "kurtosis"; "energy"; "zero_crossing_rate" ]%string.

Definition freq_feature_names : list string :=
  [ "dominant_freq"; "dominant_amp"; "spectral_energy";
    "spectral_centroid"; "spectral_bandwidth"; "spectral_flatness" ]%string.

(** The keys after the features of one signal went in under [suffix]. *)
Definition signal_keys (suffix : string) (ks : list string) : list string :=
  add_keys (freq_name suffix) freq_feature_names
    (add_keys (time_name suffix) time_feature_names ks).

(** An array that holds at least one sample of at least one channel. *)
Definition has_signal (a : ndarray) : Prop :=
  match a with
  | Arr1 v => v <> []
  | Arr2 ncols rows => (1 <= ncols)%nat /\ rows <> []
  end.

(** [needle] occurs in [name] up to the case of the letters of [name]. *)
Definition ci_substring (needle name : string) : Prop :=
  exists pre mid post,
    name = (pre ++ mid ++ post)%string /\ lower mid = needle.

(** [sep.join(tokens)] *)
Fixpoint join (sep : ascii) (tokens : list string) : string :=
  match tokens with
  | [] => EmptyString
  | [t] => t
  | t :: ts => (t ++ String sep (join sep ts))%string
  end.

(** A computation that consults no random source: its outcome is the
    same from every state of the generator, and the state is left as it
    was. *)
Definition draws_nothing {A : Type} (m : rnd A) : Prop :=
  exists r, forall g, m g = (r, g).

(** The model a request is served with: the requested one when it is
    loaded, otherwise the first loaded one, if any. *)
Definition resolved_model (models : dict Classifier) (requested : string)
  : option string :=
  if dict_mem requested models then Some requested
  else hd_error (dict_keys models).

(** The rate the identifier names: the value of its first token, split
    on "_", that is all digits, and 25000 without such a token. *)
Definition rate_of_first_numeric_token (model_name : string) : Z :=
  match find isdigit (split "_" model_name) with
  | Some t => int_of_digits t
  | None => 25000%Z
  end.

(** A classifier that labels every row with the class code [code] and
    estimates no probabilities. *)
Definition constant_classifier (code : Z) : Classifier :=
  {| clf_predict := fun _ => Return [NpScalar (PyInt code)];
     clf_predict_proba := None;
     clf_classes_ := None |}.

(** Channel [i] of the matrix [M] is what the assembler makes of
    [samples]: channel 0 is the samples scaled by 0.1; channel [i > 0]
    is the samples plus the [i]-th draw of [len(samples)] normal
    variates, of mean 0 and deviation [(0.1 + 0.05 i) * std(samples)],
    taken from the generator after the [i - 1] draws before it. *)
Definition channel_filled (samples : list R) (g : rng) (M : list (list R))
    (i : nat) : Prop :=
  match i with
  | O => column 0 M = map (fun x => (x * (1 / 10))%R) samples
  | S k =>
      exists noise,
        normal 0 (scale_by (1 / 10 + INR i * (5 / 100))%R (np_std samples))
               (List.length samples)
               (Nat.iter k (rng_skip (List.length samples)) g) =
          (Return noise, Nat.iter i (rng_skip (List.length samples)) g) /\
        column i M = vec_add samples noise
  end.

(** The matrix [M] has the shape [len(samples) x 7] and its channels
    [0 .. d] are filled. *)
Definition channels_filled (samples : list R) (g : rng) (d : nat)
    (M : list (list R)) : Prop :=
  List.length M = List.length samples /\
  Forall (fun r => List.length r = 7%nat) M /\
  forall i, (i <= d)%nat -> channel_filled samples g M i.

(** The name a class code is reported under: its name in [CLASS_NAMES],
    or "clase_" and the code in decimal. *)
Definition class_label (code : Z) : string :=
  class_names_get code CLASS_NAMES ("clase_" ++ str_of_int code)%string.

(** The number of features of the frame a model name selects. *)
Definition expected_feature_count (model_name : string) : nat :=
  if contains "3axis" (lower model_name) then 60%nat
  else if contains "axial" (lower model_name)
          || contains "radial" (lower model_name)
          || contains "tangential" (lower model_name)
  then 20%nat
  else 140%nat.

(** The column a single-axis model reads in a matrix of [ncols]
    columns: 1 for "axial", 2 for "radial", 3 otherwise, and the last
    column when the matrix has fewer. *)
Definition axis_column (axis_type : string) (ncols : nat) : nat :=
  Nat.min (if String.eqb axis_type "axial" then 1
           else if String.eqb axis_type "radial" then 2 else 3)%nat
          (ncols - 1).

(** The number of entries of a period that predicted the class [c]. *)
Definition predicted_count (c : string) (predictions : list period_entry)
  : nat :=
  List.length
    (filter (fun p => entry_success p && String.eqb (entry_class p) c)
            predictions).

(** The number of channels of the matrix the extraction receives: the
    length of the rows of a nested list, and the 7 simulated channels
    for a flat list (numpy reads an empty nested list as an empty flat
    array). *)
Definition samples_channels (v : samples_value) : nat :=
  match v with
  | NestedList (r :: _) => List.length r
  | _ => 7%nat
  end.

(** The number of features of the frame a model name selects on a
    matrix of [channels] channels. *)
Definition feature_count (model_name : string) (channels : nat) : nat :=
  if contains "3axis" (lower model_name) then 60%nat
  else if contains "axial" (lower model_name)
          || contains "radial" (lower model_name)
          || contains "tangential" (lower model_name)
  then 20%nat
  else (20 * Nat.min 7 channels)%nat.

(** The files that [joblib.load] reads without an exception, each under
    its stem, in the order of the listing. *)
Definition loadable (files : list (string * py Classifier))
  : dict Classifier :=
  flat_map (fun model_file =>
              match snd model_file with
              | Return model => [(fst model_file, model)]
              | Raise _ => []
              end)
           files.

(** A dictionary of features under new names. *)
Definition renamed (name : string -> string) (features : dict npfloat)
  : dict npfloat :=
  map (fun kv => (name (fst kv), snd kv)) features.

(** The features of one signal: its time-domain features and then its
    frequency-domain features, named "time_<feature><suffix>" and
    "freq_<feature><suffix>". *)
Definition signal_features (signal : list R) (rate : R) (suffix : string)
  : py (dict npfloat) :=
  (time_features <- compute_basic_time_features signal ;;
   freq_features <- compute_frequency_features signal rate ;;
   Return (renamed (time_name suffix) time_features
           ++ renamed (freq_name suffix) freq_features)%list)%py.

(** The names of the features of one signal. *)
Definition feature_names (suffix : string) : list string :=
  (map (time_name suffix) time_feature_names
   ++ map (freq_name suffix) freq_feature_names)%list.

(** The results of [f] on the elements of a list, up to the first
    exception. *)
Fixpoint collect {A B : Type} (f : A -> py B) (l : list A) : py (list B) :=
  match l with
  | [] => Return []
  | a :: l' => (b <- f a ;; bs <- collect f l' ;; Return (b :: bs))%py
  end.

(** The column names of the frame a model name selects on a matrix of
    [channels] channels. *)
Definition frame_columns (model_name : string) (channels : nat)
  : list string :=
  if contains "3axis" (lower model_name) then
    flat_map (fun axis => feature_names ("_" ++ axis)) axes
  else if contains "axial" (lower model_name)
          || contains "radial" (lower model_name)
          || contains "tangential" (lower model_name)
  then feature_names ""
  else flat_map (fun c => feature_names ("_" ++ c))
                (firstn (Nat.min 7 channels) column_names).

(** No string occurs twice. *)
Fixpoint nodupb (l : list string) : bool :=
  match l with
  | [] => true
  | x :: l' => negb (existsb (String.eqb x) l') && nodupb l'
  end.

(** A generator whose variates are all zero. *)
Definition still_rng : rng := fun _ => 0%R.

End Spec.
Import Spec.

(** * Properties *)

Open Scope string_scope.

(** ** Time-domain features of a constant signal *)

Section ConstantSignal.
Local Open Scope R_scope.

Variable c : R.












End ConstantSignal.





(** ** Frequency-domain features of a degenerate spectrum *)

Section DegenerateSpectrum.
Local Open Scope R_scope.

Lemma weighted_sum_zeros (f : nat -> R) (n0 m : nat) :
  weighted_sum f n0 (repeat 0 m) = 0.
Proof.
  revert n0. induction m as [|m IH]; intros n0; [reflexivity|].
  cbn [repeat weighted_sum]. rewrite IH. lra.
Qed.

Lemma dft_coeff_zeros (m k : nat) : cabs (dft_coeff (repeat 0 m) k) = 0.
Proof.
  unfold dft_coeff, cabs. cbn [fst snd].
  rewrite !weighted_sum_zeros.
  replace (0 * 0 + - 0 * - 0) with 0 by lra. apply sqrt_0.
Qed.

Lemma np_sum_all_zero (a : list R) :
  Forall (fun x => x = 0) a -> np_sum a = 0.
Proof.
  unfold np_sum. induction 1 as [|x a Hx _ IH]; [reflexivity|].
  cbn [fold_right]. rewrite Hx, IH. lra.
Qed.

Lemma in_firstn {A} (n : nat) (l : list A) (x : A) :
  In x (firstn n l) -> In x l.
Proof.
  revert l. induction n as [|n IH]; intros [|y l] H; try contradiction.
  cbn [firstn] in H. destruct H as [->|H]; [left; reflexivity|].
  right. apply IH, H.
Qed.

Lemma spectrum_zeros (m : nat) :
  Forall (fun x => x = 0) (spectrum (repeat 0 m)).
Proof.
  unfold spectrum, amplitudes_of.
  apply Forall_map. apply Forall_forall. intros z Hz.
  apply in_firstn in Hz. apply in_map_iff in Hz as (k & <- & _).
  rewrite dft_coeff_zeros. unfold Rdiv. rewrite !Rmult_0_l. reflexivity.
Qed.

Lemma spectrum_singleton (x : R) : spectrum [x] = [].
Proof. reflexivity. Qed.

(** The run of [compute_frequency_features] up to the test of the
    spectrum, for a signal and a rate that let it get there. *)
Lemma frequency_features_degenerate (signal : list R) (sampling_rate : R) :
  sampling_rate <> 0 -> signal <> [] ->
  spectrum signal = [] \/ np_sum (spectrum signal) = 0 ->
  compute_frequency_features signal sampling_rate =
  Return nan_frequency_features.
Proof.
  intros Hsr Hne Hdeg. unfold compute_frequency_features.
  destruct signal as [|x signal]; [contradiction|].
  set (sig := x :: signal) in *.
  assert (Hfft : fft sig = Return (map (dft_coeff sig)
                                       (seq 0 (List.length sig))))
    by reflexivity.
  rewrite Hfft. cbn [Py.bind]. unfold py_inv.
  destruct (Req_dec_T sampling_rate 0) as [|_]; [contradiction|].
  cbn [Py.bind]. unfold fftfreq.
  destruct (Req_dec_T (INR (List.length sig) * (1 / sampling_rate)) 0)
    as [Hz|_].
  { exfalso. apply Rmult_integral in Hz. destruct Hz as [Hz|Hz].
    - revert Hz. apply not_0_INR. discriminate.
    - unfold Rdiv in Hz. rewrite Rmult_1_l in Hz.
      revert Hz. apply Rinv_neq_0_compat. exact Hsr. }
  cbn [Py.bind]. fold (spectrum sig).
  destruct Hdeg as [Hdeg|Hdeg]; rewrite Hdeg.
  - reflexivity.
  - destruct (Req_dec_T 0 0) as [_|H]; [|exfalso; apply H; reflexivity].
    rewrite orb_true_r. reflexivity.
Qed.

(** At sampling rate 0 the division [1 / sampling_rate] raises,
    whatever the (non-empty) signal. *)
Lemma frequency_features_rate_zero (signal : list R) :
  signal <> [] ->
  compute_frequency_features signal 0 =
  Raise (Exn ZeroDivisionError "division by zero").
Proof.
  intros Hne. destruct signal as [|x signal]; [contradiction|].
  unfold compute_frequency_features. cbn [fft Py.bind]. unfold py_inv.
  destruct (Req_dec_T 0 0) as [_|H]; [reflexivity|].
  exfalso. apply H. reflexivity.
Qed.

End DegenerateSpectrum.

(** C2 (as amended).  For a non-zero sampling rate and a non-empty
    signal whose magnitude spectrum is empty or sums to zero,
    [compute_frequency_features] raises nothing and returns NaN for all
    six frequency features; this covers every signal of length 1 and
    every non-empty all-zero signal. *)
Theorem degenerate_spectrum_all_nan (sampling_rate : R) :
  sampling_rate <> 0%R ->
  (forall signal,
     signal <> [] ->
     spectrum signal = [] \/ np_sum (spectrum signal) = 0%R ->
     compute_frequency_features signal sampling_rate =
     Return [ ("dominant_freq", NaN); ("dominant_amp", NaN);
              ("spectral_energy", NaN); ("spectral_centroid", NaN);
              ("spectral_bandwidth", NaN); ("spectral_flatness", NaN) ]) /\
  (forall x,
     compute_frequency_features [x] sampling_rate =
     Return nan_frequency_features) /\
  (forall n,
     compute_frequency_features (repeat 0%R (S n)) sampling_rate =
     Return nan_frequency_features).
Proof.
  intros Hsr. repeat split.
  - intros signal Hne Hdeg.
    apply (frequency_features_degenerate Hsr Hne Hdeg).
  - intros x. apply frequency_features_degenerate;
      [exact Hsr|discriminate|left; apply spectrum_singleton].
  - intros n. apply frequency_features_degenerate;
      [exact Hsr|discriminate|right].
    apply np_sum_all_zero, spectrum_zeros.
Qed.

Lemma degenerate_spectrum_all_nan_witness :
  compute_frequency_features [0%R; 0%R; 0%R; 0%R] 25000 =
  Return nan_frequency_features.
Proof.
  assert (H : 25000%R <> 0%R) by lra.
  exact (proj2 (proj2 (degenerate_spectrum_all_nan H)) 3%nat).
Defined.

(** C2 fails as stated in two places: at sampling rate 0 the all-zero
    signal [[0; 0]] makes [1 / sampling_rate] raise, and the empty
    signal makes the transform raise. *)
Lemma degenerate_spectrum_raises :
  compute_frequency_features [0%R; 0%R] 0 =
    Raise (Exn ZeroDivisionError "division by zero") /\
  compute_frequency_features [] 25000 =
    Raise (Exn ValueError "invalid number of data points (0) specified").
Proof.
  split; [|reflexivity].
  apply frequency_features_rate_zero. discriminate.
Qed.

(** ** The shape of the feature frame *)

Section FrameShape.
Local Open Scope R_scope.

Lemma dict_keys_set {V} (k : string) (v : V) (d : dict V) :
  dict_keys (dict_set k v d) = set_key k (dict_keys d).
Proof.
  unfold set_key, dict_keys. induction d as [|[k' v'] d IH].
  - reflexivity.
  - cbn [dict_set map fst existsb]. destruct (String.eqb k k') eqn:E.
    + reflexivity.
    + cbn [orb map fst]. rewrite IH.
      destruct (existsb (String.eqb k) (map fst d)); reflexivity.
Qed.

Lemma dict_keys_add_features (name : string -> string)
    (feats d : dict npfloat) :
  dict_keys (add_features name feats d) =
  add_keys name (dict_keys feats) (dict_keys d).
Proof.
  unfold add_features, add_keys. revert d.
  induction feats as [|[k v] feats IH]; intros d; [reflexivity|].
  change (dict_keys ((k, v) :: feats)) with (k :: dict_keys feats).
  cbn [fold_left fst snd]. rewrite IH, dict_keys_set. reflexivity.
Qed.

Lemma signal_keys_eq (suffix : string) (ks : list string) :
  signal_keys suffix ks =
  add_keys (freq_name suffix) freq_feature_names
    (add_keys (time_name suffix) time_feature_names ks).
Proof. unfold signal_keys. reflexivity. Qed.

Lemma time_features_keys (signal : list R) :
  signal <> [] ->
  exists tf, compute_basic_time_features signal = Return tf /\
             dict_keys tf = time_feature_names.
Proof.
  intros Hne. destruct signal as [|x signal]; [contradiction|].
  unfold compute_basic_time_features. cbn [np_max np_min Py.bind].
  eexists. split; reflexivity.
Qed.

Lemma frequency_features_keys (signal : list R) (sampling_rate : R) :
  sampling_rate <> 0 -> signal <> [] ->
  exists ff, compute_frequency_features signal sampling_rate = Return ff /\
             dict_keys ff = freq_feature_names.
Proof.
  intros Hsr Hne. destruct signal as [|x signal]; [contradiction|].
  unfold compute_frequency_features.
  set (sig := x :: signal) in *.
  assert (Hfft : fft sig = Return (map (dft_coeff sig)
                                       (seq 0 (List.length sig))))
    by reflexivity.
  rewrite Hfft. cbn [Py.bind]. unfold py_inv.
  destruct (Req_dec_T sampling_rate 0) as [|_]; [contradiction|].
  cbn [Py.bind]. unfold fftfreq.
  destruct (Req_dec_T (INR (List.length sig) * (1 / sampling_rate)) 0)
    as [Hz|_].
  { exfalso. apply Rmult_integral in Hz. destruct Hz as [Hz|Hz].
    - revert Hz. apply not_0_INR. discriminate.
    - unfold Rdiv in Hz. rewrite Rmult_1_l in Hz.
      revert Hz. apply Rinv_neq_0_compat. exact Hsr. }
  cbn [Py.bind].
  match goal with |- context [if ?b then _ else _] => destruct b end;
    eexists; split; reflexivity.
Qed.

Variable sampling_rate : R.
Hypothesis rate_nonzero : sampling_rate <> 0.

Lemma channel_features_keys (name : string) (signal : list R)
    (d : dict npfloat) :
  signal <> [] ->
  exists d',
    channel_features sampling_rate (name, signal) d = Return d' /\
    dict_keys d' = signal_keys ("_" ++ name) (dict_keys d).
Proof.
  intros Hne.
  destruct (time_features_keys Hne) as (tf & Htf & Ktf).
  destruct (frequency_features_keys rate_nonzero Hne) as (ff & Hff & Kff).
  exists (add_features (freq_name ("_" ++ name)) ff
            (add_features (time_name ("_" ++ name)) tf d)).
  split.
  - unfold channel_features. cbv zeta. unfold fst, snd.
    rewrite Htf. unfold Py.bind at 1. rewrite Hff. reflexivity.
  - rewrite signal_keys_eq, !dict_keys_add_features, Ktf, Kff.
    reflexivity.
Qed.

Lemma fold_left_map_cons {A B C : Type} (f : A -> C -> A) (g : B -> C)
    (b : B) (l : list B) (a : A) :
  fold_left f (map g (b :: l)) a = fold_left f (map g l) (f a (g b)).
Proof. reflexivity. Qed.

Lemma pfor_cons {A S : Type} (a : A) (l : list A) (body : A -> S -> py S)
    (s : S) :
  pfor (a :: l) body s = Py.bind (body a s) (pfor l body).
Proof. reflexivity. Qed.

Lemma full_strategy_keys (df : list (string * list R)) (d : dict npfloat) :
  Forall (fun col => snd col <> []) df ->
  exists d',
    pfor df (channel_features sampling_rate) d = Return d' /\
    dict_keys d' =
    fold_left (fun ks c => signal_keys ("_" ++ c) ks) (map fst df)
              (dict_keys d).
Proof.
  intros Hdf. revert d.
  induction Hdf as [|[name signal] df Hne _ IH]; intros d.
  - exists d. split; reflexivity.
  - change (signal <> []) in Hne.
    destruct (channel_features_keys name d Hne) as (d1 & Hrun1 & Hkeys1).
    destruct (IH d1) as (d' & Hrun & Hkeys).
    exists d'. split.
    + rewrite pfor_cons, Hrun1. exact Hrun.
    + rewrite Hkeys, Hkeys1, fold_left_map_cons. reflexivity.
Qed.

Lemma full_strategy_count (k : nat) :
  (k <= 7)%nat ->
  List.length
    (fold_left (fun ks c => signal_keys ("_" ++ c) ks)
               (firstn k column_names) []) = (20 * k)%nat.
Proof.
  intros Hk.
  do 8 (destruct k as [|k]; [vm_compute; reflexivity|]). lia.
Qed.

Lemma map_fst_combine {A B : Type} (l1 : list A) (l2 : list B) :
  List.length l1 = List.length l2 -> map fst (combine l1 l2) = l1.
Proof.
  revert l2. induction l1 as [|a l1 IH]; intros [|b l2] H;
    try discriminate; [reflexivity|].
  cbn [combine map fst]. f_equal. apply IH. injection H as H. exact H.
Qed.

Lemma Forall_snd_combine {A B : Type} (P : B -> Prop) (l1 : list A)
    (l2 : list B) :
  Forall P l2 -> Forall (fun c => P (snd c)) (combine l1 l2).
Proof.
  intros H. revert l1. induction H as [|b l2 Hb _ IH]; intros [|a l1];
    cbn [combine]; constructor; [exact Hb|apply IH].
Qed.

Lemma column_nonempty (j : nat) (rows : list (list R)) :
  rows <> [] -> column j rows <> [].
Proof. destruct rows; [contradiction|discriminate]. Qed.

Lemma frame_of_dict_shape (d : dict npfloat) :
  df_shape0 (frame_of_dict d) = 1%nat /\
  df_shape1 (frame_of_dict d) = List.length (dict_keys d).
Proof. split; reflexivity. Qed.

Lemma clamp_names (ncols : nat) :
  (if (ncols <? List.length column_names)%nat
   then firstn ncols column_names else column_names) =
  firstn (Nat.min 7 ncols) column_names.
Proof.
  destruct (Nat.ltb_spec ncols (List.length column_names)) as [H|H].
  - rewrite Nat.min_r; [reflexivity|]. cbn in H. lia.
  - rewrite Nat.min_l; [reflexivity|]. cbn in H. lia.
Qed.

(** The full strategy on a matrix with at least one row. *)
Lemma full_strategy_shape (ncols : nat) (rows : list (list R)) :
  rows <> [] ->
  exists df,
    extract_features_from_multi_channel_data (Arr2 ncols rows)
                                             sampling_rate = Return df /\
    df_shape0 df = 1%nat /\
    df_shape1 df = (20 * Nat.min 7 ncols)%nat.
Proof.
  intros Hrows. unfold extract_features_from_multi_channel_data.
  unfold shape1, Py.bind at 1. cbv zeta. rewrite clamp_names.
  set (names := firstn (Nat.min 7 ncols) column_names).
  set (cols := map (fun j => column j rows) (seq 0 (List.length names))).
  assert (Hlen : List.length names = List.length cols).
  { unfold cols. rewrite length_map, length_seq. reflexivity. }
  destruct (@full_strategy_keys (combine names cols) []) as (d & Hrun & Hk).
  { apply Forall_snd_combine with (P := fun s : list R => s <> []).
    unfold cols. apply Forall_map.
    apply Forall_forall. intros j _. apply column_nonempty, Hrows. }
  rewrite Hrun. unfold Py.bind. eexists. split; [reflexivity|].
  destruct (frame_of_dict_shape d) as [H0 H1]. split; [exact H0|].
  rewrite H1, Hk, (map_fst_combine _ _ Hlen). unfold names.
  apply full_strategy_count. lia.
Qed.

Lemma get_col_clamped (ncols : nat) (rows : list (list R)) (c : Z) :
  (1 <= ncols)%nat -> (0 <= c)%Z ->
  get_col (Arr2 ncols rows) (Z.min c (Z.of_nat ncols - 1)) =
  Return (column (Z.to_nat (Z.min c (Z.of_nat ncols - 1))) rows).
Proof.
  intros Hn Hc. unfold get_col.
  rewrite (proj2 (Z.leb_le _ _)) by lia.
  rewrite (proj2 (Z.ltb_lt _ _)) by lia. reflexivity.
Qed.

Lemma np_std_nonempty (v : list R) :
  v <> [] -> exists s, np_std v = Fin s /\ 0 <= s.
Proof.
  destruct v as [|x v]; [contradiction|]. intros _.
  eexists. split; [reflexivity|]. apply sqrt_pos.
Qed.

Lemma length_vec_add (a b : list R) :
  List.length a = List.length b ->
  List.length (vec_add a b) = List.length a.
Proof.
  revert b. induction a as [|x a IH]; intros [|y b] H;
    try discriminate; [reflexivity|].
  cbn [vec_add List.length]. f_equal. apply IH. injection H as H. exact H.
Qed.

(** A draw around a non-empty vector, at a non-negative multiple of
    its deviation, succeeds and has the length of the vector. *)
Lemma noisy_copy (v : list R) (factor : R) (g : rng) :
  v <> [] -> 0 <= factor ->
  exists noise,
    normal 0 (scale_by factor (np_std v)) (List.length v) g =
      (Return noise, rng_skip (List.length v) g) /\
    List.length noise = List.length v /\
    vec_add v noise <> [].
Proof.
  intros Hv Hf. destruct (np_std_nonempty Hv) as (s & Hs & Hpos).
  rewrite Hs. unfold scale_by, normal.
  destruct (Rlt_dec (factor * s) 0) as [H|_]; [nra|].
  eexists. split; [reflexivity|].
  assert (Hlen : List.length
                   (map (fun z => 0 + factor * s * z)
                        (rng_take (List.length v) g)) = List.length v).
  { unfold rng_take. rewrite !length_map, length_seq. reflexivity. }
  split; [exact Hlen|].
  intros E. apply (f_equal (@List.length R)) in E.
  rewrite length_vec_add in E by (symmetry; exact Hlen).
  destruct v; [contradiction|discriminate].
Qed.

Lemma axis_signal_ok (a : ndarray) (i : nat) (axis : string) (g : rng) :
  has_signal a ->
  exists s g', axis_signal a i axis g = (Return s, g') /\ s <> [].
Proof.
  intros Ha. unfold axis_signal. destruct a as [v|ncols rows].
  - cbn [has_signal] in Ha.
    destruct (String.eqb axis "axial").
    { exists v, g. split; [reflexivity|exact Ha]. }
    destruct (String.eqb axis "radial").
    + destruct (@noisy_copy v (1 / 10) g Ha) as (noise & Hn & _ & Hne);
        [lra|].
      unfold rbind. rewrite Hn. do 2 eexists. split; [reflexivity|exact Hne].
    + destruct (@noisy_copy v (15 / 100) g Ha) as (noise & Hn & _ & Hne);
        [lra|].
      unfold rbind. rewrite Hn. do 2 eexists. split; [reflexivity|exact Hne].
  - destruct Ha as [Hn Hrows]. cbv zeta.
    rewrite get_col_clamped by lia.
    do 2 eexists. split; [reflexivity|]. apply column_nonempty, Hrows.
Qed.

Lemma axis_features_keys (a : ndarray) (i : nat) (axis : string)
    (d : dict npfloat) (g : rng) :
  has_signal a ->
  exists d' g',
    axis_features a sampling_rate (i, axis) d g = (Return d', g') /\
    dict_keys d' = signal_keys ("_" ++ axis) (dict_keys d).
Proof.
  intros Ha. destruct (@axis_signal_ok a i axis g Ha) as (s & g' & Hs & Hne).
  destruct (time_features_keys Hne) as (tf & Htf & Ktf).
  destruct (frequency_features_keys rate_nonzero Hne) as (ff & Hff & Kff).
  exists (add_features (freq_name ("_" ++ axis)) ff
            (add_features (time_name ("_" ++ axis)) tf d)), g'.
  split.
  - unfold axis_features. cbv zeta. unfold fst, snd.
    unfold rbind at 1. rewrite Hs.
    unfold rbind at 1, rlift at 1. rewrite Htf.
    unfold rbind at 1, rlift at 1. rewrite Hff. reflexivity.
  - rewrite signal_keys_eq, !dict_keys_add_features, Ktf, Kff.
    reflexivity.
Qed.

Lemma rfor_cons {A S : Type} (a : A) (l : list A) (body : A -> S -> rnd S)
    (s : S) :
  rfor (a :: l) body s = rbind (body a s) (rfor l body).
Proof. reflexivity. Qed.

Lemma rbind_ret {A B : Type} (m : rnd A) (k : A -> rnd B) (g g' : rng)
    (a : A) :
  m g = (Return a, g') -> rbind m k g = k a g'.
Proof. intros H. unfold rbind. rewrite H. reflexivity. Qed.

Lemma three_axis_count :
  List.length
    (signal_keys "_tangential"
       (signal_keys "_radial" (signal_keys "_axial" []))) = 60%nat.
Proof. vm_compute. reflexivity. Qed.

(** The 3-axis strategy on an array that holds a signal. *)
Lemma three_axis_shape (a : ndarray) (g : rng) :
  has_signal a ->
  exists df g',
    extract_3axis_features a sampling_rate g = (Return df, g') /\
    df_shape0 df = 1%nat /\ df_shape1 df = 60%nat.
Proof.
  intros Ha.
  destruct (@axis_features_keys a 0 "axial" [] g Ha)
    as (d1 & g1 & H1 & K1).
  destruct (@axis_features_keys a 1 "radial" d1 g1 Ha)
    as (d2 & g2 & H2 & K2).
  destruct (@axis_features_keys a 2 "tangential" d2 g2 Ha)
    as (d3 & g3 & H3 & K3).
  exists (frame_of_dict d3), g3. split.
  - unfold extract_3axis_features.
    change (enumerate axes)
      with [(0%nat, "axial"); (1%nat, "radial"); (2%nat, "tangential")].
    erewrite rbind_ret; [reflexivity|].
    rewrite rfor_cons. erewrite rbind_ret; [|exact H1].
    rewrite rfor_cons. erewrite rbind_ret; [|exact H2].
    rewrite rfor_cons. erewrite rbind_ret; [|exact H3]. reflexivity.
  - destruct (frame_of_dict_shape d3) as [S0 S1]. split; [exact S0|].
    rewrite S1, K3, K2, K1. apply three_axis_count.
Qed.

Lemma single_axis_count :
  List.length (signal_keys "" []) = 20%nat.
Proof. vm_compute. reflexivity. Qed.

(** A single-axis strategy on an array that holds a signal. *)
Lemma single_axis_shape (a : ndarray) (axis_type : string) :
  has_signal a ->
  exists df,
    extract_single_axis_features a sampling_rate axis_type = Return df /\
    df_shape0 df = 1%nat /\ df_shape1 df = 20%nat.
Proof.
  intros Ha.
  assert (Hsig : exists s,
    single_axis_signal a axis_type = Return s /\ s <> []).
  { unfold single_axis_signal. destruct a as [v|ncols rows].
    - exists v. split; [reflexivity|exact Ha].
    - destruct Ha as [Hn Hrows]. cbv zeta.
      rewrite get_col_clamped;
        [|exact Hn
         |destruct (String.eqb axis_type "axial");
          [|destruct (String.eqb axis_type "radial")]; lia].
      eexists. split; [reflexivity|]. apply column_nonempty, Hrows. }
  destruct Hsig as (s & Hs & Hne).
  destruct (time_features_keys Hne) as (tf & Htf & Ktf).
  destruct (frequency_features_keys rate_nonzero Hne) as (ff & Hff & Kff).
  exists (frame_of_dict
            (add_features (freq_name "") ff (add_features (time_name "") tf []))).
  split.
  - unfold extract_single_axis_features. rewrite Hs.
    unfold Py.bind at 1. rewrite Htf. unfold Py.bind at 1. rewrite Hff.
    reflexivity.
  - match goal with |- context [frame_of_dict ?d] =>
      destruct (frame_of_dict_shape d) as [S0 S1] end.
    split; [exact S0|].
    rewrite S1, !dict_keys_add_features, Ktf, Kff, <- signal_keys_eq.
    apply single_axis_count.
Qed.

End FrameShape.

(** C3 (as amended).  At a non-zero sampling rate the feature frame has
    exactly one row, and its column count is [20 * min 7 ncols] for the
    full strategy on a matrix of [ncols] columns with at least one row,
    60 for the 3-axis strategy and 20 for each single-axis strategy on
    an array that holds at least one sample of at least one channel (a
    fortiori on every such array of length 2 or more). *)
Theorem feature_frame_shape (sampling_rate : R) :
  sampling_rate <> 0%R ->
  (forall ncols rows,
     rows <> [] ->
     exists df,
       extract_features_from_multi_channel_data (Arr2 ncols rows)
                                                sampling_rate = Return df /\
       df_shape0 df = 1%nat /\ df_shape1 df = (20 * Nat.min 7 ncols)%nat) /\
  (forall a g,
     has_signal a ->
     exists df g',
       extract_3axis_features a sampling_rate g = (Return df, g') /\
       df_shape0 df = 1%nat /\ df_shape1 df = 60%nat) /\
  (forall a axis_type,
     has_signal a ->
     exists df,
       extract_single_axis_features a sampling_rate axis_type = Return df /\
       df_shape0 df = 1%nat /\ df_shape1 df = 20%nat).
Proof.
  intros Hsr. repeat split.
  - intros ncols rows Hrows. apply (@full_strategy_shape sampling_rate Hsr ncols rows Hrows).
  - intros a g Ha. apply (@three_axis_shape sampling_rate Hsr a g Ha).
  - intros a axis_type Ha. apply (@single_axis_shape sampling_rate Hsr a axis_type Ha).
Qed.

Lemma feature_frame_shape_witness :
  exists df,
    extract_features_from_multi_channel_data
      (Arr2 7 [ [1; 2; 3; 4; 5; 6; 7]%R; [7; 6; 5; 4; 3; 2; 1]%R ]) 25000
    = Return df /\
    df_shape0 df = 1%nat /\ df_shape1 df = 140%nat.
Proof.
  assert (H : 25000%R <> 0%R) by lra.
  apply (proj1 (feature_frame_shape H) 7%nat). discriminate.
Defined.

(** C3 fails as stated on a matrix without columns, where the 3-axis and
    the single-axis strategies index column -1 and raise, and at
    sampling rate 0, where every strategy raises. *)
Lemma feature_frame_raises :
  fst (extract_3axis_features (Arr2 0 [ []; [] ]) 25000 (fun _ => 0%R)) =
    Raise (Exn IndexError "index is out of bounds for axis 1") /\
  extract_single_axis_features (Arr2 0 [ []; [] ]) 25000 "axial" =
    Raise (Exn IndexError "index is out of bounds for axis 1") /\
  extract_features_from_multi_channel_data (Arr2 1 [ [1%R]; [2%R] ]) 0 =
    Raise (Exn ZeroDivisionError "division by zero").
Proof.
  split; [reflexivity|]. split; [reflexivity|].
  unfold extract_features_from_multi_channel_data.
  cbn [shape1 Py.bind]. cbv zeta.
  assert (Hrun : pfor [("tachometer", [1%R; 2%R])] (channel_features 0) []
                 = Raise (Exn ZeroDivisionError "division by zero")).
  { rewrite pfor_cons. unfold channel_features. cbv zeta. unfold fst, snd.
    destruct (@time_features_keys [1%R; 2%R]) as (tf & Htf & _);
      [discriminate|].
    rewrite Htf. unfold Py.bind at 2.
    rewrite frequency_features_rate_zero by discriminate. reflexivity. }
  exact (f_equal (fun m => Py.bind m (fun all_features =>
                               Return (frame_of_dict all_features))) Hrun).
Qed.

(** ** Arrays built from the record *)

Lemma np_array_well_shaped (v : samples_value) (a : ndarray) :
  np_array v = Return a -> well_shaped a.
Proof.
  destruct v as [l|[|r rs]]; cbn [np_array].
  - intros H. injection H as <-. exact I.
  - intros H. injection H as <-. exact I.
  - destruct (forallb (fun r' => (List.length r' =? List.length r)%nat) rs)
      eqn:E; [|discriminate].
    intros H. injection H as <-. cbn [well_shaped].
    constructor; [reflexivity|].
    apply Forall_forall. intros r' Hr'.
    rewrite forallb_forall in E. apply Nat.eqb_eq, E, Hr'.
Qed.

(** ** Dispatch on the model name *)

Section Dispatch.

Lemma prefix_iff (a s : string) :
  String.prefix a s = true <-> exists post, s = a ++ post.
Proof.
  revert s. induction a as [|c a IH]; intros s.
  - split; [intros _; exists s; reflexivity|intros _; destruct s; reflexivity].
  - destruct s as [|d s]; cbn [String.prefix].
    + split; [discriminate|]. intros [post H]. discriminate.
    + destruct (ascii_dec c d) as [->|Hcd].
      * rewrite IH. split; intros [post H]; exists post.
        -- cbn [String.append]. rewrite <- H. reflexivity.
        -- cbn [String.append] in H. injection H as H. exact H.
      * split; [discriminate|]. intros [post H].
        cbn [String.append] in H. congruence.
Qed.

Lemma contains_iff (needle s : string) :
  contains needle s = true <-> exists pre post, s = pre ++ needle ++ post.
Proof.
  split.
  - induction s as [|c s IH]; cbn [contains]; intros H;
      apply orb_true_iff in H as [H|H].
    + apply prefix_iff in H as [post H]. exists "", post. exact H.
    + discriminate.
    + apply prefix_iff in H as [post H]. exists "", post. exact H.
    + destruct (IH H) as (pre & post & ->).
      exists (String c pre), post. reflexivity.
  - intros (pre & post & ->). induction pre as [|c pre IH].
    + cbn [String.append].
      assert (H : String.prefix needle (needle ++ post) = true)
        by (apply prefix_iff; exists post; reflexivity).
      destruct (needle ++ post); cbn [contains]; rewrite H; reflexivity.
    + cbn [String.append contains]. rewrite IH. apply orb_true_r.
Qed.

Lemma lower_app (a b : string) : lower (a ++ b) = lower a ++ lower b.
Proof.
  induction a as [|c a IH]; [reflexivity|].
  cbn [String.append lower]. rewrite IH. reflexivity.
Qed.

Lemma lower_split (x y s : string) :
  lower s = x ++ y ->
  exists a b, s = a ++ b /\ lower a = x /\ lower b = y.
Proof.
  revert s. induction x as [|c x IH]; intros s H.
  - exists "", s. repeat split. exact H.
  - destruct s as [|d s]; [discriminate|].
    cbn [lower String.append] in H. injection H as Hc H.
    destruct (IH s H) as (a & b & -> & Ha & Hb).
    exists (String d a), b. repeat split; [|exact Hb].
    cbn [lower]. rewrite Hc, Ha. reflexivity.
Qed.

Lemma contains_lower_iff (needle name : string) :
  contains needle (lower name) = true <-> ci_substring needle name.
Proof.
  rewrite contains_iff. unfold ci_substring. split.
  - intros (pre & post & H).
    apply lower_split in H as (a & b & -> & _ & Hb).
    apply lower_split in Hb as (m & c & -> & Hm & _).
    exists a, m, c. split; [reflexivity|exact Hm].
  - intros (pre & mid & post & -> & Hm).
    exists (lower pre), (lower post).
    rewrite !lower_app, Hm. reflexivity.
Qed.

Lemma contains_lower_false (needle name : string) :
  ~ ci_substring needle name -> contains needle (lower name) = false.
Proof.
  intros H. destruct (contains needle (lower name)) eqn:E; [|reflexivity].
  exfalso. apply H, contains_lower_iff, E.
Qed.

End Dispatch.

(** C4.  [extract_features_by_model_type] dispatches on case-insensitive
    occurrences in the model name, in this order: "3axis" selects the
    3-axis strategy, whatever else the name contains; otherwise "axial",
    "radial" or "tangential" selects that single-axis strategy;
    otherwise the full strategy is used.  A name with both "3axis" and
    "axial" goes to the 3-axis strategy. *)
Theorem dispatch_by_model_name
    (samples_data : ndarray) (model_name : string) (sampling_rate : R) :
  (ci_substring "3axis" model_name ->
   extract_features_by_model_type samples_data model_name sampling_rate =
   extract_3axis_features samples_data sampling_rate) /\
  (~ ci_substring "3axis" model_name ->
   ci_substring "axial" model_name ->
   extract_features_by_model_type samples_data model_name sampling_rate =
   rlift (extract_single_axis_features samples_data sampling_rate
                                       "axial")) /\
  (~ ci_substring "3axis" model_name ->
   ~ ci_substring "axial" model_name ->
   ci_substring "radial" model_name ->
   extract_features_by_model_type samples_data model_name sampling_rate =
   rlift (extract_single_axis_features samples_data sampling_rate
                                       "radial")) /\
  (~ ci_substring "3axis" model_name ->
   ~ ci_substring "axial" model_name ->
   ~ ci_substring "radial" model_name ->
   ci_substring "tangential" model_name ->
   extract_features_by_model_type samples_data model_name sampling_rate =
   rlift (extract_single_axis_features samples_data sampling_rate
                                       "tangential")) /\
  (~ ci_substring "3axis" model_name ->
   ~ ci_substring "axial" model_name ->
   ~ ci_substring "radial" model_name ->
   ~ ci_substring "tangential" model_name ->
   extract_features_by_model_type samples_data model_name sampling_rate =
   rlift (extract_features_from_multi_channel_data samples_data
                                                   sampling_rate)) /\
  extract_features_by_model_type samples_data "RF_Axial_3AXIS_25000"
                                 sampling_rate =
  extract_3axis_features samples_data sampling_rate.
Proof.
  unfold extract_features_by_model_type at 1 2 3 4 5.
  repeat split.
  - intros H3. rewrite (proj2 (contains_lower_iff _ _) H3). reflexivity.
  - intros N3 Ha. rewrite (contains_lower_false N3).
    rewrite (proj2 (contains_lower_iff _ _) Ha). reflexivity.
  - intros N3 Na Hr. rewrite (contains_lower_false N3).
    rewrite (contains_lower_false Na).
    rewrite (proj2 (contains_lower_iff _ _) Hr). reflexivity.
  - intros N3 Na Nr Ht. rewrite (contains_lower_false N3).
    rewrite (contains_lower_false Na), (contains_lower_false Nr).
    rewrite (proj2 (contains_lower_iff _ _) Ht). reflexivity.
  - intros N3 Na Nr Nt. rewrite (contains_lower_false N3).
    rewrite (contains_lower_false Na), (contains_lower_false Nr).
    rewrite (contains_lower_false Nt). reflexivity.
Qed.

(** ** The sampling rate read off the model name *)

Section SamplingRate.

Lemma scan_parts_find (parts : list string) (default : Z) :
  scan_parts parts default =
  match find isdigit parts with
  | Some t => int_of_digits t
  | None => default
  end.
Proof.
  induction parts as [|part parts IH]; [reflexivity|].
  cbn [scan_parts find]. destruct (isdigit part); [reflexivity|exact IH].
Qed.

Lemma split_nonempty (sep : ascii) (s : string) : split sep s <> [].
Proof.
  destruct s as [|c s]; cbn [split]; [discriminate|].
  destruct (Ascii.eqb c sep); [discriminate|].
  destruct (split sep s); discriminate.
Qed.

(** [split] inverts [join]: the tokens, put back around the separator,
    give the string. *)
Lemma join_split (sep : ascii) (s : string) : join sep (split sep s) = s.
Proof.
  induction s as [|c s IH]; [reflexivity|].
  cbn [split]. destruct (Ascii.eqb_spec c sep) as [->|_].
  - pose proof (@split_nonempty sep s) as Hne.
    destruct (split sep s) as [|t ts]; [contradiction|].
    cbn [join String.append] in *. rewrite IH. reflexivity.
  - destruct (split sep s) as [|t ts];
      [cbn [join] in *; rewrite <- IH; reflexivity|].
    destruct ts as [|u us]; cbn [join String.append] in *.
    + rewrite IH. reflexivity.
    + rewrite IH. reflexivity.
Qed.

Lemma contains_sep_cons (sep c : ascii) (s : string) :
  contains (String sep "") (String c s) =
  Ascii.eqb c sep || contains (String sep "") s.
Proof.
  cbn [contains String.prefix].
  destruct (ascii_dec sep c) as [->|H].
  - rewrite Ascii.eqb_refl. destruct s; reflexivity.
  - destruct (Ascii.eqb_spec c sep) as [->|_]; [contradiction|]. reflexivity.
Qed.

(** Without a separator the identifier is its only token. *)
Lemma split_without_sep (sep : ascii) (s : string) :
  contains (String sep "") s = false -> split sep s = [s].
Proof.
  induction s as [|c s IH]; [reflexivity|].
  rewrite contains_sep_cons. intros H.
  apply orb_false_iff in H as [Hc Hs].
  cbn [split]. rewrite Hc, (IH Hs). reflexivity.
Qed.

Lemma all_digits_no_underscore (s : string) :
  all_digits s = true -> contains "_" s = false.
Proof.
  induction s as [|c s IH]; [reflexivity|].
  cbn [all_digits]. intros H. apply andb_true_iff in H as [Hc Hs].
  rewrite contains_sep_cons, (IH Hs), orb_false_r.
  destruct (Ascii.eqb_spec c "_") as [->|_]; [discriminate|reflexivity].
Qed.

Lemma isdigit_no_underscore (s : string) :
  isdigit s = true -> contains "_" s = false.
Proof.
  destruct s as [|c s]; [discriminate|]. apply all_digits_no_underscore.
Qed.

(** The rate the code infers, against the first numeric token. *)
Lemma infer_sampling_rate_tokens (model_name : string) :
  infer_sampling_rate model_name =
  if isdigit model_name then 25000%Z
  else rate_of_first_numeric_token model_name.
Proof.
  unfold infer_sampling_rate, rate_of_first_numeric_token.
  destruct (isdigit model_name) eqn:Hd.
  - rewrite (isdigit_no_underscore _ Hd). reflexivity.
  - destruct (contains "_" model_name) eqn:Hc.
    + apply scan_parts_find.
    + rewrite (split_without_sep _ _ Hc). cbn [find]. rewrite Hd.
      reflexivity.
Qed.

End SamplingRate.

(** ** The orchestrator *)

Section Predict.

Lemma classify_ok (model : Classifier) (df : DataFrame) (name : string)
    (rate : Z) (r : result) :
  classify model df name rate = Return r ->
  exists p, r = Ok p /\ model_used p = name /\ sampling_rate p = rate /\
            features_count p = df_shape1 df.
Proof.
  unfold classify, Py.bind.
  destruct (clf_predict model df) as [predicted|e]; [|discriminate].
  destruct (index0 predicted) as [pr|e]; [|discriminate].
  destruct (probability_dict model df) as [pd|e]; [|discriminate].
  intros H. injection H as <-. eexists. repeat split.
Qed.

Lemma predict_with_ok (models : dict Classifier) (data : dict samples_value)
    (name : string) (g g' : rng) (p : Prediction) :
  predict_with models data name g = (Return (Ok p), g') ->
  model_used p = name /\
  sampling_rate p = infer_sampling_rate name /\
  exists df,
    preprocess_data data name (IZR (infer_sampling_rate name)) g =
      (Return df, g') /\
    df_empty df = false /\
    features_count p = df_shape1 df.
Proof.
  unfold predict_with, rbind, rlift.
  destruct (dict_item name models) as [model|e]; [|discriminate].
  destruct (preprocess_data data name (IZR (infer_sampling_rate name)) g)
    as [[df|e] g1]; [|discriminate].
  destruct (df_empty df) eqn:Hempty; [discriminate|].
  destruct (classify model df name (infer_sampling_rate name)) as [r|e] eqn:E;
    [|discriminate].
  intros H. injection H as -> ->.
  apply classify_ok in E as (p' & Hp & Hm & Hs & Hf).
  injection Hp as <-. repeat split; try assumption.
  exists df. repeat split; assumption.
Qed.

(** [predict] serves the request with the resolved model, and turns an
    exception into an error result. *)
Lemma predict_resolved (models : dict Classifier) (data : dict samples_value)
    (requested : string) :
  predict models data requested =
  match resolved_model models requested with
  | Some name =>
      rtry (predict_with models data name)
           (fun e => rret (Error (exn_str e)))
  | None => rret (Error "No models available")
  end.
Proof.
  unfold predict, resolved_model.
  destruct (dict_mem requested models); cbn [negb]; [reflexivity|].
  destruct (dict_keys models) as [|first rest]; reflexivity.
Qed.

Lemma predict_ok_inv (models : dict Classifier) (data : dict samples_value)
    (requested : string) (g : rng) (p : Prediction) :
  fst (predict models data requested g) = Return (Ok p) ->
  exists name g',
    resolved_model models requested = Some name /\
    predict_with models data name g = (Return (Ok p), g').
Proof.
  rewrite predict_resolved.
  destruct (resolved_model models requested) as [name|]; [|discriminate].
  unfold rtry.
  destruct (predict_with models data name g) as [[r|e] g'] eqn:E;
    cbn [fst rret]; [|discriminate].
  intros H. injection H as ->. exists name, g'. split; [reflexivity|exact E].
Qed.

End Predict.

(** C5 (as amended).  The sampling rate [predict] uses and reports is
    read off the name of the model it runs: the integer value of the
    first token of the name, split on "_", that is all digits, and 25000
    when there is no such token or when the name holds no "_" at all (a
    name that is itself all digits yields 25000).  The name
    "myRF_3axis_50000" yields 50000. *)
Theorem sampling_rate_inference (model_name : string) :
  (contains "_" model_name = true ->
   infer_sampling_rate model_name = rate_of_first_numeric_token model_name) /\
  (contains "_" model_name = false ->
   infer_sampling_rate model_name = 25000%Z) /\
  infer_sampling_rate model_name =
    (if isdigit model_name then 25000%Z
     else rate_of_first_numeric_token model_name) /\
  infer_sampling_rate "myRF_3axis_50000" = 50000%Z /\
  (forall models data g p,
     fst (predict models data model_name g) = Return (Ok p) ->
     sampling_rate p = infer_sampling_rate (model_used p)).
Proof.
  split.
  { intros Hc. unfold infer_sampling_rate, rate_of_first_numeric_token.
    rewrite Hc. apply scan_parts_find. }
  split.
  { intros Hc. unfold infer_sampling_rate. rewrite Hc. reflexivity. }
  split; [apply infer_sampling_rate_tokens|]. split; [reflexivity|].
  intros models data g p H.
  apply predict_ok_inv in H as (name & g' & _ & H).
  apply predict_with_ok in H as (Hm & Hs & _).
  rewrite Hm, Hs. reflexivity.
Qed.

(** C5 fails as stated on an identifier without "_" that is all digits:
    the only token of "50000" is numeric, yet the rate stays 25000. *)
Lemma numeric_name_keeps_default :
  split "_" "50000" = ["50000"] /\
  isdigit "50000" = true /\
  rate_of_first_numeric_token "50000" = 50000%Z /\
  infer_sampling_rate "50000" = 25000%Z.
Proof. repeat split. Qed.

(** ** Failures are results *)

Section Failures.

Lemma preprocess_data_returns (data : dict samples_value) (name : string)
    (rate : R) (g : rng) :
  exists df, fst (preprocess_data data name rate g) = Return df.
Proof.
  unfold preprocess_data, rtry.
  destruct (preprocess_body data name rate g) as [[df|e] g'].
  - exists df. reflexivity.
  - exists empty_frame. reflexivity.
Qed.

Lemma rtry_returns {A : Type} (m : rnd A) (h : exn -> A) (g : rng) :
  exists a, fst (rtry m (fun e => rret (h e)) g) = Return a.
Proof.
  unfold rtry. destruct (m g) as [[a|e] g'].
  - exists a. reflexivity.
  - exists (h e). reflexivity.
Qed.

Lemma predict_returns (models : dict Classifier) (data : dict samples_value)
    (name : string) (g : rng) :
  exists r, fst (predict models data name g) = Return r.
Proof.
  unfold predict. apply (rtry_returns _ (fun e => Error (exn_str e))).
Qed.

(** The run of [predict_with] once the model is found and the features
    are extracted. *)
Lemma predict_with_run (models : dict Classifier) (data : dict samples_value)
    (name : string) (model : Classifier) (df : DataFrame) (g g' : rng) :
  dict_get name models = Some model ->
  preprocess_data data name (IZR (infer_sampling_rate name)) g =
    (Return df, g') ->
  predict_with models data name g =
  (if df_empty df then Return (Error "No features extracted")
   else classify model df name (infer_sampling_rate name), g').
Proof.
  intros Hm Hp. unfold predict_with, dict_item. rewrite Hm.
  unfold rbind at 1, rlift at 1. unfold rbind. rewrite Hp.
  destruct (df_empty df); reflexivity.
Qed.

Lemma resolved_model_loaded (models : dict Classifier) (requested n : string) :
  resolved_model models requested = Some n ->
  exists model, dict_get n models = Some model.
Proof.
  unfold resolved_model, dict_mem.
  destruct (dict_get requested models) as [model|] eqn:E.
  - intros H. injection H as <-. exists model. exact E.
  - destruct models as [|[first model] rest]; [discriminate|].
    cbn [dict_keys map fst hd_error]. intros H. injection H as <-.
    exists model. cbn [dict_get]. rewrite String.eqb_refl. reflexivity.
Qed.

Lemma resolved_model_some (models : dict Classifier) (requested : string) :
  models <> [] -> exists n, resolved_model models requested = Some n.
Proof.
  intros Hne. unfold resolved_model.
  destruct (dict_mem requested models); [eexists; reflexivity|].
  destruct models as [|[first model] rest]; [contradiction|].
  eexists. reflexivity.
Qed.

(** The outcome of [predict] with the model found and the features
    extracted: the classification, or its exception as an error. *)
Lemma predict_run (models : dict Classifier) (data : dict samples_value)
    (requested n : string) (model : Classifier) (df : DataFrame)
    (g g' : rng) :
  resolved_model models requested = Some n ->
  dict_get n models = Some model ->
  preprocess_data data n (IZR (infer_sampling_rate n)) g = (Return df, g') ->
  predict models data requested g =
  (if df_empty df then Return (Error "No features extracted")
   else match classify model df n (infer_sampling_rate n) with
        | Return r => Return r
        | Raise e => Return (Error (exn_str e))
        end, g').
Proof.
  intros Hr Hm Hp. rewrite predict_resolved, Hr. unfold rtry.
  erewrite predict_with_run; [|exact Hm|exact Hp].
  destruct (df_empty df); [reflexivity|].
  destruct (classify model df n (infer_sampling_rate n)); reflexivity.
Qed.

End Failures.

(** C6 (as amended).  [predict] always returns a result and never
    raises: without loaded models the result is the error "No models
    available"; with an empty feature frame it is the error "No
    features extracted"; an exception of the model's prediction or of
    its probability estimation comes back as the error of its message;
    an exception during preprocessing is caught inside
    [preprocess_data], which returns an empty frame, and so comes back
    as the error "No features extracted", without its message. *)
Theorem predict_never_raises (models : dict Classifier)
    (data : dict samples_value) (requested : string) (g : rng) :
  (exists r, fst (predict models data requested g) = Return r) /\
  fst (predict [] data requested g) = Return (Error "No models available") /\
  (forall n model df g',
     resolved_model models requested = Some n ->
     dict_get n models = Some model ->
     preprocess_data data n (IZR (infer_sampling_rate n)) g
       = (Return df, g') ->
     (df_empty df = true ->
      fst (predict models data requested g) =
      Return (Error "No features extracted")) /\
     (forall e,
        df_empty df = false ->
        clf_predict model df = Raise e ->
        fst (predict models data requested g) =
        Return (Error (exn_str e))) /\
     (forall label labels predict_proba e,
        df_empty df = false ->
        clf_predict model df = Return (label :: labels) ->
        clf_predict_proba model = Some predict_proba ->
        predict_proba df = Raise e ->
        fst (predict models data requested g) =
        Return (Error (exn_str e)))) /\
  (forall n rate g0,
     (exists df, fst (preprocess_data data n rate g0) = Return df) /\
     (forall e g1,
        preprocess_body data n rate g0 = (Raise e, g1) ->
        preprocess_data data n rate g0 = (Return empty_frame, g1) /\
        df_empty empty_frame = true)) /\
  (forall n e g1,
     resolved_model models requested = Some n ->
     preprocess_body data n (IZR (infer_sampling_rate n)) g = (Raise e, g1) ->
     predict models data requested g =
     (Return (Error "No features extracted"), g1)).
Proof.
  split; [apply predict_returns|]. split; [reflexivity|]. split; [|split].
  - intros n model df g' Hr Hm Hp.
    pose proof (@predict_run models data requested n model df g g' Hr Hm Hp)
      as Hrun.
    repeat split.
    + intros He. rewrite Hrun, He. reflexivity.
    + intros e He Hc. rewrite Hrun, He. unfold classify.
      rewrite Hc. reflexivity.
    + intros label labels predict_proba e He Hc Hpp Hraise.
      rewrite Hrun, He. unfold classify, probability_dict.
      rewrite Hc, Hpp, Hraise. reflexivity.
  - intros n rate g0. split; [apply preprocess_data_returns|].
    intros e g1 Hb. split; [|reflexivity].
    unfold preprocess_data, rtry. rewrite Hb. reflexivity.
  - intros n e g1 Hr Hb.
    destruct (@resolved_model_loaded models requested n Hr) as [model Hm].
    assert (Hp : preprocess_data data n (IZR (infer_sampling_rate n)) g =
                 (Return empty_frame, g1)).
    { unfold preprocess_data, rtry. rewrite Hb. reflexivity. }
    rewrite (@predict_run models data requested n model empty_frame g g1
               Hr Hm Hp).
    reflexivity.
Qed.

(** C6 fails as stated on an exception during preprocessing: for rows
    of unequal length [np.array] raises a [ValueError] inside
    [preprocess_data]; [predict] answers "No features extracted", not
    the message of the exception. *)
Lemma preprocessing_message_lost :
  exists e,
    preprocess_body [("samples", NestedList [[1%R; 2%R]; [3%R]])]
                    "myRF_3axis_25000"
                    (IZR (infer_sampling_rate "myRF_3axis_25000")) still_rng =
      (Raise e, still_rng) /\
    fst (predict [("myRF_3axis_25000", constant_classifier 0)]
                 [("samples", NestedList [[1%R; 2%R]; [3%R]])]
                 "myRF_3axis_25000" still_rng) =
      Return (Error "No features extracted") /\
    Error "No features extracted" <> Error (exn_str e).
Proof.
  eexists. split; [reflexivity|]. split; [|discriminate].
  assert (Hp : preprocess_data [("samples", NestedList [[1%R; 2%R]; [3%R]])]
                 "myRF_3axis_25000"
                 (IZR (infer_sampling_rate "myRF_3axis_25000")) still_rng =
               (Return empty_frame, still_rng)) by reflexivity.
  rewrite (@predict_run [("myRF_3axis_25000", constant_classifier 0)]
             [("samples", NestedList [[1%R; 2%R]; [3%R]])]
             "myRF_3axis_25000" "myRF_3axis_25000" (constant_classifier 0)
             empty_frame still_rng still_rng eq_refl eq_refl Hp).
  reflexivity.
Qed.

(** C10.  For a record without the key "samples", [preprocess_data]
    returns the empty frame, and [predict], with a model loaded, returns
    the error "No features extracted". *)
Theorem missing_samples_no_features (data : dict samples_value) :
  dict_mem "samples" data = false ->
  (forall name rate g,
     preprocess_data data name rate g = (Return empty_frame, g)) /\
  (forall models requested g,
     models <> [] ->
     predict models data requested g =
     (Return (Error "No features extracted"), g)).
Proof.
  intros Hs.
  assert (Hpre : forall name rate g,
            preprocess_data data name rate g = (Return empty_frame, g)).
  { intros name rate g. unfold preprocess_data, preprocess_body, rtry.
    rewrite Hs. reflexivity. }
  split; [exact Hpre|].
  intros models requested g Hne.
  destruct (@resolved_model_some models requested Hne) as [n Hr].
  destruct (@resolved_model_loaded models requested n Hr) as [model Hm].
  rewrite (@predict_run models data requested n model empty_frame g g
             Hr Hm (Hpre n _ g)).
  reflexivity.
Qed.

Lemma missing_samples_no_features_witness :
  predict [("myRF_3axis_25000", constant_classifier 0)]
          [("sampling_rate", FlatList [25000%R])]
          "myRF_3axis_25000" still_rng =
  (Return (Error "No features extracted"), still_rng).
Proof.
  apply (proj2 (@missing_samples_no_features
                  [("sampling_rate", FlatList [25000%R])] eq_refl)).
  discriminate.
Defined.

(** ** Substitution of an unknown model *)

(** C7.  When the requested model is not loaded and at least one model
    is, [predict] proceeds with the first loaded model: it extracts the
    features under the name of that model, at the rate inferred from
    that name, runs the classifier of that model on them, and returns
    what that gives.  Whenever the classifier labels the features the
    result is a prediction whose [model_used] is the first model, whose
    [sampling_rate] is the one inferred from its name and whose
    [features_count] is the width of the frame extracted under its
    name. *)
Theorem unknown_model_substitution (models : dict Classifier)
    (data : dict samples_value) (requested first : string)
    (model : Classifier) (rest : dict Classifier) (g : rng) :
  dict_mem requested models = false ->
  models = (first, model) :: rest ->
  resolved_model models requested = Some first /\
  predict models data requested g = predict models data first g /\
  (exists df g',
     preprocess_data data first (IZR (infer_sampling_rate first)) g =
       (Return df, g')) /\
  (forall df g',
     preprocess_data data first (IZR (infer_sampling_rate first)) g =
       (Return df, g') ->
     predict models data requested g =
       (if df_empty df then Return (Error "No features extracted")
        else match classify model df first (infer_sampling_rate first) with
             | Return r => Return r
             | Raise e => Return (Error (exn_str e))
             end, g') /\
     (forall label labels pd,
        df_empty df = false ->
        clf_predict model df = Return (label :: labels) ->
        probability_dict model df = Return pd ->
        exists p,
          predict models data requested g = (Return (Ok p), g') /\
          model_used p = first /\
          sampling_rate p = infer_sampling_rate first /\
          features_count p = df_shape1 df /\
          probabilities p = pd)) /\
  (forall p,
     fst (predict models data requested g) = Return (Ok p) ->
     model_used p = first /\
     sampling_rate p = infer_sampling_rate first /\
     exists df g',
       preprocess_data data first (IZR (infer_sampling_rate first)) g =
         (Return df, g') /\
       features_count p = df_shape1 df).
Proof.
  intros Hmem ->.
  assert (Hr : resolved_model ((first, model) :: rest) requested = Some first).
  { unfold resolved_model. rewrite Hmem. reflexivity. }
  assert (Hf : resolved_model ((first, model) :: rest) first = Some first).
  { unfold resolved_model, dict_mem. cbn [dict_get].
    rewrite String.eqb_refl. reflexivity. }
  assert (Hm : dict_get first ((first, model) :: rest) = Some model).
  { cbn [dict_get]. rewrite String.eqb_refl. reflexivity. }
  split; [exact Hr|]. split; [|split; [|split]].
  - rewrite !predict_resolved, Hr, Hf. reflexivity.
  - destruct (preprocess_data_returns data first
                (IZR (infer_sampling_rate first)) g) as [df Hdf].
    destruct (preprocess_data data first (IZR (infer_sampling_rate first)) g)
      as [r g'].
    cbn [fst] in Hdf. subst r. exists df, g'. reflexivity.
  - intros df g' Hpre.
    pose proof (@predict_run ((first, model) :: rest) data requested first
                  model df g g' Hr Hm Hpre) as Hrun.
    split; [exact Hrun|].
    intros label labels pd Hne Hc Hpd. rewrite Hrun, Hne.
    unfold classify. rewrite Hc. cbn [Py.bind index0]. rewrite Hpd.
    cbn [Py.bind]. eexists. split; [reflexivity|].
    repeat split.
  - intros p Hp. apply predict_ok_inv in Hp as (n & g' & Hn & Hrun).
    rewrite Hr in Hn. injection Hn as <-.
    apply predict_with_ok in Hrun as (Hmu & Hs & df & Hpre & _ & Hc).
    repeat split; try assumption. exists df, g'. split; assumption.
Qed.

(** ** Determinism on two-dimensional input *)

Section Determinism.

Lemma draws_nothing_ret {A : Type} (a : A) : draws_nothing (rret a).
Proof. exists (Return a). reflexivity. Qed.

Lemma draws_nothing_lift {A : Type} (m : py A) : draws_nothing (rlift m).
Proof. exists m. reflexivity. Qed.

Lemma draws_nothing_bind {A B : Type} (m : rnd A) (k : A -> rnd B) :
  draws_nothing m -> (forall a, draws_nothing (k a)) ->
  draws_nothing (rbind m k).
Proof.
  intros [[a|e] Hm] Hk.
  - destruct (Hk a) as [r Hr]. exists r. intros g.
    unfold rbind. rewrite Hm. apply Hr.
  - exists (Raise e). intros g. unfold rbind. rewrite Hm. reflexivity.
Qed.

Lemma draws_nothing_try {A : Type} (m : rnd A) (h : exn -> rnd A) :
  draws_nothing m -> (forall e, draws_nothing (h e)) ->
  draws_nothing (rtry m h).
Proof.
  intros [[a|e] Hm] Hh.
  - exists (Return a). intros g. unfold rtry. rewrite Hm. reflexivity.
  - destruct (Hh e) as [r Hr]. exists r. intros g.
    unfold rtry. rewrite Hm. apply Hr.
Qed.

Lemma draws_nothing_for {A S : Type} (l : list A) (body : A -> S -> rnd S) :
  (forall a s, draws_nothing (body a s)) ->
  forall s, draws_nothing (rfor l body s).
Proof.
  intros Hbody. induction l as [|a l IH]; intros s.
  - apply draws_nothing_ret.
  - rewrite rfor_cons. apply draws_nothing_bind; [apply Hbody|exact IH].
Qed.

Create HintDb pure_rnd.
Hint Resolve draws_nothing_ret draws_nothing_lift : pure_rnd.

(** On a matrix no branch of the 3-axis strategy reaches the generator. *)
Lemma three_axis_matrix_draws_nothing (ncols : nat) (rows : list (list R))
    (rate : R) :
  draws_nothing (extract_3axis_features (Arr2 ncols rows) rate).
Proof.
  unfold extract_3axis_features.
  apply draws_nothing_bind; [|auto with pure_rnd].
  apply draws_nothing_for. intros [i axis] d. unfold axis_features.
  cbv zeta. unfold axis_signal.
  repeat (apply draws_nothing_bind; [auto with pure_rnd|intros ?]).
  auto with pure_rnd.
Qed.

Lemma extraction_matrix_draws_nothing (ncols : nat) (rows : list (list R))
    (name : string) (rate : R) :
  draws_nothing (extract_features_by_model_type (Arr2 ncols rows) name rate).
Proof.
  unfold extract_features_by_model_type.
  destruct (contains "3axis" (lower name));
    [apply three_axis_matrix_draws_nothing|].
  repeat match goal with
         | |- context [if ?b then _ else _] => destruct b
         end; auto with pure_rnd.
Qed.

Lemma rbind_lift_return {A B : Type} (a : A) (k : A -> rnd B) :
  rbind (rlift (Return a)) k = k a.
Proof. reflexivity. Qed.

Lemma rbind_lift_raise {A B : Type} (e : exn) (k : A -> rnd B) :
  rbind (rlift (Raise e)) k = rlift (Raise e).
Proof. reflexivity. Qed.

(** The [try] block on a nested list of rows: the matrix goes to the
    extraction as it is, and rows of unequal length are refused. *)
Lemma preprocess_body_nested (data : dict samples_value)
    (r : list R) (rs : list (list R)) (name : string) (rate : R) :
  dict_get "samples" data = Some (NestedList (r :: rs)) ->
  preprocess_body data name rate =
  if forallb (fun r' => (List.length r' =? List.length r)%nat) rs
  then extract_features_by_model_type (Arr2 (List.length r) (r :: rs))
                                      name rate
  else rlift (Raise (Exn ValueError
    "setting an array element with a sequence. The requested array has an inhomogeneous shape")).
Proof.
  intros Hs. unfold preprocess_body, dict_mem, dict_item. rewrite Hs.
  rewrite rbind_lift_return. cbn [np_array].
  destruct (forallb (fun r' => (List.length r' =? List.length r)%nat) rs).
  - reflexivity.
  - reflexivity.
Qed.

Lemma preprocess_nested_draws_nothing (data : dict samples_value)
    (r : list R) (rs : list (list R)) (name : string) (rate : R) :
  dict_get "samples" data = Some (NestedList (r :: rs)) ->
  draws_nothing (preprocess_data data name rate).
Proof.
  intros Hs. unfold preprocess_data.
  apply draws_nothing_try; [|auto with pure_rnd].
  rewrite (preprocess_body_nested _ _ _ Hs).
  destruct (forallb (fun r' => (List.length r' =? List.length r)%nat) rs).
  - apply extraction_matrix_draws_nothing.
  - apply draws_nothing_lift.
Qed.

Lemma predict_with_draws_nothing (models : dict Classifier)
    (data : dict samples_value) (r : list R) (rs : list (list R))
    (name : string) :
  dict_get "samples" data = Some (NestedList (r :: rs)) ->
  draws_nothing (predict_with models data name).
Proof.
  intros Hs. unfold predict_with.
  apply draws_nothing_bind; [auto with pure_rnd|intros model].
  apply draws_nothing_bind;
    [apply (preprocess_nested_draws_nothing _ _ _ Hs)|intros df].
  destruct (df_empty df); auto with pure_rnd.
Qed.

Lemma predict_draws_nothing (models : dict Classifier)
    (data : dict samples_value) (r : list R) (rs : list (list R))
    (requested : string) :
  dict_get "samples" data = Some (NestedList (r :: rs)) ->
  draws_nothing (predict models data requested).
Proof.
  intros Hs. rewrite predict_resolved.
  destruct (resolved_model models requested) as [name|];
    [|auto with pure_rnd].
  apply draws_nothing_try; [|auto with pure_rnd].
  eapply predict_with_draws_nothing. exact Hs.
Qed.

End Determinism.

(** C9.  On a record whose samples are a nested list of rows, that is a
    two-dimensional input, [predict] consults no random source: the
    result does not depend on the state of the generator, the state is
    left as it was, and two invocations on the same record, with the
    same loaded classifiers and the same model name, give the same
    result. *)
Theorem matrix_input_deterministic (models : dict Classifier)
    (data : dict samples_value) (r : list R) (rs : list (list R))
    (requested : string) :
  dict_get "samples" data = Some (NestedList (r :: rs)) ->
  draws_nothing (predict models data requested) /\
  (forall g1 g2,
     fst (predict models data requested g1) =
     fst (predict models data requested g2)) /\
  (forall g, snd (predict models data requested g) = g).
Proof.
  intros Hs.
  pose proof (@predict_draws_nothing models data r rs requested Hs) as Hd.
  split; [exact Hd|]. destruct Hd as [res Hres]. split.
  - intros g1 g2. rewrite !Hres. reflexivity.
  - intros g. rewrite Hres. reflexivity.
Qed.

Lemma matrix_input_deterministic_witness :
  fst (predict [("myRF_3axis_25000", constant_classifier 3)]
               [("samples", NestedList [[1%R; 2%R]; [3%R; 4%R]])]
               "myRF_3axis_25000" still_rng) =
  fst (predict [("myRF_3axis_25000", constant_classifier 3)]
               [("samples", NestedList [[1%R; 2%R]; [3%R; 4%R]])]
               "myRF_3axis_25000" (fun n => INR n)).
Proof.
  exact (proj1 (proj2 (@matrix_input_deterministic
    [("myRF_3axis_25000", constant_classifier 3)]
    [("samples", NestedList [[1%R; 2%R]; [3%R; 4%R]])]
    [1%R; 2%R] [[3%R; 4%R]] "myRF_3axis_25000" eq_refl))
    still_rng (fun n => INR n)).
Defined.

(** ** The simulated channels *)

Section ChannelAssembly.
Local Open Scope R_scope.

Lemma length_set_nth (j : nat) (x : R) (r : list R) :
  List.length (set_nth j x r) = List.length r.
Proof.
  revert j. induction r as [|y r IH]; intros [|j]; cbn [set_nth List.length];
    try reflexivity.
  rewrite IH. reflexivity.
Qed.

Lemma nth_set_nth_same (j : nat) (x d : R) (r : list R) :
  (j < List.length r)%nat -> nth j (set_nth j x r) d = x.
Proof.
  revert j. induction r as [|y r IH]; intros [|j] H; cbn [List.length] in H;
    try lia; cbn [set_nth nth]; [reflexivity|].
  apply IH. lia.
Qed.

Lemma nth_set_nth_other (i j : nat) (x d : R) (r : list R) :
  i <> j -> nth j (set_nth i x r) d = nth j r d.
Proof.
  revert i j. induction r as [|y r IH]; intros [|i] [|j] H;
    cbn [set_nth nth]; try reflexivity; try contradiction.
  apply IH. intros E. apply H. rewrite E. reflexivity.
Qed.

Lemma length_set_col (i : nat) (col : list R) (rows : list (list R)) :
  List.length (set_col i col rows) = List.length rows.
Proof.
  revert col. induction rows as [|r rows IH]; intros [|x col];
    cbn [set_col List.length]; try reflexivity.
  rewrite IH. reflexivity.
Qed.

Lemma set_col_widths (m i : nat) (col : list R) (rows : list (list R)) :
  Forall (fun r => List.length r = m) rows ->
  Forall (fun r => List.length r = m) (set_col i col rows).
Proof.
  intros H. revert col. induction H as [|r rows Hr Hrows IH]; intros [|x col];
    cbn [set_col]; try (constructor; assumption).
  constructor; [rewrite length_set_nth; exact Hr|apply IH].
Qed.

Lemma column_set_col_same (m j : nat) (col : list R) (rows : list (list R)) :
  List.length col = List.length rows ->
  Forall (fun r => List.length r = m) rows -> (j < m)%nat ->
  column j (set_col j col rows) = col.
Proof.
  intros Hlen Hw Hj. revert col Hlen.
  induction Hw as [|r rows Hr _ IH]; intros [|x col] Hlen;
    try discriminate; [reflexivity|].
  cbn [set_col column map]. rewrite nth_set_nth_same by lia.
  f_equal. apply IH. injection Hlen as Hlen. exact Hlen.
Qed.

Lemma column_set_col_other (i j : nat) (col : list R) (rows : list (list R)) :
  i <> j -> column j (set_col i col rows) = column j rows.
Proof.
  intros Hij. revert col. induction rows as [|r rows IH]; intros [|x col];
    try reflexivity.
  cbn [set_col column map]. rewrite nth_set_nth_other by exact Hij.
  f_equal. apply IH.
Qed.

Lemma zeros_shape (n m : nat) :
  List.length (zeros n m) = n /\
  Forall (fun r => List.length r = m) (zeros n m).
Proof.
  unfold zeros. split; [apply repeat_length|].
  apply Forall_forall. intros r Hr. apply repeat_spec in Hr as ->.
  apply repeat_length.
Qed.

Variable samples : list R.
Variable g : rng.

Let n := List.length samples.

(** A draw at a non-negative multiple of the deviation of [samples]
    never raises, delivers [len(samples)] values and advances the
    generator by as many variates. *)
Lemma normal_around_samples (factor : R) (g0 : rng) :
  0 <= factor ->
  exists noise,
    normal 0 (scale_by factor (np_std samples)) n g0 =
      (Return noise, rng_skip n g0) /\
    List.length noise = n.
Proof.
  intros Hf. unfold normal, n. destruct samples as [|x v] eqn:E.
  - cbn [np_std scale_by]. eexists. split; reflexivity.
  - assert (Hne : x :: v <> []) by discriminate.
    destruct (np_std_nonempty Hne) as (s & Hs & Hpos). rewrite Hs.
    cbn [scale_by]. destruct (Rlt_dec (factor * s) 0) as [H|_]; [nra|].
    eexists. split; [reflexivity|].
    unfold rng_take. rewrite !length_map, length_seq. reflexivity.
Qed.

Lemma noise_factor_nonneg (i : nat) : 0 <= 1 / 10 + INR i * (5 / 100).
Proof. pose proof (pos_INR i). nra. Qed.

(** One turn of the loop on a channel of vibration. *)
Lemma fill_channel_step (d : nat) (M : list (list R)) :
  (d < 6)%nat ->
  channels_filled samples g d M ->
  exists M',
    fill_channel samples (S d) M (Nat.iter d (rng_skip n) g) =
      (Return M', Nat.iter (S d) (rng_skip n) g) /\
    channels_filled samples g (S d) M'.
Proof.
  intros Hd (Hlen & Hw & Hch).
  destruct (@normal_around_samples (1 / 10 + INR (S d) * (5 / 100))
              (Nat.iter d (rng_skip n) g) (noise_factor_nonneg (S d)))
    as (noise & Hnoise & Hnlen).
  exists (set_col (S d) (vec_add samples noise) M). split.
  - unfold fill_channel. cbn [Nat.eqb]. cbv zeta.
    erewrite rbind_ret; [reflexivity|exact Hnoise].
  - split; [rewrite length_set_col; exact Hlen|].
    split; [apply set_col_widths, Hw|].
    intros i Hi. destruct (Nat.eq_dec i (S d)) as [->|Hne].
    + cbn [channel_filled]. exists noise. split; [exact Hnoise|].
      apply column_set_col_same with (m := 7%nat); [|exact Hw|lia].
      rewrite length_vec_add by (symmetry; exact Hnlen). symmetry. exact Hlen.
    + assert (Hle : (i <= d)%nat) by lia. specialize (Hch i Hle).
      destruct i as [|k]; cbn [channel_filled] in *.
      * rewrite column_set_col_other by discriminate. exact Hch.
      * destruct Hch as (nz & Hnz & Hcol). exists nz. split; [exact Hnz|].
        rewrite column_set_col_other by (intros E; apply Hne; rewrite E;
                                         reflexivity).
        exact Hcol.
Qed.

(** The turns [d + 1 .. d + m] of the loop. *)
Lemma fill_channels_from (m d : nat) (M : list (list R)) :
  (d + m <= 6)%nat ->
  channels_filled samples g d M ->
  exists M',
    rfor (seq (S d) m) (fill_channel samples) M (Nat.iter d (rng_skip n) g) =
      (Return M', Nat.iter (d + m) (rng_skip n) g) /\
    channels_filled samples g (d + m) M'.
Proof.
  revert d M. induction m as [|m IH]; intros d M Hdm HM.
  - exists M. rewrite Nat.add_0_r. split; [reflexivity|exact HM].
  - destruct (@fill_channel_step d M) as (M1 & Hstep & HM1); [lia|exact HM|].
    destruct (IH (S d) M1) as (M' & Hrun & HM'); [lia|exact HM1|].
    exists M'. replace (d + S m)%nat with (S d + m)%nat by lia.
    split; [|exact HM'].
    cbn [seq]. rewrite rfor_cons.
    erewrite rbind_ret; [exact Hrun|exact Hstep].
Qed.


End ChannelAssembly.



(** ** A complete run *)

Lemma single_row_frame_not_empty (df : DataFrame) (k : nat) :
  df_shape0 df = 1%nat -> df_shape1 df = S k -> df_empty df = false.
Proof.
  destruct df as [cols rows]. unfold df_shape0, df_shape1, df_empty.
  cbn [df_columns df_rows].
  destruct cols; [discriminate|]. destruct rows; [discriminate|]. reflexivity.
Qed.

(** A request for a model that is not loaded, served by the loaded model
    "myRF_axial_50000" on a matrix of two channels: 20 features, the
    rate 50000 of the name, and the class name of code 3. *)
Example axial_model_run :
  exists p,
    predict [("myRF_axial_50000", constant_classifier 3)]
            [("samples", NestedList [[1%R; 2%R]; [3%R; 4%R]])]
            "unknown" still_rng = (Return (Ok p), still_rng) /\
    prediction p = "imbalance" /\
    prediction_class p = PyInt 3 /\
    probabilities p = None /\
    model_used p = "myRF_axial_50000" /\
    features_count p = 20%nat /\
    sampling_rate p = 50000%Z.
Proof.
  assert (Hrate : infer_sampling_rate "myRF_axial_50000" = 50000%Z)
    by reflexivity.
  assert (Hsr : IZR 50000 <> 0%R) by lra.
  assert (Hsig : has_signal (Arr2 2 [[1%R; 2%R]; [3%R; 4%R]]))
    by (split; [lia|discriminate]).
  destruct (@single_axis_shape (IZR 50000) Hsr
              (Arr2 2 [[1%R; 2%R]; [3%R; 4%R]]) "axial" Hsig)
    as (df & Hdf & S0 & S1).
  assert (Hdispatch :
    extract_features_by_model_type (Arr2 2 [[1%R; 2%R]; [3%R; 4%R]])
                                   "myRF_axial_50000" (IZR 50000) still_rng =
    (extract_single_axis_features (Arr2 2 [[1%R; 2%R]; [3%R; 4%R]])
                                  (IZR 50000) "axial", still_rng))
    by reflexivity.
  assert (Hpre : preprocess_data
                   [("samples", NestedList [[1%R; 2%R]; [3%R; 4%R]])]
                   "myRF_axial_50000"
                   (IZR (infer_sampling_rate "myRF_axial_50000")) still_rng =
                 (Return df, still_rng)).
  { rewrite Hrate. unfold preprocess_data, rtry.
    rewrite (@preprocess_body_nested
               [("samples", NestedList [[1%R; 2%R]; [3%R; 4%R]])]
               [1%R; 2%R] [[3%R; 4%R]]
               "myRF_axial_50000" (IZR 50000) eq_refl).
    cbn [forallb List.length Nat.eqb andb].
    rewrite Hdispatch, Hdf. reflexivity. }
  rewrite (@predict_run [("myRF_axial_50000", constant_classifier 3)]
             [("samples", NestedList [[1%R; 2%R]; [3%R; 4%R]])]
             "unknown" "myRF_axial_50000"
             (constant_classifier 3) df still_rng still_rng
             eq_refl eq_refl Hpre).
  rewrite (single_row_frame_not_empty df S0 S1).
  unfold classify, constant_classifier, probability_dict.
  cbn [clf_predict clf_predict_proba index0 Py.bind].
  eexists. split; [reflexivity|].
  cbn [prediction prediction_class probabilities model_used features_count
       sampling_rate].
  repeat split; first [exact S1|exact Hrate].
Qed.

(** The frame of the same record under the model "myRF_axial_50000". *)
Lemma axial_model_frame :
  exists df,
    preprocess_data [("samples", NestedList [[1%R; 2%R]; [3%R; 4%R]])]
                    "myRF_axial_50000"
                    (IZR (infer_sampling_rate "myRF_axial_50000")) still_rng =
      (Return df, still_rng) /\
    df_empty df = false /\ df_shape1 df = 20%nat.
Proof.
  assert (Hrate : infer_sampling_rate "myRF_axial_50000" = 50000%Z)
    by reflexivity.
  assert (Hsr : IZR 50000 <> 0%R) by lra.
  assert (Hsig : has_signal (Arr2 2 [[1%R; 2%R]; [3%R; 4%R]]))
    by (split; [lia|discriminate]).
  destruct (@single_axis_shape (IZR 50000) Hsr
              (Arr2 2 [[1%R; 2%R]; [3%R; 4%R]]) "axial" Hsig)
    as (df & Hdf & S0 & S1).
  exists df. split; [|split; [exact (single_row_frame_not_empty df S0 S1)
                             |exact S1]].
  assert (Hdispatch :
    extract_features_by_model_type (Arr2 2 [[1%R; 2%R]; [3%R; 4%R]])
                                   "myRF_axial_50000" (IZR 50000) still_rng =
    (extract_single_axis_features (Arr2 2 [[1%R; 2%R]; [3%R; 4%R]])
                                  (IZR 50000) "axial", still_rng))
    by reflexivity.
  rewrite Hrate. unfold preprocess_data, rtry.
  rewrite (@preprocess_body_nested
             [("samples", NestedList [[1%R; 2%R]; [3%R; 4%R]])]
             [1%R; 2%R] [[3%R; 4%R]]
             "myRF_axial_50000" (IZR 50000) eq_refl).
  cbn [forallb List.length Nat.eqb andb].
  rewrite Hdispatch, Hdf. reflexivity.
Qed.

Lemma unknown_model_substitution_witness :
  exists p,
    predict [("myRF_axial_50000", constant_classifier 3)]
            [("samples", NestedList [[1%R; 2%R]; [3%R; 4%R]])]
            "unknown" still_rng = (Return (Ok p), still_rng) /\
    model_used p = "myRF_axial_50000" /\
    sampling_rate p = 50000%Z /\
    features_count p = 20%nat.
Proof.
  destruct axial_model_frame as (df & Hpre & Hne & S1).
  destruct (@unknown_model_substitution
              [("myRF_axial_50000", constant_classifier 3)]
              [("samples", NestedList [[1%R; 2%R]; [3%R; 4%R]])]
              "unknown" "myRF_axial_50000" (constant_classifier 3) []
              still_rng eq_refl eq_refl)
    as (_ & _ & _ & Hrun & _).
  destruct (Hrun df still_rng Hpre) as [_ Hok].
  destruct (Hok (NpScalar (PyInt 3)) [] None Hne eq_refl eq_refl)
    as (p & Hp & Hm & Hs & Hc & _).
  exists p. split; [exact Hp|]. split; [exact Hm|]. split; [exact Hs|].
  rewrite Hc. exact S1.
Defined.

(** * Further properties of the code *)

(** ** Time-domain features *)

Section TimeFeatures.
Local Open Scope R_scope.

Lemma max_list_spec (x : R) (l : list R) :
  In (max_list x l) (x :: l) /\ forall y, In y (x :: l) -> y <= max_list x l.
Proof.
  revert x. induction l as [|z l IH]; intros x.
  - cbn [max_list]. split; [left; reflexivity|].
    intros y [<-|[]]. lra.
  - cbn [max_list]. destruct (IH (Rmax x z)) as [Hin Hle]. split.
    + destruct Hin as [Hin|Hin]; [|right; right; exact Hin].
      rewrite <- Hin. unfold Rmax. destruct (Rle_dec x z).
      * right; left; reflexivity.
      * left; reflexivity.
    + intros y [<-|[<-|Hy]].
      * apply Rle_trans with (Rmax x z); [apply Rmax_l|].
        apply Hle. left. reflexivity.
      * apply Rle_trans with (Rmax x z); [apply Rmax_r|].
        apply Hle. left. reflexivity.
      * apply Hle. right. exact Hy.
Qed.

Lemma min_list_spec (x : R) (l : list R) :
  In (min_list x l) (x :: l) /\ forall y, In y (x :: l) -> min_list x l <= y.
Proof.
  revert x. induction l as [|z l IH]; intros x.
  - cbn [min_list]. split; [left; reflexivity|].
    intros y [<-|[]]. lra.
  - cbn [min_list]. destruct (IH (Rmin x z)) as [Hin Hle]. split.
    + destruct Hin as [Hin|Hin]; [|right; right; exact Hin].
      rewrite <- Hin. unfold Rmin. destruct (Rle_dec x z).
      * left; reflexivity.
      * right; left; reflexivity.
    + intros y [<-|[<-|Hy]].
      * apply Rle_trans with (Rmin x z); [|apply Rmin_l].
        apply Hle. left. reflexivity.
      * apply Rle_trans with (Rmin x z); [|apply Rmin_r].
        apply Hle. left. reflexivity.
      * apply Hle. right. exact Hy.
Qed.

(** The run of [compute_basic_time_features] on a non-empty signal. *)
Lemma time_features_run (x : R) (l : list R) :
  compute_basic_time_features (x :: l) =
  Return
    [ ("mean", np_mean (x :: l));
      ("std", np_std (x :: l));
      ("rms", np_sqrt (np_mean (map sq (x :: l))));
      ("max", Fin (max_list x l));
      ("min", Fin (min_list x l));
      ("peak_to_peak", Fin (max_list x l - min_list x l));
      ("mean_abs", np_mean (map Rabs (x :: l)));
      ("crest_factor",
        ratio_if_pos (Fin (max_list x l))
                     (np_sqrt (np_mean (map sq (x :: l)))));
      ("shape_factor",
        ratio_if_pos (np_sqrt (np_mean (map sq (x :: l))))
                     (np_mean (map Rabs (x :: l))));
      ("impulse_factor",
        ratio_if_pos (Fin (max_list x l)) (np_mean (map Rabs (x :: l))));
      ("skewness", skew (x :: l));
      ("kurtosis", kurtosis (x :: l));
      ("energy", Fin (np_sum (map sq (x :: l))));
      ("zero_crossing_rate",
        count_over_len (count_nonzero (np_diff (map np_sign (x :: l))))
                       (List.length (x :: l))) ].
Proof. reflexivity. Qed.

Lemma np_sum_cons (x : R) (l : list R) : np_sum (x :: l) = x + np_sum l.
Proof. reflexivity. Qed.

Lemma np_sum_sq_nonneg (l : list R) : 0 <= np_sum (map sq l).
Proof.
  induction l as [|x l IH]; [simpl; lra|].
  cbn [map]. rewrite np_sum_cons. unfold sq at 1.
  pose proof (Rle_0_sqr x) as H. unfold Rsqr in H. lra.
Qed.

Lemma length_pos_INR {A : Type} (x : A) (l : list A) :
  0 < INR (List.length (x :: l)).
Proof. apply lt_0_INR. cbn [List.length]. lia. Qed.

End TimeFeatures.

Section TimeFeatureFacts.
Local Open Scope R_scope.

Variable x : R.
Variable l : list R.

Let signal := x :: l.
Let n := INR (List.length signal).

Lemma signal_length_pos : 0 < n.
Proof. apply length_pos_INR. Qed.

(** The mean square, whose root is the RMS. *)
Lemma mean_square_nonneg : 0 <= np_sum (map sq signal) / n.
Proof.
  apply Rmult_le_pos; [apply np_sum_sq_nonneg|].
  left. apply Rinv_0_lt_compat, signal_length_pos.
Qed.

Lemma mean_square_value :
  np_mean (map sq signal) = Fin (np_sum (map sq signal) / n).
Proof.
  unfold signal, n, np_mean. cbn [map List.length]. rewrite length_map.
  reflexivity.
Qed.

Lemma mean_abs_value :
  np_mean (map Rabs signal) = Fin (np_sum (map Rabs signal) / n).
Proof.
  unfold signal, n, np_mean. cbn [map List.length]. rewrite length_map.
  reflexivity.
Qed.

Lemma rms_value :
  np_sqrt (np_mean (map sq signal)) = Fin (sqrt (np_sum (map sq signal) / n)).
Proof.
  rewrite mean_square_value. unfold np_sqrt.
  destruct (Rlt_dec (np_sum (map sq signal) / n) 0) as [H|_];
    [|reflexivity].
  exfalso. pose proof mean_square_nonneg as Hq. lra.
Qed.

Lemma np_sum_zeros_abs (v : list R) :
  Forall (fun a => a = 0) v -> np_sum (map Rabs v) = 0 /\ np_sum (map sq v) = 0.
Proof.
  induction 1 as [|a v Ha _ [IH1 IH2]]; [split; reflexivity|].
  cbn [map]. rewrite !np_sum_cons, IH1, IH2, Ha, Rabs_R0. unfold sq.
  split; lra.
Qed.

Lemma length_np_diff (a : R) (v : list R) :
  List.length (np_diff (a :: v)) = List.length v.
Proof.
  revert a. induction v as [|b v IH]; intros a; [reflexivity|].
  change (np_diff (a :: b :: v)) with ((b - a)%R :: np_diff (b :: v)).
  cbn [List.length]. rewrite IH. reflexivity.
Qed.

Lemma count_nonzero_le (v : list R) :
  (count_nonzero v <= List.length v)%nat.
Proof. unfold count_nonzero. apply filter_length_le. Qed.

End TimeFeatureFacts.

(** On a non-empty signal the features "min" and "max" are samples of
    the signal that bound every sample, and "peak_to_peak" is their
    difference, which is not negative. *)
Theorem time_features_extrema (signal : list R) :
  signal <> [] ->
  exists feats mn mx,
    compute_basic_time_features signal = Return feats /\
    dict_get "min" feats = Some (Fin mn) /\
    dict_get "max" feats = Some (Fin mx) /\
    dict_get "peak_to_peak" feats = Some (Fin (mx - mn)) /\
    In mn signal /\ In mx signal /\
    (forall v, In v signal -> (mn <= v <= mx)%R) /\
    (0 <= mx - mn)%R.
Proof.
  intros Hne. destruct signal as [|x l]; [contradiction|].
  destruct (max_list_spec x l) as [Hmax_in Hmax].
  destruct (min_list_spec x l) as [Hmin_in Hmin].
  eexists. exists (min_list x l), (max_list x l).
  split; [apply time_features_run|].
  cbn [dict_get String.eqb Ascii.eqb Bool.eqb].
  repeat split; try assumption.
  - apply Hmin, H.
  - apply Hmax, H.
  - pose proof (Hmax x (or_introl eq_refl)).
    pose proof (Hmin x (or_introl eq_refl)). lra.
Qed.

Lemma time_features_extrema_witness :
  exists feats mn mx,
    compute_basic_time_features [3; -1; 2]%R = Return feats /\
    dict_get "min" feats = Some (Fin mn) /\
    dict_get "max" feats = Some (Fin mx) /\
    (0 <= mx - mn)%R.
Proof.
  destruct (@time_features_extrema [3; -1; 2]%R) as
    (feats & mn & mx & Hrun & Hmin & Hmax & _ & _ & _ & _ & Hpp);
    [discriminate|].
  exists feats, mn, mx. repeat split; assumption.
Defined.

(** The zero-crossing rate of a non-empty signal lies in [0, 1): of [n]
    samples at most [n - 1] neighbours differ in sign. *)
Theorem zero_crossing_rate_range (signal : list R) :
  signal <> [] ->
  exists feats z,
    compute_basic_time_features signal = Return feats /\
    dict_get "zero_crossing_rate" feats = Some (Fin z) /\
    (0 <= z < 1)%R.
Proof.
  intros Hne. destruct signal as [|x l]; [contradiction|].
  pose proof (count_nonzero_le (np_diff (map np_sign (x :: l)))) as Hc.
  cbn [map] in Hc. rewrite length_np_diff, length_map in Hc.
  eexists. eexists. split; [apply time_features_run|].
  cbn [dict_get String.eqb Ascii.eqb Bool.eqb].
  unfold count_over_len. cbn [List.length map].
  split; [reflexivity|].
  set (c := count_nonzero (np_diff (np_sign x :: map np_sign l))) in *.
  assert (Hn : (0 < INR (S (List.length l)))%R) by (apply lt_0_INR; lia).
  assert (Hcn : (INR c < INR (S (List.length l)))%R) by (apply lt_INR; lia).
  pose proof (pos_INR c) as Hc0.
  split.
  - apply Rmult_le_pos; [exact Hc0|]. left. apply Rinv_0_lt_compat, Hn.
  - apply Rmult_lt_reg_r with (INR (S (List.length l))); [exact Hn|].
    unfold Rdiv. rewrite Rmult_assoc, Rinv_l by lra. lra.
Qed.

Lemma zero_crossing_rate_range_witness :
  exists feats z,
    compute_basic_time_features [1; -1; 1]%R = Return feats /\
    dict_get "zero_crossing_rate" feats = Some (Fin z) /\
    (0 <= z < 1)%R.
Proof. apply (@zero_crossing_rate_range [1; -1; 1]%R). discriminate. Defined.

(** The guard of the three ratio features.  On a non-empty all-zero
    signal the RMS and the mean absolute value are 0 and the crest,
    shape and impulse factors are NaN; and on every non-empty signal a
    ratio feature is a number only over a denominator, the RMS or the
    mean absolute value returned, that is positive: no ratio comes
    from a division by zero. *)
Theorem ratio_features_guard (signal : list R) :
  signal <> [] ->
  exists feats,
    compute_basic_time_features signal = Return feats /\
    (Forall (fun v => v = 0%R) signal ->
     dict_get "rms" feats = Some (Fin 0) /\
     dict_get "mean_abs" feats = Some (Fin 0) /\
     dict_get "crest_factor" feats = Some NaN /\
     dict_get "shape_factor" feats = Some NaN /\
     dict_get "impulse_factor" feats = Some NaN) /\
    (forall x,
       dict_get "crest_factor" feats = Some (Fin x) ->
       exists r, dict_get "rms" feats = Some (Fin r) /\ (0 < r)%R) /\
    (forall x,
       dict_get "shape_factor" feats = Some (Fin x) \/
       dict_get "impulse_factor" feats = Some (Fin x) ->
       exists a, dict_get "mean_abs" feats = Some (Fin a) /\ (0 < a)%R).
Proof.
  intros Hne. destruct signal as [|x l]; [contradiction|].
  pose proof (rms_value x l) as Hr.
  pose proof (mean_abs_value x l) as Ha.
  cbv zeta in Hr, Ha.
  eexists. split; [apply time_features_run|].
  cbn [dict_get String.eqb Ascii.eqb Bool.eqb].
  rewrite Hr, Ha.
  set (n := INR (List.length (x :: l))) in *.
  set (Q := (np_sum (map sq (x :: l)) / n)%R) in *.
  set (A := (np_sum (map Rabs (x :: l)) / n)%R) in *.
  split; [|split].
  - intros Hz. destruct (np_sum_zeros_abs Hz) as [HA HQ].
    assert (EQ : Q = 0%R) by (unfold Q; rewrite HQ; unfold Rdiv; ring).
    assert (EA : A = 0%R) by (unfold A; rewrite HA; unfold Rdiv; ring).
    rewrite EQ, EA, sqrt_0. unfold ratio_if_pos.
    destruct (Rlt_dec 0 0) as [H|_]; [lra|]. repeat split.
  - intros v Hv. unfold ratio_if_pos in Hv.
    destruct (Rlt_dec 0 (sqrt Q)) as [Hpos|_]; [|discriminate].
    exists (sqrt Q). split; [reflexivity|exact Hpos].
  - intros v Hv. unfold ratio_if_pos in Hv.
    destruct (Rlt_dec 0 A) as [Hpos|_];
      [|destruct Hv as [Hv|Hv]; discriminate].
    exists A. split; [reflexivity|exact Hpos].
Qed.

Lemma ratio_features_guard_witness :
  exists feats,
    compute_basic_time_features [0; 0]%R = Return feats /\
    dict_get "crest_factor" feats = Some NaN /\
    dict_get "shape_factor" feats = Some NaN /\
    dict_get "impulse_factor" feats = Some NaN.
Proof.
  destruct (@ratio_features_guard [0; 0]%R) as (feats & Hrun & Hz & _);
    [discriminate|].
  exists feats. split; [exact Hrun|].
  destruct Hz as (_ & _ & Hc & Hs & Hi); [repeat constructor|].
  repeat split; assumption.
Defined.

(** ** Frequency-domain features *)

Section FrequencyFeatures.
Local Open Scope R_scope.
Local Open Scope list_scope.

Lemma half_le_bins (N : nat) :
  (N / 2 <= Nat.min N ((N - 1) / 2 + 1))%nat.
Proof.
  pose proof (Nat.div_mod_eq N 2) as H1.
  pose proof (Nat.mod_upper_bound N 2) as H2.
  pose proof (Nat.div_mod_eq (N - 1) 2) as H3.
  pose proof (Nat.mod_upper_bound (N - 1) 2) as H4.
  lia.
Qed.

Lemma firstn_seq_le (m a n : nat) :
  (m <= n)%nat -> firstn m (seq a n) = seq a m.
Proof.
  revert a n. induction m as [|m IH]; intros a n H; [reflexivity|].
  destruct n as [|n]; [lia|]. cbn [seq firstn]. f_equal. apply IH. lia.
Qed.

Lemma firstn_map_seq_app {A : Type} (f : nat -> A) (m n : nat)
    (rest : list A) :
  (m <= n)%nat -> firstn m (map f (seq 0 n) ++ rest) = map f (seq 0 m).
Proof.
  intros H. rewrite firstn_app, firstn_map, firstn_seq_le by exact H.
  rewrite length_map, length_seq.
  replace (m - n)%nat with 0%nat by lia. cbn [firstn]. apply app_nil_r.
Qed.


(** The bins [fftfreq] gives to the first half of the spectrum: bin [k]
    has frequency [k * (1 / (N * d))]. *)
Lemma fftfreq_first_half (N : nat) (d : R) :
  INR N * d <> 0 ->
  exists freqs,
    fftfreq N d = Return freqs /\
    firstn (N / 2) freqs =
    map (fun k => INR k * (1 / (INR N * d))) (seq 0 (N / 2)).
Proof.
  intros H. unfold fftfreq.
  destruct (Req_dec_T (INR N * d) 0) as [E|_]; [contradiction|].
  eexists. split; [reflexivity|]. cbv zeta.
  apply firstn_map_seq_app, half_le_bins.
Qed.



End FrequencyFeatures.

Section RegularSpectrum.
Local Open Scope R_scope.
Local Open Scope list_scope.

Variable signal : list R.
Variable sampling_rate : R.
Hypothesis rate_nonzero : sampling_rate <> 0.
Hypothesis signal_nonempty : signal <> [].
Hypothesis spectrum_nonzero : np_sum (spectrum signal) <> 0.

Let N := List.length signal.
Let amps := spectrum signal.
Let xf := map (fun k => INR k * (1 / (INR N * (1 / sampling_rate))))
              (seq 0 (N / 2)).

Lemma bins_nonzero : INR N * (1 / sampling_rate) <> 0.
Proof.
  intros Hz. apply Rmult_integral in Hz. destruct Hz as [Hz|Hz].
  - revert Hz. apply not_0_INR. unfold N.
    destruct signal; [contradiction|discriminate].
  - unfold Rdiv in Hz. rewrite Rmult_1_l in Hz.
    revert Hz. apply Rinv_neq_0_compat. exact rate_nonzero.
Qed.

(** The run of [compute_frequency_features] past the test of the
    spectrum. *)
Lemma frequency_features_regular :
  compute_frequency_features signal sampling_rate =
  Return
    [ ("dominant_freq", Fin (nth (np_argmax amps) xf 0));
      ("dominant_amp", Fin (nth (np_argmax amps) amps 0));
      ("spectral_energy", Fin (np_sum (map sq amps)));
      ("spectral_centroid", Fin (np_sum (vec_mul xf amps) / np_sum amps));
      ("spectral_bandwidth",
        np_sqrt
          (Fin (np_sum
                  (vec_mul
                     (map (fun f =>
                             sq (f - np_sum (vec_mul xf amps) / np_sum amps))
                          xf)
                     amps)
                / np_sum amps)));
      ("spectral_flatness",
        ratio_if_pos
          (Fin match filter (fun a => if Rlt_dec 0 a then true else false)
                            amps with
               | [] => 0
               | _ =>
                   exp (np_sum
                          (map ln
                               (filter
                                  (fun a => if Rlt_dec 0 a then true
                                            else false) amps))
                        / INR (List.length
                                 (filter
                                    (fun a => if Rlt_dec 0 a then true
                                              else false) amps)))
               end)
          (Fin match filter (fun a => if Rlt_dec 0 a then true else false)
                            amps with
               | [] => 0
               | _ =>
                   np_sum (filter (fun a => if Rlt_dec 0 a then true
                                            else false) amps)
                   / INR (List.length
                            (filter
                               (fun a => if Rlt_dec 0 a then true
                                         else false) amps))
               end)) ].
Proof.
  unfold compute_frequency_features.
  assert (Hfft : fft signal = Return (map (dft_coeff signal)
                                          (seq 0 (List.length signal)))).
  { destruct signal; [contradiction|reflexivity]. }
  rewrite Hfft. unfold Py.bind at 1. unfold py_inv.
  destruct (Req_dec_T sampling_rate 0) as [E|_]; [contradiction|].
  unfold Py.bind at 1.
  destruct (fftfreq_first_half (List.length signal) bins_nonzero)
    as (freqs & Hfreqs & Hhalf).
  rewrite Hfreqs. unfold Py.bind. rewrite Hhalf.
  fold (spectrum signal). fold amps. fold N. fold xf.
  assert (Hlen : (List.length amps =? 0)%nat = false).
  { destruct amps eqn:E; [|reflexivity].
    exfalso. apply spectrum_nonzero. fold amps. rewrite E. reflexivity. }
  rewrite Hlen.
  destruct (Req_dec_T (np_sum amps) 0) as [E|_];
    [contradiction|reflexivity].
Qed.

Lemma amps_nonneg : Forall (fun a => 0 <= a) amps.
Proof.
  unfold amps, spectrum, amplitudes_of. apply Forall_map, Forall_forall.
  intros z _. unfold cabs. pose proof (sqrt_pos (fst z * fst z + snd z * snd z)).
  assert (0 < INR (List.length signal)).
  { apply lt_0_INR. destruct signal; [contradiction|cbn; lia]. }
  apply Rmult_le_pos; [lra|]. left. apply Rinv_0_lt_compat. assumption.
Qed.

Lemma length_amps : List.length amps = (N / 2)%nat.
Proof.
  unfold amps, spectrum, amplitudes_of.
  rewrite length_map, length_firstn, length_map, length_seq. fold N.
  apply Nat.min_l. apply Nat.Div0.div_le_upper_bound. lia.
Qed.


End RegularSpectrum.

Lemma weighted_sum_bounds (lo hi : R) (xs ws : list R) :
  Forall (fun v => (lo <= v <= hi)%R) xs ->
  Forall (fun w => (0 <= w)%R) ws ->
  List.length xs = List.length ws ->
  (lo * np_sum ws <= np_sum (vec_mul xs ws) <= hi * np_sum ws)%R.
Proof.
  intros Hx. revert ws. induction Hx as [|v xs Hv _ IH]; intros ws Hw Hlen.
  - destruct ws; [|discriminate]. cbn. lra.
  - destruct ws as [|w ws]; [discriminate|].
    inversion Hw as [|? ? Hw0 Hws]; subst.
    injection Hlen as Hlen. specialize (IH ws Hws Hlen).
    unfold vec_mul in *. cbn [combine map fst snd].
    rewrite !np_sum_cons. nra.
Qed.


(** The spectrum of the pulse [[1; 0]] is its single bin, of
    amplitude 1. *)
Lemma unit_pulse_spectrum : spectrum [1; 0]%R = [1%R].
Proof.
  change (spectrum [1; 0]%R)
    with [(cabs (dft_coeff [1; 0]%R 0) * 2 / INR 2)%R].
  f_equal. unfold cabs, dft_coeff. cbn [fst snd weighted_sum List.length].
  replace (2 * PI * INR 0 * INR 0 / INR 2)%R with 0%R
    by (cbn [INR]; unfold Rdiv; ring).
  rewrite cos_0, sin_0.
  replace (INR 2) with 2%R by (cbn [INR]; ring).
  match goal with |- (sqrt ?e * 2 / 2)%R = _ =>
    replace e with 1%R by ring end.
  rewrite sqrt_1. field.
Qed.


Lemma bin_frequency_in_band (N k : nat) (sampling_rate : R) :
  (0 < sampling_rate)%R -> (k < N / 2)%nat ->
  (0 <= INR k * (1 / (INR N * (1 / sampling_rate))) <= sampling_rate / 2)%R.
Proof.
  intros Hsr Hk.
  pose proof (Nat.div_mod_eq N 2) as Hdm.
  pose proof (Nat.mod_upper_bound N 2) as Hmod.
  assert (H2k : (2 * k <= N)%nat) by lia.
  assert (HN : (0 < INR N)%R) by (apply lt_0_INR; lia).
  assert (Hk2 : (2 * INR k <= INR N)%R).
  { apply le_INR in H2k. rewrite mult_INR in H2k. cbn [INR] in H2k. lra. }
  pose proof (pos_INR k) as Hk0.
  replace (INR k * (1 / (INR N * (1 / sampling_rate))))%R
    with (INR k * sampling_rate / INR N)%R by (field; lra).
  assert (Hprod : (0 <= sampling_rate * (INR N - 2 * INR k))%R)
    by (apply Rmult_le_pos; lra).
  split.
  - apply Rmult_le_pos; [apply Rmult_le_pos; lra|].
    left. apply Rinv_0_lt_compat, HN.
  - apply Rmult_le_reg_r with (INR N); [exact HN|].
    unfold Rdiv. rewrite Rmult_assoc, Rinv_l by lra. lra.
Qed.

(** With a positive sampling rate and a spectrum that does not vanish,
    the spectral centroid lies between 0 and half the sampling rate. *)
Theorem spectral_centroid_in_band (signal : list R) (sampling_rate : R) :
  (0 < sampling_rate)%R ->
  np_sum (spectrum signal) <> 0%R ->
  exists feats c,
    compute_frequency_features signal sampling_rate = Return feats /\
    dict_get "spectral_centroid" feats = Some (Fin c) /\
    (0 <= c <= sampling_rate / 2)%R.
Proof.
  intros Hpos Hsum.
  assert (Hsr : sampling_rate <> 0%R) by lra.
  assert (Hne : signal <> []).
  { intros ->. apply Hsum. reflexivity. }
  assert (Hamps : Forall (fun a => (0 <= a)%R) (spectrum signal))
    by (eapply amps_nonneg; eassumption).
  pose proof (length_amps signal) as Hlen. cbv zeta in Hlen.
  eexists. eexists.
  split; [apply (frequency_features_regular Hsr Hne Hsum)|].
  cbn [dict_get String.eqb Ascii.eqb Bool.eqb].
  split; [reflexivity|].
  set (N := List.length signal) in *.
  set (xf := map (fun k => (INR k * (1 / (INR N * (1 / sampling_rate))))%R)
                 (seq 0 (N / 2))).
  assert (Hxf : Forall (fun v => (0 <= v <= sampling_rate / 2)%R) xf).
  { unfold xf. apply Forall_map, Forall_forall. intros k Hk.
    apply in_seq in Hk. apply bin_frequency_in_band; [exact Hpos|lia]. }
  assert (Hl : List.length xf = List.length (spectrum signal)).
  { unfold xf. rewrite length_map, length_seq, Hlen. reflexivity. }
  destruct (weighted_sum_bounds Hxf Hamps Hl) as [Hlo Hhi].
  assert (Hs : (0 < np_sum (spectrum signal))%R).
  { assert (0 <= np_sum (spectrum signal))%R; [|lra].
    clear - Hamps. induction Hamps as [|a l Ha _ IH]; [cbn; lra|].
    rewrite np_sum_cons. lra. }
  split.
  - apply Rmult_le_pos; [lra|]. left. apply Rinv_0_lt_compat, Hs.
  - apply Rmult_le_reg_r with (np_sum (spectrum signal)); [exact Hs|].
    unfold Rdiv at 1. rewrite Rmult_assoc, Rinv_l by lra. lra.
Qed.

Lemma spectral_centroid_in_band_witness :
  exists feats c,
    compute_frequency_features [1; 0]%R 25000 = Return feats /\
    dict_get "spectral_centroid" feats = Some (Fin c) /\
    (0 <= c <= 25000 / 2)%R.
Proof.
  apply spectral_centroid_in_band; [lra|].
  rewrite unit_pulse_spectrum. cbn. lra.
Defined.

(** ** Dictionaries *)

Section Dictionaries.
Local Open Scope list_scope.

Context {V : Type}.

Lemma dict_get_set_same (k : string) (v : V) (d : dict V) :
  dict_get k (dict_set k v d) = Some v.
Proof.
  induction d as [|[k' v'] d IH]; cbn [dict_set dict_get].
  - rewrite String.eqb_refl. reflexivity.
  - destruct (String.eqb k k') eqn:E; cbn [dict_get]; rewrite E;
      [reflexivity|exact IH].
Qed.

Lemma dict_get_set_other (k k' : string) (v : V) (d : dict V) :
  k <> k' -> dict_get k' (dict_set k v d) = dict_get k' d.
Proof.
  intros Hne. induction d as [|[k0 v0] d IH]; cbn [dict_set dict_get].
  - destruct (String.eqb_spec k' k) as [E|_]; [|reflexivity].
    exfalso. apply Hne. symmetry. exact E.
  - destruct (String.eqb_spec k k0) as [<-|Hk]; cbn [dict_get].
    + destruct (String.eqb_spec k' k) as [E|_]; [|reflexivity].
      exfalso. apply Hne. symmetry. exact E.
    + rewrite IH. reflexivity.
Qed.

Lemma dict_set_fresh (k : string) (v : V) (d : dict V) :
  ~ In k (dict_keys d) -> dict_set k v d = d ++ [(k, v)].
Proof.
  induction d as [|[k' v'] d IH]; intros Hk; [reflexivity|].
  cbn [dict_set dict_keys map fst] in *.
  destruct (String.eqb_spec k k') as [E|_].
  - exfalso. apply Hk. left. symmetry. exact E.
  - rewrite <- app_comm_cons. f_equal. apply IH.
    intros H. apply Hk. right. exact H.
Qed.

(** Entries under fresh, pairwise distinct keys go to the end of the
    dictionary, in order, and overwrite nothing. *)
Lemma fold_dict_set_fresh {A : Type} (key : A -> string) (val : A -> V)
    (l : list A) (d : dict V) :
  NoDup (map key l) ->
  (forall a, In a l -> ~ In (key a) (dict_keys d)) ->
  fold_left (fun acc a => dict_set (key a) (val a) acc) l d =
  d ++ map (fun a => (key a, val a)) l.
Proof.
  revert d. induction l as [|a l IH]; intros d Hnd Hfresh.
  - cbn. rewrite app_nil_r. reflexivity.
  - cbn [fold_left map]. inversion Hnd as [|? ? Ha Hl]; subst.
    rewrite dict_set_fresh by (apply Hfresh; left; reflexivity).
    rewrite IH; [rewrite <- app_assoc; reflexivity|exact Hl|].
    intros b Hb Hin. unfold dict_keys in Hin.
    rewrite map_app in Hin. apply in_app_or in Hin as [Hin|[Hin|[]]].
    + apply (Hfresh b (or_intror Hb)). exact Hin.
    + cbn [fst] in Hin. apply Ha. rewrite Hin. apply in_map, Hb.
Qed.

End Dictionaries.

(** ** The fault taxonomy *)

Section Taxonomy.

Lemma to_int_not_nil (z : Z) :
  Z.to_int z <> Decimal.Pos Decimal.Nil /\
  Z.to_int z <> Decimal.Neg Decimal.Nil.
Proof.
  split; intros E; pose proof (DecimalZ.of_to z) as H; rewrite E in H;
    cbn in H; subst z; discriminate.
Qed.

Lemma str_of_int_injective (z1 z2 : Z) :
  str_of_int z1 = str_of_int z2 -> z1 = z2.
Proof.
  unfold str_of_int. intros E.
  destruct (to_int_not_nil z1) as [P1 N1].
  destruct (to_int_not_nil z2) as [P2 N2].
  pose proof (NilZero.isi (Z.to_int z1) P1 N1) as H1.
  pose proof (NilZero.isi (Z.to_int z2) P2 N2) as H2.
  rewrite E, H2 in H1. injection H1 as H1.
  apply DecimalZ.to_int_inj. symmetry. exact H1.
Qed.

(** A code outside the table gets the default name. *)
Lemma class_label_default (z : Z) :
  (z < 0 \/ 6 < z)%Z -> class_label z = "clase_" ++ str_of_int z.
Proof.
  intros H. unfold class_label, CLASS_NAMES. cbn [class_names_get].
  repeat match goal with
         | |- context [Z.eqb z ?k] =>
             destruct (Z.eqb_spec z k) as [E|_]; [lia|]
         end.
  reflexivity.
Qed.

Lemma class_label_table (z : Z) :
  (0 <= z <= 6)%Z ->
  In (z, class_label z) CLASS_NAMES.
Proof.
  intros H.
  assert (Hz : (z = 0 \/ z = 1 \/ z = 2 \/ z = 3 \/ z = 4 \/ z = 5
                \/ z = 6)%Z) by lia.
  unfold CLASS_NAMES.
  repeat (destruct Hz as [Hz|Hz]; [subst z; cbn; tauto|]).
  subst z. cbn. tauto.
Qed.

Lemma class_label_injective (z1 z2 : Z) :
  class_label z1 = class_label z2 -> z1 = z2.
Proof.
  intros E.
  destruct (Z_le_gt_dec 0 z1) as [L1|G1];
    [destruct (Z_le_gt_dec z1 6) as [U1|G1]|].
  - destruct (Z_le_gt_dec 0 z2) as [L2|G2];
      [destruct (Z_le_gt_dec z2 6) as [U2|G2]|].
    + pose proof (class_label_table (conj L1 U1)) as T1.
      pose proof (class_label_table (conj L2 U2)) as T2.
      rewrite E in T1. revert T1 T2. generalize (class_label z2).
      intros s T1 T2. unfold CLASS_NAMES in *. cbn [In] in T1, T2.
      repeat match goal with
             | H : _ \/ _ |- _ => destruct H as [H|H]
             | H : False |- _ => contradiction
             end; congruence.
    + pose proof (class_label_table (conj L1 U1)) as T1.
      rewrite E, class_label_default in T1 by lia.
      unfold CLASS_NAMES in T1. cbn [In String.append] in T1.
      repeat match goal with
             | H : _ \/ _ |- _ => destruct H as [H|H]
             | H : False |- _ => contradiction
             end; discriminate.
    + pose proof (class_label_table (conj L1 U1)) as T1.
      rewrite E, class_label_default in T1 by lia.
      unfold CLASS_NAMES in T1. cbn [In String.append] in T1.
      repeat match goal with
             | H : _ \/ _ |- _ => destruct H as [H|H]
             | H : False |- _ => contradiction
             end; discriminate.
  - rewrite (class_label_default (z := z1)) in E by lia.
    destruct (Z_le_gt_dec 0 z2) as [L2|G2];
      [destruct (Z_le_gt_dec z2 6) as [U2|G2]|].
    + pose proof (class_label_table (conj L2 U2)) as T2.
      rewrite <- E in T2.
      unfold CLASS_NAMES in T2. cbn [In String.append] in T2.
      repeat match goal with
             | H : _ \/ _ |- _ => destruct H as [H|H]
             | H : False |- _ => contradiction
             end; discriminate.
    + rewrite (class_label_default (z := z2)) in E by lia.
      cbn [String.append] in E. injection E as E.
      apply str_of_int_injective, E.
    + rewrite (class_label_default (z := z2)) in E by lia.
      cbn [String.append] in E. injection E as E.
      apply str_of_int_injective, E.
  - rewrite (class_label_default (z := z1)) in E by lia.
    destruct (Z_le_gt_dec 0 z2) as [L2|G2];
      [destruct (Z_le_gt_dec z2 6) as [U2|G2]|].
    + pose proof (class_label_table (conj L2 U2)) as T2.
      rewrite <- E in T2.
      unfold CLASS_NAMES in T2. cbn [In String.append] in T2.
      repeat match goal with
             | H : _ \/ _ |- _ => destruct H as [H|H]
             | H : False |- _ => contradiction
             end; discriminate.
    + rewrite (class_label_default (z := z2)) in E by lia.
      cbn [String.append] in E. injection E as E.
      apply str_of_int_injective, E.
    + rewrite (class_label_default (z := z2)) in E by lia.
      cbn [String.append] in E. injection E as E.
      apply str_of_int_injective, E.
Qed.

End Taxonomy.

(** The names of the fault taxonomy.  Codes 0 to 6 have their fixed
    names, every other code [z] is named "clase_z", and no two codes
    share a name.  [classify] reports an integer label under that name;
    a numpy string label [s] is reported as "clase_s", while a plain
    Python string of digits is first read as an integer. *)
Theorem prediction_label :
  map class_label [0; 1; 2; 3; 4; 5; 6]%Z =
    [ "normal"; "horizontal-misalignment"; "vertical-misalignment";
      "imbalance"; "ball_fault"; "cage_fault"; "outer_race" ] /\
  (forall z, (z < 0 \/ 6 < z)%Z ->
             class_label z = "clase_" ++ str_of_int z) /\
  (forall z1 z2, class_label z1 = class_label z2 -> z1 = z2) /\
  (forall model df name rate label labels pd,
     clf_predict model df = Return (label :: labels) ->
     probability_dict model df = Return pd ->
     exists p,
       classify model df name rate = Return (Ok p) /\
       probabilities p = pd /\
       (forall z,
          label = NpScalar (PyInt z) \/ label = PyObject (PyInt z) ->
          prediction p = class_label z /\ prediction_class p = PyInt z) /\
       (forall s,
          label = NpScalar (PyStr s) ->
          prediction p = "clase_" ++ s /\ prediction_class p = PyStr s) /\
       (forall s,
          label = PyObject (PyStr s) ->
          (isdigit s = true ->
           prediction p = class_label (int_of_digits s) /\
           prediction_class p = PyInt (int_of_digits s)) /\
          (isdigit s = false ->
           prediction p = "clase_" ++ s /\ prediction_class p = PyStr s))).
Proof.
  split; [reflexivity|]. split; [exact class_label_default|].
  split; [exact class_label_injective|].
  intros model df name rate label labels pd Hp Hpd.
  eexists. split.
  { unfold classify. rewrite Hp. cbn [Py.bind index0]. rewrite Hpd.
    cbn [Py.bind]. reflexivity. }
  cbn [probabilities prediction prediction_class].
  split; [reflexivity|]. split; [|split].
  - intros z [->| ->].
    + split; reflexivity.
    + cbn [py_str py_int]. destruct (isdigit (str_of_int z)); split;
        reflexivity.
  - intros s ->. split; reflexivity.
  - intros s ->. cbn [py_str py_int]. split; intros ->; split; reflexivity.
Qed.

(** ** The probabilities by class *)

Section Probabilities.
Local Open Scope list_scope.

Lemma NoDup_firstn {A : Type} (n : nat) (l : list A) :
  NoDup l -> NoDup (firstn n l).
Proof.
  intros H. revert n. induction H as [|a l Ha _ IH]; intros [|n];
    cbn [firstn]; try constructor.
  - intros Hin. apply Ha. apply (in_firstn _ _ _ Hin).
  - apply IH.
Qed.

Lemma map_combine_keys {A B C : Type} (f : A -> B) (l : list A)
    (r : list C) :
  map (fun p => (f (fst p), snd p)) (combine l r) = combine (map f l) r.
Proof.
  revert r. induction l as [|a l IH]; intros [|c r]; try reflexivity.
  cbn [combine map fst snd]. rewrite IH. reflexivity.
Qed.

Lemma map_fst_combine_firstn {A B : Type} (l : list A) (r : list B) :
  map fst (combine l r) = firstn (List.length r) l.
Proof.
  revert r. induction l as [|a l IH]; intros [|c r]; try reflexivity.
  cbn [combine map fst List.length firstn]. rewrite IH. reflexivity.
Qed.

(** Paired with pairwise distinct keys, the values go into an empty
    dictionary one entry each, in order. *)
Lemma zip_into_dict {A : Type} (label : A -> string) (codes : list A)
    (row : list R) :
  NoDup (map label codes) ->
  fold_left (fun acc cp => dict_set (label (fst cp)) (snd cp) acc)
            (combine codes row) [] =
  combine (map label codes) row.
Proof.
  intros Hnd.
  rewrite (fold_dict_set_fresh (fun cp => label (fst cp)) (fun cp => snd cp)).
  - cbn [app]. apply map_combine_keys.
  - rewrite <- (map_map fst label), map_fst_combine_firstn.
    rewrite <- firstn_map. apply NoDup_firstn, Hnd.
  - intros a _ [].
Qed.

Lemma NoDup_map_injective {A B : Type} (f : A -> B) (l : list A) :
  (forall a b, f a = f b -> a = b) -> NoDup l -> NoDup (map f l).
Proof.
  intros Hinj H. induction H as [|a l Ha _ IH]; cbn [map]; constructor.
  - intros Hin. apply in_map_iff in Hin as (b & Hb & Hin).
    apply Hinj in Hb. subst b. contradiction.
  - exact IH.
Qed.

End Probabilities.

(** When the model estimates probabilities, the dictionary pairs the
    first row of estimates with the class names, one entry per class
    and in order, nothing merged and nothing renormalised: the names
    are those of [classes_] when its codes are pairwise distinct, and
    those of the codes 0, 1, ... when the model has no [classes_].  A
    model without [predict_proba] has no dictionary, and an empty
    array of estimates is an [IndexError]. *)
Theorem probabilities_by_class (model : Classifier) (df : DataFrame) :
  (forall predict_proba row rows,
     clf_predict_proba model = Some predict_proba ->
     predict_proba df = Return (row :: rows) ->
     (forall codes,
        clf_classes_ model = Some codes -> NoDup codes ->
        probability_dict model df =
        Return (Some (combine (map class_label codes) row))) /\
     (clf_classes_ model = None ->
      probability_dict model df =
      Return (Some (combine (map (fun i => class_label (Z.of_nat i))
                                 (seq 0 (List.length row))) row)))) /\
  (clf_predict_proba model = None ->
   probability_dict model df = Return None) /\
  (forall predict_proba,
     clf_predict_proba model = Some predict_proba ->
     predict_proba df = Return [] ->
     exists msg, probability_dict model df = Raise (Exn IndexError msg)).
Proof.
  split; [|split].
  - intros predict_proba row rows Hpp Hrow. split.
    + intros codes Hc Hnd. unfold probability_dict.
      rewrite Hpp, Hrow, Hc. cbn [Py.bind index0]. do 2 f_equal.
      apply (zip_into_dict class_label).
      apply NoDup_map_injective; [exact class_label_injective|exact Hnd].
    + intros Hc. unfold probability_dict.
      rewrite Hpp, Hrow, Hc. cbn [Py.bind index0]. do 2 f_equal.
      unfold enumerate.
      rewrite <- (zip_into_dict (fun i => class_label (Z.of_nat i))).
      * reflexivity.
      * apply NoDup_map_injective; [|apply seq_NoDup].
        intros a b E. apply class_label_injective in E. lia.
  - intros Hpp. unfold probability_dict. rewrite Hpp. reflexivity.
  - intros predict_proba Hpp Hrow. unfold probability_dict.
    rewrite Hpp, Hrow. cbn [Py.bind index0]. eexists. reflexivity.
Qed.

(** ** Preprocessing of a single-channel recording *)

Section FlatSamples.
Local Open Scope R_scope.

(** The run of the assembler: a matrix of seven filled channels, after
    six draws. *)
Lemma simulate_channels_filled (v : list R) (g : rng) :
  exists M,
    simulate_channels v g =
      (Return (Arr2 7 M), Nat.iter 6 (rng_skip (List.length v)) g) /\
    channels_filled v g 6 M.
Proof.
  set (n := List.length v).
  set (M0 := set_col 0 (map (fun x => x * (1 / 10)) v) (zeros n 7)).
  destruct (zeros_shape n 7) as [Zlen Zw].
  assert (H0 : channels_filled v g 0 M0).
  { split; [unfold M0; rewrite length_set_col; exact Zlen|].
    split; [apply set_col_widths, Zw|].
    intros i Hi. assert (i = 0%nat) as -> by lia. cbn [channel_filled].
    apply column_set_col_same with (m := 7%nat); [|exact Zw|lia].
    rewrite length_map, Zlen. reflexivity. }
  destruct (@fill_channels_from v g 6 0 M0) as (M & Hrun & HM);
    [lia|exact H0|].
  cbn [Nat.add Nat.iter] in Hrun.
  exists M. split; [|exact HM].
  unfold simulate_channels. cbv zeta.
  erewrite rbind_ret; [reflexivity|].
  change (seq 0 7) with (0%nat :: seq 1 6). rewrite rfor_cons.
  erewrite rbind_ret; [exact Hrun|reflexivity].
Qed.

Lemma preprocess_body_flat (data : dict samples_value) (v : list R)
    (name : string) (rate : R) :
  dict_get "samples" data = Some (FlatList v) ->
  preprocess_body data name rate =
  rbind (simulate_channels v)
        (fun multi_channel_data =>
           extract_features_by_model_type multi_channel_data name rate).
Proof.
  intros Hs. unfold preprocess_body, dict_mem, dict_item. rewrite Hs.
  reflexivity.
Qed.

(** On a matrix that holds a signal, at a non-zero rate, the extraction
    draws nothing and gives a frame of one row. *)
Lemma extraction_matrix_shape (ncols : nat) (rows : list (list R))
    (name : string) (rate : R) :
  rate <> 0 -> (1 <= ncols)%nat -> rows <> [] ->
  exists df,
    (forall g,
       extract_features_by_model_type (Arr2 ncols rows) name rate g =
       (Return df, g)) /\
    df_shape0 df = 1%nat /\
    df_shape1 df =
      (if contains "3axis" (lower name) then 60
       else if contains "axial" (lower name)
               || contains "radial" (lower name)
               || contains "tangential" (lower name)
       then 20
       else 20 * Nat.min 7 ncols)%nat.
Proof.
  intros Hrate Hcols Hrows.
  assert (Hsig : has_signal (Arr2 ncols rows)) by (split; assumption).
  unfold extract_features_by_model_type.
  destruct (contains "3axis" (lower name)).
  { destruct (three_axis_matrix_draws_nothing ncols rows rate) as [r Hr].
    destruct (@three_axis_shape rate Hrate (Arr2 ncols rows) still_rng Hsig)
      as (df & g' & Hrun & S0 & S1).
    rewrite Hr in Hrun. injection Hrun as -> _.
    exists df. repeat split; assumption. }
  destruct (contains "axial" (lower name)).
  { destruct (@single_axis_shape rate Hrate (Arr2 ncols rows) "axial" Hsig)
      as (df & Hrun & S0 & S1).
    exists df. split; [|split; assumption].
    intros g. unfold rlift. rewrite Hrun. reflexivity. }
  destruct (contains "radial" (lower name)).
  { destruct (@single_axis_shape rate Hrate (Arr2 ncols rows) "radial" Hsig)
      as (df & Hrun & S0 & S1).
    exists df. split; [|split; assumption].
    intros g. unfold rlift. rewrite Hrun. reflexivity. }
  destruct (contains "tangential" (lower name)).
  { destruct (@single_axis_shape rate Hrate (Arr2 ncols rows) "tangential"
                Hsig) as (df & Hrun & S0 & S1).
    exists df. split; [|split; assumption].
    intros g. unfold rlift. rewrite Hrun. reflexivity. }
  destruct (@full_strategy_shape rate Hrate ncols rows Hrows)
    as (df & Hrun & S0 & S1).
  exists df. split; [|split; assumption].
  intros g. unfold rlift. rewrite Hrun. reflexivity.
Qed.

End FlatSamples.

(** The frame of a non-empty flat list of samples. *)
Lemma flat_samples_frame (data : dict samples_value) (v : list R)
    (name : string) (rate : R) (g : rng) :
  dict_get "samples" data = Some (FlatList v) ->
  v <> [] -> rate <> 0%R ->
  exists df,
    preprocess_data data name rate g =
      (Return df, Nat.iter 6 (rng_skip (List.length v)) g) /\
    df_shape0 df = 1%nat /\
    df_shape1 df = expected_feature_count name /\
    df_empty df = false.
Proof.
  intros Hs Hv Hrate.
  destruct (simulate_channels_filled v g) as (M & Hsim & HlenM & _ & _).
  assert (HM : M <> []).
  { intros ->. destruct v; [contradiction|discriminate]. }
  destruct (@extraction_matrix_shape 7 M name rate Hrate) as
    (df & Hrun & S0 & S1); [lia|exact HM|].
  exists df.
  assert (Hcount : df_shape1 df = expected_feature_count name).
  { rewrite S1. unfold expected_feature_count.
    destruct (contains "3axis" (lower name)); [reflexivity|].
    destruct (contains "axial" (lower name) || contains "radial" (lower name)
              || contains "tangential" (lower name)); reflexivity. }
  split; [|split; [exact S0|split; [exact Hcount|]]].
  - unfold preprocess_data, rtry.
    erewrite preprocess_body_flat; [|exact Hs].
    erewrite rbind_ret; [|exact Hsim]. rewrite Hrun. reflexivity.
  - destruct (df_shape1 df) as [|k] eqn:E.
    + exfalso. revert Hcount. unfold expected_feature_count.
      destruct (contains "3axis" (lower name)); [discriminate|].
      destruct (contains "axial" (lower name)
                || contains "radial" (lower name)
                || contains "tangential" (lower name)); discriminate.
    + apply (single_row_frame_not_empty df S0 E).
Qed.

(** For a record whose samples are a non-empty flat list, at a non-zero
    rate, [preprocess_data] extracts the features from the simulated
    matrix of seven channels: the frame has one row and 60, 20 or 140
    columns as the model name selects, and the generator has advanced
    by six draws of [len(samples)] variates, whatever the model. *)
Theorem flat_samples_features (data : dict samples_value) (v : list R)
    (name : string) (rate : R) (g : rng) :
  dict_get "samples" data = Some (FlatList v) ->
  v <> [] -> rate <> 0%R ->
  exists df,
    preprocess_data data name rate g =
      (Return df, Nat.iter 6 (rng_skip (List.length v)) g) /\
    df_shape0 df = 1%nat /\
    df_shape1 df = expected_feature_count name /\
    df_empty df = false.
Proof.
  intros Hs Hv Hrate.
  destruct (@flat_samples_frame data v name rate g Hs Hv Hrate)
    as (df & Hrun & S0 & S1 & Hne).
  exists df. repeat split; assumption.
Qed.

Lemma flat_samples_features_witness :
  exists df,
    fst (preprocess_data [("samples", FlatList [1; 2; 3]%R)]
                         "myRF_3axis_25000" 25000 still_rng) = Return df /\
    df_shape1 df = 60%nat.
Proof.
  assert (Hrate : 25000%R <> 0%R) by lra.
  assert (Hv : [1; 2; 3]%R <> []) by discriminate.
  destruct (@flat_samples_features [("samples", FlatList [1; 2; 3]%R)]
              [1; 2; 3]%R "myRF_3axis_25000" 25000 still_rng
              eq_refl Hv Hrate) as (df & Hrun & _ & S1 & _).
  exists df. rewrite Hrun. split; [reflexivity|exact S1].
Defined.

(** ** Records that give no features *)

Section NoFeatures.
Local Open Scope R_scope.

(** With the model found and an empty frame from the preprocessing,
    [predict] reports that no features were extracted. *)
Lemma predict_on_empty_frame (models : dict Classifier)
    (data : dict samples_value) (requested n : string) (g : rng) :
  resolved_model models requested = Some n ->
  (exists df,
     fst (preprocess_data data n (IZR (infer_sampling_rate n)) g) = Return df /\
     df_empty df = true) ->
  fst (predict models data requested g) =
  Return (Error "No features extracted").
Proof.
  intros Hr (df & Hpre & Hempty).
  destruct (@resolved_model_loaded models requested n Hr) as [model Hm].
  destruct (preprocess_data data n (IZR (infer_sampling_rate n)) g)
    as [r g'] eqn:E.
  cbn [fst] in Hpre. subst r.
  rewrite (@predict_run models data requested n model df g g' Hr Hm E).
  rewrite Hempty. reflexivity.
Qed.

(** A matrix without rows makes every strategy raise. *)
Lemma extraction_no_rows (name : string) (rate : R) (g : rng) :
  exists e,
    extract_features_by_model_type (Arr2 7 []) name rate g = (Raise e, g).
Proof.
  unfold extract_features_by_model_type.
  destruct (contains "3axis" (lower name)); [eexists; reflexivity|].
  destruct (contains "axial" (lower name)); [eexists; reflexivity|].
  destruct (contains "radial" (lower name)); [eexists; reflexivity|].
  destruct (contains "tangential" (lower name)); eexists; reflexivity.
Qed.

(** A matrix without columns makes the 3-axis and the single-axis
    strategies raise, and gives the full strategy a frame without
    columns. *)
Lemma extraction_no_columns (rows : list (list R)) (name : string)
    (rate : R) (g : rng) :
  exists r,
    extract_features_by_model_type (Arr2 0 rows) name rate g = (r, g) /\
    forall df, r = Return df -> df_empty df = true.
Proof.
  unfold extract_features_by_model_type.
  destruct (contains "3axis" (lower name));
    [eexists; split; [reflexivity|discriminate]|].
  destruct (contains "axial" (lower name));
    [eexists; split; [reflexivity|discriminate]|].
  destruct (contains "radial" (lower name));
    [eexists; split; [reflexivity|discriminate]|].
  destruct (contains "tangential" (lower name));
    [eexists; split; [reflexivity|discriminate]|].
  eexists. split; [reflexivity|].
  intros df H. injection H as <-. reflexivity.
Qed.

(** The frame of a record whose samples hold no value. *)
Lemma empty_samples_frame (data : dict samples_value) (name : string)
    (rate : R) (g : rng) :
  dict_get "samples" data = Some (FlatList []) \/
  dict_get "samples" data = Some (NestedList []) \/
  (exists rs, dict_get "samples" data = Some (NestedList ([] :: rs))) ->
  exists df,
    fst (preprocess_data data name rate g) = Return df /\
    df_empty df = true.
Proof.
  intros Hs.
  assert (Hflat : forall g0, exists df,
            fst (rtry (rbind (simulate_channels [])
                         (fun m => extract_features_by_model_type m name rate))
                      (fun _ => rret empty_frame) g0) = Return df /\
            df_empty df = true).
  { intros g0. destruct (simulate_channels_filled [] g0)
      as (M & Hsim & HlenM & _ & _).
    destruct M; [|discriminate].
    destruct (extraction_no_rows name rate
                (Nat.iter 6 (rng_skip (List.length (@nil R))) g0))
      as [e He].
    exists empty_frame. split; [|reflexivity].
    unfold rtry. erewrite rbind_ret; [|exact Hsim]. rewrite He.
    reflexivity. }
  unfold preprocess_data. destruct Hs as [Hs|[Hs|[rs Hs]]].
  - erewrite preprocess_body_flat; [|exact Hs]. apply Hflat.
  - assert (Hb : preprocess_body data name rate =
                 rbind (simulate_channels [])
                       (fun m => extract_features_by_model_type m name rate)).
    { unfold preprocess_body, dict_mem, dict_item. rewrite Hs. reflexivity. }
    rewrite Hb. apply Hflat.
  - erewrite preprocess_body_nested; [|exact Hs].
    destruct (forallb (fun r' => (List.length r' =? List.length (@nil R))%nat)
                      rs).
    + destruct (extraction_no_columns ([] :: rs) name rate g)
        as (r & Hr & Hempty).
      unfold rtry. cbn [List.length]. rewrite Hr.
      destruct r as [df|e].
      * exists df. split; [reflexivity|]. apply Hempty. reflexivity.
      * exists empty_frame. split; reflexivity.
    + exists empty_frame. split; reflexivity.
Qed.

End NoFeatures.

(** A record whose samples hold no value (an empty list, or rows
    without entries) gives no features: the exception of the extraction
    is swallowed by [preprocess_data], the frame is empty, and
    [predict], with a model loaded, reports "No features extracted". *)
Theorem empty_samples_no_features (data : dict samples_value) :
  dict_get "samples" data = Some (FlatList []) \/
  dict_get "samples" data = Some (NestedList []) \/
  (exists rs, dict_get "samples" data = Some (NestedList ([] :: rs))) ->
  (forall name rate g,
     exists df,
       fst (preprocess_data data name rate g) = Return df /\
       df_empty df = true) /\
  (forall models requested g,
     models <> [] ->
     fst (predict models data requested g) =
     Return (Error "No features extracted")).
Proof.
  intros Hs. split.
  - intros name rate g. apply empty_samples_frame, Hs.
  - intros models requested g Hne.
    destruct (@resolved_model_some models requested Hne) as [n Hn].
    apply (@predict_on_empty_frame models data requested n g Hn).
    apply empty_samples_frame, Hs.
Qed.

Lemma empty_samples_no_features_witness :
  fst (predict [("myRF_3axis_25000", constant_classifier 0)]
               [("samples", FlatList [])] "myRF_3axis_25000" still_rng) =
  Return (Error "No features extracted").
Proof.
  apply (proj2 (@empty_samples_no_features [("samples", FlatList [])]
                  (or_introl eq_refl))).
  discriminate.
Defined.

(** ** A model name that names the rate zero *)

Section ZeroRate.
Local Open Scope R_scope.

(** At the rate zero the features of a signal are never completed: the
    time-domain features raise on an empty signal, and the
    frequency-domain features raise on any other. *)
Lemma features_zero_rate (signal : list R) :
  (exists e, compute_basic_time_features signal = Raise e) \/
  (exists tf e, compute_basic_time_features signal = Return tf /\
                compute_frequency_features signal 0 = Raise e).
Proof.
  destruct signal as [|x l].
  - left. eexists. reflexivity.
  - right. eexists. eexists. split; [apply time_features_run|].
    apply frequency_features_rate_zero. discriminate.
Qed.

Lemma channel_features_zero_rate (col : string * list R)
    (all_features : dict npfloat) :
  exists e, channel_features 0 col all_features = Raise e.
Proof.
  unfold channel_features.
  destruct (features_zero_rate (snd col)) as [[e He]|(tf & e & Ht & Hf)].
  - rewrite He. eexists. reflexivity.
  - rewrite Ht. cbn [Py.bind]. rewrite Hf. eexists. reflexivity.
Qed.

Lemma axis_features_zero_rate (a : ndarray) (ia : nat * string)
    (all_features : dict npfloat) (g : rng) :
  exists e g', axis_features a 0 ia all_features g = (Raise e, g').
Proof.
  unfold axis_features, rbind.
  destruct (axis_signal a (fst ia) (snd ia) g) as [[signal|e] g'].
  - unfold rlift.
    destruct (features_zero_rate signal) as [[e He]|(tf & e & Ht & Hf)].
    + rewrite He. eexists. eexists. reflexivity.
    + rewrite Ht, Hf. eexists. eexists. reflexivity.
  - eexists. eexists. reflexivity.
Qed.

Lemma single_axis_zero_rate (a : ndarray) (axis_type : string) :
  exists e, extract_single_axis_features a 0 axis_type = Raise e.
Proof.
  unfold extract_single_axis_features.
  destruct (single_axis_signal a axis_type) as [signal|e].
  - cbn [Py.bind].
    destruct (features_zero_rate signal) as [[e He]|(tf & e & Ht & Hf)].
    + rewrite He. eexists. reflexivity.
    + rewrite Ht. cbn [Py.bind]. rewrite Hf. eexists. reflexivity.
  - eexists. reflexivity.
Qed.

(** At the rate zero no strategy gives a frame with a column. *)
Lemma extraction_zero_rate (a : ndarray) (name : string) (g : rng) :
  exists r g',
    extract_features_by_model_type a name 0 g = (r, g') /\
    forall df, r = Return df -> df_empty df = true.
Proof.
  unfold extract_features_by_model_type.
  destruct (contains "3axis" (lower name)).
  { unfold extract_3axis_features, rbind.
    change (enumerate axes)
      with [(0%nat, "axial"); (1%nat, "radial"); (2%nat, "tangential")].
    rewrite rfor_cons. unfold rbind at 1.
    destruct (axis_features_zero_rate a (0%nat, "axial") [] g)
      as (e & g' & He).
    rewrite He. eexists. eexists. split; [reflexivity|discriminate]. }
  assert (Hsingle : forall axis_type, exists r g',
            rlift (extract_single_axis_features a 0 axis_type) g = (r, g') /\
            forall df, r = Return df -> df_empty df = true).
  { intros axis_type.
    destruct (single_axis_zero_rate a axis_type) as [e He].
    unfold rlift. rewrite He. eexists. eexists.
    split; [reflexivity|discriminate]. }
  destruct (contains "axial" (lower name)); [apply Hsingle|].
  destruct (contains "radial" (lower name)); [apply Hsingle|].
  destruct (contains "tangential" (lower name)); [apply Hsingle|].
  unfold rlift, extract_features_from_multi_channel_data.
  destruct a as [v|ncols rows].
  { eexists. eexists. split; [reflexivity|discriminate]. }
  cbn [shape1 Py.bind].
  destruct (combine
              (if (ncols <? List.length column_names)%nat
               then firstn ncols column_names else column_names)
              (map (fun j => column j rows)
                   (seq 0 (List.length
                      (if (ncols <? List.length column_names)%nat
                       then firstn ncols column_names else column_names)))))
    as [|col cols].
  - eexists. eexists. split; [reflexivity|].
    intros df H. injection H as <-. reflexivity.
  - rewrite pfor_cons.
    destruct (channel_features_zero_rate col []) as [e He].
    rewrite He. eexists. eexists. split; [reflexivity|discriminate].
Qed.

(** At the rate zero [preprocess_data] returns an empty frame. *)
Lemma preprocess_zero_rate (data : dict samples_value) (name : string)
    (g : rng) :
  exists df,
    fst (preprocess_data data name 0 g) = Return df /\ df_empty df = true.
Proof.
  assert (Hx : forall a g0, exists df,
            fst (rtry (extract_features_by_model_type a name 0)
                      (fun _ => rret empty_frame) g0) = Return df /\
            df_empty df = true).
  { intros a g0. destruct (extraction_zero_rate a name g0)
      as (r & g' & Hr & Hempty).
    unfold rtry. rewrite Hr. destruct r as [df|e].
    - exists df. split; [reflexivity|]. apply Hempty. reflexivity.
    - exists empty_frame. split; reflexivity. }
  assert (Hsim : forall v g0, exists df,
            fst (rtry (rbind (simulate_channels v)
                         (fun m => extract_features_by_model_type m name 0))
                      (fun _ => rret empty_frame) g0) = Return df /\
            df_empty df = true).
  { intros v g0. destruct (simulate_channels_filled v g0) as (M & HM & _).
    destruct (extraction_zero_rate (Arr2 7 M) name
                (Nat.iter 6 (rng_skip (List.length v)) g0))
      as (r & g' & Hr & Hempty).
    unfold rtry. erewrite rbind_ret; [|exact HM]. rewrite Hr.
    destruct r as [df|e].
    - exists df. split; [reflexivity|]. apply Hempty. reflexivity.
    - exists empty_frame. split; reflexivity. }
  unfold preprocess_data.
  destruct (dict_get "samples" data) as [[v|[|r rs]]|] eqn:Hs.
  - erewrite preprocess_body_flat; [|exact Hs]. apply Hsim.
  - assert (Hb : preprocess_body data name 0 =
                 rbind (simulate_channels [])
                       (fun m => extract_features_by_model_type m name 0)).
    { unfold preprocess_body, dict_mem, dict_item. rewrite Hs. reflexivity. }
    rewrite Hb. apply Hsim.
  - erewrite preprocess_body_nested; [|exact Hs].
    destruct (forallb (fun r' => (List.length r' =? List.length r)%nat) rs).
    + apply Hx.
    + exists empty_frame. split; reflexivity.
  - exists empty_frame. split; [|reflexivity].
    unfold preprocess_body, dict_mem. rewrite Hs. reflexivity.
Qed.

End ZeroRate.

(** A model whose name gives the sampling rate zero (its first numeric
    token is 0, as in "rf_0") predicts nothing: on every record the
    division [1 / sampling_rate] raises or the features are never
    reached, and [predict] answers "No features extracted". *)
Theorem zero_rate_model_predicts_nothing (models : dict Classifier)
    (requested n : string) :
  resolved_model models requested = Some n ->
  infer_sampling_rate n = 0%Z ->
  forall data g,
    fst (predict models data requested g) =
    Return (Error "No features extracted").
Proof.
  intros Hr Hrate data g.
  apply (@predict_on_empty_frame models data requested n g Hr).
  rewrite Hrate. apply preprocess_zero_rate.
Qed.

Lemma zero_rate_model_predicts_nothing_witness :
  fst (predict [("rf_0", constant_classifier 3)]
               [("samples", FlatList [1%R; 2%R])] "rf_0" still_rng) =
  Return (Error "No features extracted").
Proof.
  apply (@zero_rate_model_predicts_nothing
           [("rf_0", constant_classifier 3)] "rf_0" "rf_0");
    reflexivity.
Defined.

(** ** The number of features of a successful prediction *)

Section FeatureCount.
Local Open Scope R_scope.

(** A frame of [preprocess_data] that is not empty comes from a record
    with samples, at a non-zero rate; it has one row, and the columns
    the model name selects for the channels of the samples. *)
Lemma preprocess_frame_columns (data : dict samples_value) (name : string)
    (rate : R) (g g' : rng) (df : DataFrame) :
  preprocess_data data name rate g = (Return df, g') ->
  df_empty df = false ->
  exists samples,
    dict_get "samples" data = Some samples /\
    rate <> 0 /\
    (1 <= samples_channels samples)%nat /\
    df_shape0 df = 1%nat /\
    df_shape1 df = feature_count name (samples_channels samples).
Proof.
  intros Hpre Hne.
  assert (Hfill : forall df',
            fst (preprocess_data data name rate g) = Return df' ->
            df_empty df' = true -> False).
  { intros df' H1 H2. rewrite Hpre in H1. cbn [fst] in H1.
    injection H1 as <-. congruence. }
  assert (Hrate : rate <> 0).
  { intros ->. destruct (preprocess_zero_rate data name g) as (df' & H1 & H2).
    exact (Hfill df' H1 H2). }
  destruct (dict_get "samples" data) as [[v|[|r rs]]|] eqn:Hs.
  - destruct v as [|x v].
    { destruct (@empty_samples_frame data name rate g (or_introl Hs))
        as (df' & H1 & H2). destruct (Hfill df' H1 H2). }
    assert (Hv : x :: v <> []) by discriminate.
    destruct (@flat_samples_frame data (x :: v) name rate g Hs Hv Hrate)
      as (df' & Hrun & S0 & S1 & _).
    rewrite Hrun in Hpre. injection Hpre as <- _.
    exists (FlatList (x :: v)). cbn [samples_channels].
    repeat split; first [assumption|lia|exact S1].
  - destruct (@empty_samples_frame data name rate g
                (or_intror (or_introl Hs))) as (df' & H1 & H2).
    destruct (Hfill df' H1 H2).
  - destruct r as [|x r].
    { destruct (@empty_samples_frame data name rate g
                  (or_intror (or_intror (ex_intro _ rs Hs))))
        as (df' & H1 & H2). destruct (Hfill df' H1 H2). }
    unfold preprocess_data, rtry in Hpre.
    erewrite preprocess_body_nested in Hpre; [|exact Hs].
    destruct (forallb
                (fun r' => (List.length r' =? List.length (x :: r))%nat) rs).
    + assert (Hc : (1 <= List.length (x :: r))%nat) by (cbn; lia).
      assert (Hrows : (x :: r) :: rs <> []) by discriminate.
      destruct (@extraction_matrix_shape (List.length (x :: r))
                  ((x :: r) :: rs) name rate Hrate Hc Hrows)
        as (df' & Hall & S0 & S1).
      rewrite Hall in Hpre. injection Hpre as <- _.
      exists (NestedList ((x :: r) :: rs)). cbn [samples_channels].
      repeat split; assumption.
    + unfold rlift, rret in Hpre. injection Hpre as <- _. discriminate.
  - unfold preprocess_data, rtry, preprocess_body, dict_mem in Hpre.
    rewrite Hs in Hpre. unfold rret in Hpre. injection Hpre as <- _.
    discriminate.
Qed.

End FeatureCount.

(** Whenever [predict] answers with a prediction, the record has
    samples with at least one channel, the rate of the model is not
    zero, and the [features_count] of the answer is the one the model
    served with selects: 60 for a 3-axis model, 20 for a single-axis
    model, and otherwise 20 for each of the first seven channels (140
    for a flat list of samples). *)
Theorem successful_prediction_feature_count (models : dict Classifier)
    (data : dict samples_value) (requested : string) (g : rng)
    (p : Prediction) :
  fst (predict models data requested g) = Return (Ok p) ->
  exists samples,
    dict_get "samples" data = Some samples /\
    (1 <= samples_channels samples)%nat /\
    sampling_rate p <> 0%Z /\
    features_count p =
      feature_count (model_used p) (samples_channels samples).
Proof.
  intros Hp.
  apply predict_ok_inv in Hp as (n & g' & Hn & Hrun).
  apply predict_with_ok in Hrun as (Hm & Hs & df & Hpre & Hne & Hc).
  destruct (preprocess_frame_columns _ _ _ _ Hpre Hne)
    as (samples & Hget & Hrate & Hch & _ & S1).
  exists samples. repeat split; try assumption.
  - rewrite Hs. intros H0. apply Hrate. rewrite H0. reflexivity.
  - rewrite Hc, Hm. exact S1.
Qed.

Lemma successful_prediction_feature_count_witness :
  exists p,
    fst (predict [("myRF_axial_50000", constant_classifier 3)]
                 [("samples", NestedList [[1%R; 2%R]; [3%R; 4%R]])]
                 "unknown" still_rng) = Return (Ok p) /\
    features_count p = feature_count (model_used p) 2.
Proof.
  destruct axial_model_run as (p & Hrun & _).
  exists p.
  assert (Hp : fst (predict [("myRF_axial_50000", constant_classifier 3)]
                      [("samples", NestedList [[1%R; 2%R]; [3%R; 4%R]])]
                      "unknown" still_rng) = Return (Ok p))
    by (rewrite Hrun; reflexivity).
  split; [exact Hp|].
  destruct (successful_prediction_feature_count _ _ _ _ Hp)
    as (samples & Hget & _ & _ & Hc).
  cbn in Hget. injection Hget as <-. exact Hc.
Defined.

(** ** Loading the models *)

Section LoadModels.
Local Open Scope list_scope.

Lemma dict_get_In {V : Type} (k : string) (v : V) (d : dict V) :
  NoDup (dict_keys d) -> (dict_get k d = Some v <-> In (k, v) d).
Proof.
  induction d as [|[k' v'] d IH]; cbn [dict_get dict_keys map fst In].
  - intros _. split; [discriminate|contradiction].
  - intros Hnd. inversion Hnd as [|x l Hx Hl]; subst.
    destruct (String.eqb_spec k k') as [->|Hk].
    + split.
      * intros H. injection H as <-. left. reflexivity.
      * intros [H|H]; [injection H as <-; reflexivity|].
        exfalso. apply Hx. apply (in_map fst) in H. exact H.
    + rewrite (IH Hl). split; [intros H; right; exact H|].
      intros [H|H]; [|exact H].
      exfalso. apply Hk. injection H as H _. symmetry. exact H.
Qed.

Lemma dict_get_some_In {V : Type} (k : string) (v : V) (d : dict V) :
  dict_get k d = Some v -> In (k, v) d.
Proof.
  induction d as [|[k' v'] d IH]; cbn [dict_get In]; [discriminate|].
  destruct (String.eqb_spec k k') as [->|Hk].
  - intros H. injection H as <-. left. reflexivity.
  - intros H. right. apply IH, H.
Qed.

Lemma loadable_In (files : list (string * py Classifier)) (name : string)
    (model : Classifier) :
  In (name, model) (loadable files) <-> In (name, Return model) files.
Proof.
  unfold loadable. rewrite in_flat_map. split.
  - intros ([n [m|e]] & Hin & Hx); cbn [fst snd In] in Hx.
    + destruct Hx as [Hx|[]]. injection Hx as <- <-. exact Hin.
    + destruct Hx.
    - intros Hin. exists (name, Return model). split; [exact Hin|].
      left. reflexivity.
Qed.

Lemma loadable_keys (files : list (string * py Classifier)) (name : string) :
  In name (dict_keys (loadable files)) -> In name (map fst files).
Proof.
  unfold dict_keys. rewrite !in_map_iff.
  intros ([n m] & <- & Hin). apply loadable_In in Hin.
  exists (n, Return m). split; [reflexivity|exact Hin].
Qed.

Lemma loadable_NoDup (files : list (string * py Classifier)) :
  NoDup (map fst files) -> NoDup (dict_keys (loadable files)).
Proof.
  induction files as [|[n [m|e]] files IH]; cbn [map fst]; intros Hnd.
  - constructor.
  - inversion Hnd as [|x l Hx Hl]; subst.
    change (NoDup (n :: dict_keys (loadable files))).
    constructor; [|apply IH, Hl].
    intros Hin. apply Hx. apply loadable_keys, Hin.
  - inversion Hnd as [|x l Hx Hl]; subst. apply IH, Hl.
Qed.

(** The loop of [load_models] from the models [d], on files whose names
    are distinct and not yet in [d]. *)
Lemma load_models_fold (files : list (string * py Classifier))
    (d : dict Classifier) :
  NoDup (map fst files) ->
  (forall f, In f files -> ~ In (fst f) (dict_keys d)) ->
  fold_left
    (fun models model_file =>
       match snd model_file with
       | Return model => dict_set (fst model_file) model models
       | Raise _ => models
       end)
    files d = d ++ loadable files.
Proof.
  revert d. induction files as [|[n r] files IH]; intros d Hnd Hfresh.
  - cbn. rewrite app_nil_r. reflexivity.
  - cbn [map fst] in Hnd. inversion Hnd as [|x l Hx Hl]; subst.
    cbn [fold_left fst snd]. destruct r as [m|e].
    + rewrite dict_set_fresh by (apply (Hfresh (n, Return m)); left; reflexivity).
      rewrite IH; [|exact Hl|].
      * rewrite <- app_assoc. reflexivity.
      * intros f Hf Hin. unfold dict_keys in Hin.
        rewrite map_app in Hin. apply in_app_or in Hin as [Hin|Hin].
        -- apply (Hfresh f); [right; exact Hf|exact Hin].
        -- cbn in Hin. destruct Hin as [Hin|[]].
           apply Hx. rewrite Hin. apply in_map, Hf.
    + rewrite IH; [reflexivity|exact Hl|].
      intros f Hf. apply Hfresh. right. exact Hf.
Qed.

(** The loop of [load_models] when no file loads. *)
Lemma load_models_none (files : list (string * py Classifier))
    (d : dict Classifier) :
  Forall (fun f => exists e, snd f = Raise e) files ->
  fold_left
    (fun models model_file =>
       match snd model_file with
       | Return model => dict_set (fst model_file) model models
       | Raise _ => models
       end)
    files d = d.
Proof.
  intros H. revert d. induction H as [|f files [e He] _ IH]; intros d.
  - reflexivity.
  - cbn [fold_left]. rewrite He. apply IH.
Qed.

End LoadModels.

(** The files of a directory have distinct names.  [load_models] keeps
    the files that load, each under its stem and in the order of the
    listing; a file that fails to load is skipped and the others are
    loaded all the same.  A request for a model that is not among them
    is served with the first that loaded. *)
Theorem load_models_keeps_loadable (files : list (string * py Classifier)) :
  NoDup (map fst files) ->
  load_models true files = loadable files /\
  (forall name model,
     dict_get name (load_models true files) = Some model <->
     In (name, Return model) files) /\
  (forall requested,
     (forall model, ~ In (requested, Return model) files) ->
     resolved_model (load_models true files) requested =
     hd_error (dict_keys (loadable files))).
Proof.
  intros Hnd.
  assert (Heq : load_models true files = loadable files).
  { unfold load_models.
    rewrite (@load_models_fold files [] Hnd); [reflexivity|].
    intros f _ []. }
  assert (Hget : forall name model,
            dict_get name (load_models true files) = Some model <->
            In (name, Return model) files).
  { intros name model. rewrite Heq.
    rewrite (@dict_get_In _ name model _ (@loadable_NoDup files Hnd)).
    apply loadable_In. }
  split; [exact Heq|]. split; [exact Hget|].
  intros requested Hnone. unfold resolved_model, dict_mem.
  destruct (dict_get requested (load_models true files)) as [model|] eqn:E.
  - apply Hget in E. destruct (Hnone model E).
  - rewrite Heq. reflexivity.
Qed.

Lemma load_models_keeps_loadable_witness :
  load_models true
    [("a", Return (constant_classifier 0));
     ("b", Raise (Exn OtherException "unreadable"));
     ("c", Return (constant_classifier 1))] =
  [("a", constant_classifier 0); ("c", constant_classifier 1)].
Proof.
  apply (proj1 (@load_models_keeps_loadable
    [("a", Return (constant_classifier 0));
     ("b", Raise (Exn OtherException "unreadable"));
     ("c", Return (constant_classifier 1))]
    ltac:(repeat constructor; cbn; intuition discriminate))).
Defined.

(** When the models directory is missing, or no file of it loads, no
    model is held and every request is answered "No models available",
    without a draw from the generator. *)
Theorem no_model_loaded (path_exists : bool)
    (files : list (string * py Classifier)) :
  path_exists = false \/
  Forall (fun f => exists e, snd f = Raise e) files ->
  load_models path_exists files = [] /\
  forall data requested g,
    predict (load_models path_exists files) data requested g =
    (Return (Error "No models available"), g).
Proof.
  intros H.
  assert (Hnil : load_models path_exists files = []).
  { unfold load_models. destruct path_exists; [|reflexivity].
    destruct H as [H|H]; [discriminate|].
    apply load_models_none, H. }
  split; [exact Hnil|]. intros data requested g.
  rewrite Hnil. reflexivity.
Qed.

Lemma no_model_loaded_witness :
  predict (load_models true [("a", Raise (Exn OtherException "unreadable"))])
          [("samples", FlatList [1%R])] "a" still_rng =
  (Return (Error "No models available"), still_rng).
Proof.
  apply (@no_model_loaded true
           [("a", Raise (Exn OtherException "unreadable"))]).
  right. constructor; [|constructor]. eexists. reflexivity.
Defined.

(** ** The summary of a period *)

Section PeriodSummary.
Local Open Scope list_scope.

Lemma count_prediction_get (c : string) (counts : dict nat)
    (pred : period_entry) :
  dict_get_default c O (count_prediction counts pred) =
  (dict_get_default c O counts
   + if String.eqb (entry_class pred) c then 1 else 0)%nat.
Proof.
  unfold count_prediction, dict_get_default.
  destruct (String.eqb_spec (entry_class pred) c) as [->|Hne].
  - rewrite dict_get_set_same. reflexivity.
  - rewrite (dict_get_set_other _ _ Hne). lia.
Qed.

(** The counting loop adds, to the count of each class, the number of
    entries of that class. *)
Lemma fold_count_get (c : string) (l : list period_entry)
    (counts : dict nat) :
  dict_get_default c O (fold_left count_prediction l counts) =
  (dict_get_default c O counts
   + List.length (filter (fun p => String.eqb (entry_class p) c) l))%nat.
Proof.
  revert counts. induction l as [|p l IH]; intros counts; cbn [fold_left filter].
  - cbn. lia.
  - rewrite IH, count_prediction_get.
    destruct (String.eqb (entry_class p) c); cbn [List.length]; lia.
Qed.

Lemma in_keys_dict_set {V : Type} (k x : string) (v : V) (d : dict V) :
  In x (dict_keys (dict_set k v d)) -> x = k \/ In x (dict_keys d).
Proof.
  induction d as [|[k' v'] d IH]; cbn [dict_set dict_keys map fst In].
  - intros [H|[]]. left. symmetry. exact H.
  - destruct (String.eqb k k'); cbn [map fst In].
    + intros H. right. exact H.
    + intros [H|H]; [right; left; exact H|].
      destruct (IH H) as [E|E]; [left; exact E|right; right; exact E].
Qed.

Lemma NoDup_dict_set {V : Type} (k : string) (v : V) (d : dict V) :
  NoDup (dict_keys d) -> NoDup (dict_keys (dict_set k v d)).
Proof.
  induction d as [|[k' v'] d IH]; cbn [dict_set dict_keys map fst].
  - intros _. constructor; [intros []|constructor].
  - intros Hnd. inversion Hnd as [|x l Hx Hl]; subst.
    destruct (String.eqb_spec k k') as [->|Hk]; cbn [map fst].
    + exact Hnd.
    + constructor; [|apply IH, Hl].
      intros Hin. apply in_keys_dict_set in Hin as [E|Hin].
      * apply Hk. symmetry. exact E.
      * apply Hx, Hin.
Qed.

Lemma fold_count_NoDup (l : list period_entry) (counts : dict nat) :
  NoDup (dict_keys counts) ->
  NoDup (dict_keys (fold_left count_prediction l counts)).
Proof.
  revert counts. induction l as [|p l IH]; intros counts Hnd; [exact Hnd|].
  cbn [fold_left]. apply IH. unfold count_prediction.
  apply NoDup_dict_set, Hnd.
Qed.

(** Every count the loop holds is at least one. *)
Lemma fold_count_positive (l : list period_entry) (counts : dict nat) :
  (forall c n, dict_get c counts = Some n -> (1 <= n)%nat) ->
  forall c n,
    dict_get c (fold_left count_prediction l counts) = Some n -> (1 <= n)%nat.
Proof.
  revert counts. induction l as [|p l IH]; intros counts Hpos; [exact Hpos|].
  cbn [fold_left]. apply IH. intros c n. unfold count_prediction.
  destruct (String.eqb_spec (entry_class p) c) as [->|Hne].
  - rewrite dict_get_set_same. intros H. injection H as <-. lia.
  - rewrite (dict_get_set_other _ _ Hne). apply Hpos.
Qed.

Lemma sum_count_prediction (counts : dict nat) (p : period_entry) :
  list_sum (dict_values (count_prediction counts p)) =
  (list_sum (dict_values counts) + 1)%nat.
Proof.
  unfold count_prediction. generalize (entry_class p) as k. intros k.
  induction counts as [|[k' v'] d IH].
  - reflexivity.
  - unfold dict_get_default, dict_values in *. cbn [dict_set dict_get].
    destruct (String.eqb k k'); cbn [map snd].
    + change (list_sum ((v' + 1)%nat :: map snd d))
        with (v' + 1 + list_sum (map snd d))%nat.
      change (list_sum (v' :: map snd d))
        with (v' + list_sum (map snd d))%nat.
      lia.
    + match goal with
      | |- list_sum (?a :: ?l) = _ =>
          change (list_sum (a :: l)) with (a + list_sum l)%nat
      end.
      change (list_sum (v' :: map snd d))
        with (v' + list_sum (map snd d))%nat.
      rewrite IH. lia.
Qed.

(** The counts of the loop add up to the number of entries. *)
Lemma fold_count_sum (l : list period_entry) (counts : dict nat) :
  list_sum (dict_values (fold_left count_prediction l counts)) =
  (list_sum (dict_values counts) + List.length l)%nat.
Proof.
  revert counts. induction l as [|p l IH]; intros counts; cbn [fold_left].
  - cbn. lia.
  - rewrite IH, sum_count_prediction. cbn [List.length]. lia.
Qed.

(** [max] with a key returns an item, and one of largest key. *)
Lemma max_by_count_spec (items : list (string * nat)) (best : string * nat) :
  In (max_by_count best items) (best :: items) /\
  forall item, In item (best :: items) ->
               (snd item <= snd (max_by_count best items))%nat.
Proof.
  revert best. induction items as [|it items IH]; intros best.
  - cbn. split; [left; reflexivity|]. intros item [<-|[]]. lia.
  - cbn [max_by_count]. destruct (Nat.ltb_spec (snd best) (snd it)).
    + destruct (IH it) as [Hin Hmax]. split.
      * right. exact Hin.
      * intros item [<-|Hitem].
        -- specialize (Hmax it (or_introl eq_refl)). lia.
        -- apply Hmax, Hitem.
    + destruct (IH best) as [Hin Hmax]. split.
      * destruct Hin as [Hin|Hin]; [left; exact Hin|right; right; exact Hin].
      * intros item [<-|[<-|Hitem]].
        -- apply Hmax. left. reflexivity.
        -- specialize (Hmax best (or_introl eq_refl)). lia.
        -- apply Hmax. right. exact Hitem.
Qed.

Lemma dict_get_map_values {A B : Type} (f : A -> B) (k : string)
    (d : dict A) :
  dict_get k (map (fun kv => (fst kv, f (snd kv))) d) =
  option_map f (dict_get k d).
Proof.
  induction d as [|[k' v'] d IH]; [reflexivity|].
  cbn [map fst snd dict_get]. destruct (String.eqb k k'); [reflexivity|].
  exact IH.
Qed.

Lemma filter_success_class (c : string) (l : list period_entry) :
  List.length (filter (fun p => String.eqb (entry_class p) c)
                      (filter entry_success l)) =
  predicted_count c l.
Proof.
  unfold predicted_count. induction l as [|p l IH]; [reflexivity|].
  cbn [filter]. destruct (entry_success p); cbn [filter andb].
  - destruct (String.eqb (entry_class p) c); cbn [List.length];
      rewrite IH; reflexivity.
  - exact IH.
Qed.

(** The summary of a period with a successful entry. *)
Lemma period_summary_run (round2 : R -> R) (predictions : list period_entry) :
  filter entry_success predictions <> [] ->
  exists item items,
    fold_left count_prediction (filter entry_success predictions) [] =
      item :: items /\
    _calculate_period_summary round2 predictions =
    {| prediction_distribution :=
         map (fun cc =>
                (fst cc,
                 class_share_of round2
                   (List.length (filter entry_success predictions))
                   (snd cc)))
             (item :: items);
       most_common_prediction :=
         Some (fst (max_by_count item items),
               class_share_of round2
                 (List.length (filter entry_success predictions))
                 (snd (max_by_count item items))) |}.
Proof.
  intros Hne. unfold _calculate_period_summary.
  pose proof (fold_count_sum (filter entry_success predictions) []) as Hsum.
  destruct (filter entry_success predictions) as [|p l] eqn:E;
    [destruct Hne; reflexivity|].
  destruct (fold_left count_prediction (p :: l) []) as [|item items] eqn:F.
  - cbn in Hsum. lia.
  - exists item, items. split; [reflexivity|]. reflexivity.
Qed.

End PeriodSummary.

(** The distribution of [_calculate_period_summary] holds exactly the
    classes some successful entry predicted, each once, with the number
    of successful entries of that class (an error result of [predict]
    counts under "unknown") and its percentage of the successful
    entries; the counts add up to the number of successful entries.
    Failed entries are not counted. *)
Theorem period_distribution_counts (round2 : R -> R)
    (predictions : list period_entry) :
  let summary := _calculate_period_summary round2 predictions in
  let total := List.length (filter entry_success predictions) in
  (forall c,
     match dict_get c (prediction_distribution summary) with
     | Some share =>
         share_count share = predicted_count c predictions /\
         (1 <= share_count share)%nat /\
         share_percentage share =
           percentage round2 total (share_count share)
     | None => predicted_count c predictions = O
     end) /\
  NoDup (dict_keys (prediction_distribution summary)) /\
  list_sum (map share_count
                (dict_values (prediction_distribution summary))) = total.
Proof.
  intros summary total. subst summary total.
  destruct (filter entry_success predictions) as [|p0 l0] eqn:E.
  { unfold _calculate_period_summary. rewrite E.
    cbn [prediction_distribution dict_get dict_keys dict_values map
         list_sum List.length].
    split; [|split; [constructor|reflexivity]].
    intros c. rewrite <- filter_success_class, E. reflexivity. }
  assert (Hne : filter entry_success predictions <> [])
    by (rewrite E; discriminate).
  destruct (@period_summary_run round2 predictions Hne) as (item & items & F & ->).
  rewrite <- E. cbn [prediction_distribution]. rewrite <- F.
  set (l := filter entry_success predictions).
  split; [|split].
  - intros c. rewrite dict_get_map_values.
    pose proof (fold_count_get c l []) as Hget.
    unfold dict_get_default in Hget. cbn [dict_get] in Hget.
    unfold l in Hget at 2. rewrite filter_success_class in Hget.
    destruct (dict_get c (fold_left count_prediction l [])) as [n|] eqn:G;
      cbn [option_map class_share_of share_count share_percentage].
    + split; [exact Hget|]. split; [|reflexivity].
      apply (@fold_count_positive l [] ltac:(intros ? ? H; discriminate H)
               c n G).
    + symmetry. exact Hget.
  - unfold dict_keys. rewrite map_map. cbn [fst].
    apply (@fold_count_NoDup l []). constructor.
  - unfold dict_values. rewrite !map_map.
    cbn [snd class_share_of share_count].
    pose proof (fold_count_sum l []) as Hsum. cbn in Hsum.
    exact Hsum.
Qed.

(** Without a successful entry the summary names no most common
    prediction.  Otherwise the most common prediction is an entry of
    the distribution, with its count and percentage, and no class of
    the distribution has a larger count. *)
Theorem period_most_common (round2 : R -> R)
    (predictions : list period_entry) :
  let summary := _calculate_period_summary round2 predictions in
  (most_common_prediction summary = None <->
   forall p, In p predictions -> entry_success p = false) /\
  forall c share,
    most_common_prediction summary = Some (c, share) ->
    dict_get c (prediction_distribution summary) = Some share /\
    forall c' share',
      dict_get c' (prediction_distribution summary) = Some share' ->
      (share_count share' <= share_count share)%nat.
Proof.
  intros summary. subst summary.
  destruct (filter entry_success predictions) as [|p0 l0] eqn:E.
  { unfold _calculate_period_summary. rewrite E.
    cbn [most_common_prediction]. split; [|discriminate].
    split; [|reflexivity]. intros _ p Hin.
    destruct (entry_success p) eqn:Hs; [|reflexivity].
    assert (Hp : In p (filter entry_success predictions))
      by (apply filter_In; split; assumption).
    rewrite E in Hp. destruct Hp. }
  assert (Hne : filter entry_success predictions <> [])
    by (rewrite E; discriminate).
  destruct (@period_summary_run round2 predictions Hne) as (item & items & F & ->).
  cbn [most_common_prediction prediction_distribution].
  pose proof (@fold_count_NoDup (filter entry_success predictions) []
                (NoDup_nil _)) as Hnd.
  rewrite F in Hnd.
  destruct (max_by_count_spec items item) as [Hin Hmax].
  split.
  - split; [discriminate|]. intros Hall.
    assert (Hp : In p0 (filter entry_success predictions))
      by (rewrite E; left; reflexivity).
    apply filter_In in Hp as [Hp Hs]. rewrite (Hall p0 Hp) in Hs.
    discriminate.
  - intros c share H. injection H as <- <-. split.
    + rewrite dict_get_map_values.
      assert (Hget : dict_get (fst (max_by_count item items)) (item :: items)
                     = Some (snd (max_by_count item items))).
      { apply (proj2 (@dict_get_In _ _ _ _ Hnd)).
        destruct (max_by_count item items). exact Hin. }
      rewrite Hget. reflexivity.
    + intros c' share'. rewrite dict_get_map_values.
      destruct (dict_get c' (item :: items)) as [n|] eqn:G; [|discriminate].
      cbn [option_map]. intros H. injection H as <-.
      cbn [class_share_of share_count]. apply dict_get_some_In in G.
      apply (Hmax (c', n) G).
Qed.

(** ** The contents of the feature frame *)

Section FrameContents.
Local Open Scope list_scope.

Lemma nodupb_NoDup (l : list string) : nodupb l = true -> NoDup l.
Proof.
  induction l as [|x l IH]; cbn [nodupb]; intros H; [constructor|].
  apply andb_prop in H as [Hx Hl]. constructor; [|apply IH, Hl].
  intros Hin. apply negb_true_iff in Hx.
  assert (Hex : existsb (String.eqb x) l = true).
  { apply existsb_exists. exists x. split; [exact Hin|].
    apply String.eqb_refl. }
  congruence.
Qed.

Lemma NoDup_app_inv {A : Type} (l l' : list A) :
  NoDup (l ++ l') ->
  NoDup l /\ NoDup l' /\ forall a, In a l -> ~ In a l'.
Proof.
  induction l as [|x l IH]; cbn [app]; intros H.
  - split; [constructor|]. split; [exact H|]. intros a [].
  - inversion H as [|y m Hx Hl]; subst.
    destruct (IH Hl) as (H1 & H2 & H3). split; [|split; [exact H2|]].
    + constructor; [|exact H1]. intros Hin. apply Hx.
      apply in_or_app. left. exact Hin.
    + intros a [<-|Ha].
      * intros Hin. apply Hx. apply in_or_app. right. exact Hin.
      * apply H3, Ha.
Qed.

Lemma dict_keys_app {V : Type} (d d' : dict V) :
  dict_keys (d ++ d') = dict_keys d ++ dict_keys d'.
Proof. unfold dict_keys. apply map_app. Qed.

Lemma dict_keys_renamed (name : string -> string) (features : dict npfloat) :
  dict_keys (renamed name features) = map name (dict_keys features).
Proof. unfold dict_keys, renamed. rewrite !map_map. reflexivity. Qed.

(** Features that go in under names not yet used are appended. *)
Lemma add_features_fresh (name : string -> string)
    (features d : dict npfloat) :
  NoDup (dict_keys d ++ map name (dict_keys features)) ->
  add_features name features d = d ++ renamed name features.
Proof.
  intros H. apply NoDup_app_inv in H as (_ & Hn & Hfresh).
  unfold add_features, renamed.
  apply (@fold_dict_set_fresh npfloat _ (fun kv => name (fst kv))
           (fun kv => snd kv)).
  - unfold dict_keys in Hn. rewrite map_map in Hn. exact Hn.
  - intros a Ha Hin. apply (Hfresh _ Hin).
    apply in_map. unfold dict_keys. apply in_map. exact Ha.
Qed.

Lemma time_features_return_keys (signal : list R) (tf : dict npfloat) :
  compute_basic_time_features signal = Return tf ->
  dict_keys tf = time_feature_names.
Proof.
  destruct signal as [|x l].
  - unfold compute_basic_time_features. cbn [np_max Py.bind]. discriminate.
  - rewrite time_features_run. intros H. injection H as <-. reflexivity.
Qed.

Lemma frequency_features_return_keys (signal : list R) (rate : R)
    (ff : dict npfloat) :
  compute_frequency_features signal rate = Return ff ->
  dict_keys ff = freq_feature_names.
Proof.
  unfold compute_frequency_features.
  destruct (fft signal) as [yf|e]; [|discriminate].
  unfold Py.bind at 1.
  destruct (py_inv rate) as [d|e]; [|discriminate].
  unfold Py.bind at 1.
  destruct (fftfreq (List.length signal) d) as [freqs|e]; [|discriminate].
  unfold Py.bind at 1. cbv zeta.
  match goal with |- context [if ?b then _ else _] => destruct b end;
    intros H; injection H as <-; reflexivity.
Qed.

Lemma feature_names_eq (suffix : string) :
  feature_names suffix =
  map (time_name suffix) time_feature_names
  ++ map (freq_name suffix) freq_feature_names.
Proof. reflexivity. Qed.

Lemma signal_features_keys (signal : list R) (rate : R) (suffix : string)
    (f : dict npfloat) :
  signal_features signal rate suffix = Return f ->
  dict_keys f = feature_names suffix.
Proof.
  unfold signal_features.
  destruct (compute_basic_time_features signal) as [tf|e] eqn:Htf;
    [|discriminate].
  unfold Py.bind at 1.
  destruct (compute_frequency_features signal rate) as [ff|e] eqn:Hff;
    [|discriminate].
  unfold Py.bind at 1. intros H. injection H as <-.
  rewrite dict_keys_app, !dict_keys_renamed.
  rewrite (time_features_return_keys _ Htf).
  rewrite (frequency_features_return_keys _ _ Hff).
  symmetry. apply feature_names_eq.
Qed.

(** The time and then the frequency features go into [d] under names
    not yet used. *)
Lemma add_signal_features (suffix : string) (tf ff d : dict npfloat) :
  dict_keys tf = time_feature_names ->
  dict_keys ff = freq_feature_names ->
  NoDup (dict_keys d ++ feature_names suffix) ->
  add_features (freq_name suffix) ff (add_features (time_name suffix) tf d) =
  d ++ (renamed (time_name suffix) tf ++ renamed (freq_name suffix) ff).
Proof.
  intros Ktf Kff Hnd. rewrite feature_names_eq, app_assoc in Hnd.
  rewrite (@add_features_fresh (time_name suffix) tf d).
  - rewrite add_features_fresh; [symmetry; apply app_assoc|].
    rewrite dict_keys_app, dict_keys_renamed, Ktf, Kff. exact Hnd.
  - rewrite Ktf. apply NoDup_app_inv in Hnd as (Hnd & _). exact Hnd.
Qed.

Lemma channel_features_append (rate : R) (c : string) (s : list R)
    (d : dict npfloat) :
  NoDup (dict_keys d ++ feature_names ("_" ++ c)) ->
  channel_features rate (c, s) d =
  Py.bind (signal_features s rate ("_" ++ c)) (fun f => Return (d ++ f)).
Proof.
  intros Hnd. unfold channel_features, signal_features. cbv zeta.
  unfold fst, snd.
  destruct (compute_basic_time_features s) as [tf|e] eqn:Htf;
    [|reflexivity].
  unfold Py.bind at 1. unfold Py.bind at 3.
  destruct (compute_frequency_features s rate) as [ff|e] eqn:Hff;
    [|reflexivity].
  unfold Py.bind. f_equal.
  apply add_signal_features;
    [exact (time_features_return_keys _ Htf)
    |exact (frequency_features_return_keys _ _ Hff)
    |exact Hnd].
Qed.

(** The loop over the channels collects the features of each. *)
Lemma channel_loop_collect (rate : R) (cs : list (string * list R))
    (d : dict npfloat) :
  NoDup (dict_keys d
         ++ flat_map (fun c => feature_names ("_" ++ fst c)) cs) ->
  pfor cs (channel_features rate) d =
  Py.bind (collect (fun c => signal_features (snd c) rate ("_" ++ fst c)) cs)
          (fun ds => Return (d ++ List.concat ds)).
Proof.
  revert d. induction cs as [|[c s] cs IH]; intros d Hnd.
  - cbn [pfor collect Py.bind List.concat]. rewrite app_nil_r. reflexivity.
  - cbn [flat_map fst] in Hnd. rewrite app_assoc in Hnd.
    rewrite pfor_cons, channel_features_append
      by (apply NoDup_app_inv in Hnd as (Hnd & _); exact Hnd).
    cbn [collect fst snd].
    destruct (signal_features s rate ("_" ++ c)) as [f|e] eqn:Hf;
      [|reflexivity].
    unfold Py.bind at 1 2 4. rewrite IH.
    + destruct (collect
                  (fun c0 => signal_features (snd c0) rate ("_" ++ fst c0))
                  cs) as [ds|e]; [|reflexivity].
      unfold Py.bind. cbn [List.concat]. rewrite app_assoc. reflexivity.
    + rewrite dict_keys_app, (signal_features_keys _ _ _ Hf). exact Hnd.
Qed.

Lemma collect_columns (rate : R) (rows : list (list R))
    (names : list string) (start : nat) :
  collect (fun c => signal_features (snd c) rate ("_" ++ fst c))
          (combine names
             (map (fun j => column j rows) (seq start (List.length names)))) =
  collect (fun jc => signal_features (column (fst jc) rows) rate
                                     ("_" ++ snd jc))
          (combine (seq start (List.length names)) names).
Proof.
  revert start. induction names as [|c names IH]; intros start;
    [reflexivity|].
  cbn [List.length seq map combine collect fst snd]. rewrite IH.
  reflexivity.
Qed.

Lemma flat_map_combine_names (names : list string) (cols : list (list R)) :
  List.length names = List.length cols ->
  flat_map (fun c => feature_names ("_" ++ fst c)) (combine names cols) =
  flat_map (fun c => feature_names ("_" ++ c)) names.
Proof.
  revert cols. induction names as [|c names IH]; intros [|s cols] H;
    try discriminate; [reflexivity|].
  cbn [combine flat_map fst]. f_equal. apply IH.
  injection H as H. exact H.
Qed.

Lemma channel_names_NoDup (k : nat) :
  NoDup (flat_map (fun c => feature_names ("_" ++ c))
                  (firstn k column_names)).
Proof.
  apply nodupb_NoDup.
  do 8 (destruct k as [|k]; [vm_compute; reflexivity|]).
  vm_compute. reflexivity.
Qed.

Lemma axis_names_NoDup :
  NoDup (flat_map (fun axis => feature_names ("_" ++ axis)) axes).
Proof. apply nodupb_NoDup. vm_compute. reflexivity. Qed.

Lemma single_names_NoDup : NoDup (feature_names "").
Proof. apply nodupb_NoDup. vm_compute. reflexivity. Qed.

(** The keys of the collected features. *)
Lemma collect_keys {A : Type} (sig : A -> list R) (suf : A -> string)
    (rate : R) (l : list A) (ds : list (dict npfloat)) :
  collect (fun a => signal_features (sig a) rate (suf a)) l = Return ds ->
  dict_keys (List.concat ds) = flat_map (fun a => feature_names (suf a)) l.
Proof.
  revert ds. induction l as [|a l IH]; intros ds; cbn [collect flat_map].
  - intros H. injection H as <-. reflexivity.
  - destruct (signal_features (sig a) rate (suf a)) as [f|e] eqn:Hf;
      [|discriminate].
    unfold Py.bind at 1.
    destruct (collect (fun a0 => signal_features (sig a0) rate (suf a0)) l)
      as [ds'|e]; [|discriminate].
    unfold Py.bind. intros H. injection H as <-.
    cbn [List.concat]. rewrite dict_keys_app, (signal_features_keys _ _ _ Hf).
    rewrite (IH ds' eq_refl). reflexivity.
Qed.

(** The full strategy, on any matrix. *)
Lemma full_strategy_collect (ncols : nat) (rows : list (list R)) (rate : R) :
  extract_features_from_multi_channel_data (Arr2 ncols rows) rate =
  Py.bind
    (collect (fun jc => signal_features (column (fst jc) rows) rate
                                        ("_" ++ snd jc))
             (enumerate (firstn (Nat.min 7 ncols) column_names)))
    (fun ds => Return (frame_of_dict (List.concat ds))).
Proof.
  unfold extract_features_from_multi_channel_data.
  unfold shape1, Py.bind at 1. cbv zeta. rewrite clamp_names.
  set (names := firstn (Nat.min 7 ncols) column_names).
  rewrite channel_loop_collect.
  - rewrite collect_columns. unfold enumerate.
    destruct (collect _ (combine (seq 0 (List.length names)) names));
      reflexivity.
  - cbn [dict_keys map app].
    rewrite flat_map_combine_names
      by (rewrite length_map, length_seq; reflexivity).
    apply channel_names_NoDup.
Qed.

(** The column a strategy reads in a matrix with a column. *)
Lemma clamped_column (ncols : nat) (rows : list (list R)) (c : nat) :
  (1 <= ncols)%nat ->
  get_col (Arr2 ncols rows) (Z.min (Z.of_nat c) (Z.of_nat ncols - 1)) =
  Return (column (Nat.min c (ncols - 1)) rows).
Proof.
  intros Hn. rewrite get_col_clamped by lia. do 2 f_equal. lia.
Qed.

(** A single-axis strategy on a matrix with a column. *)
Lemma single_axis_collect (ncols : nat) (rows : list (list R)) (rate : R)
    (axis_type : string) :
  (1 <= ncols)%nat ->
  extract_single_axis_features (Arr2 ncols rows) rate axis_type =
  Py.bind (signal_features (column (axis_column axis_type ncols) rows)
                           rate "")
          (fun d => Return (frame_of_dict d)).
Proof.
  intros Hn. unfold extract_single_axis_features.
  assert (Hs : single_axis_signal (Arr2 ncols rows) axis_type =
               Return (column (axis_column axis_type ncols) rows)).
  { unfold single_axis_signal, axis_column. cbv zeta.
    destruct (String.eqb axis_type "axial");
      [exact (@clamped_column ncols rows 1 Hn)|].
    destruct (String.eqb axis_type "radial");
      [exact (@clamped_column ncols rows 2 Hn)
      |exact (@clamped_column ncols rows 3 Hn)]. }
  rewrite Hs. unfold Py.bind at 1. unfold signal_features.
  destruct (compute_basic_time_features
              (column (axis_column axis_type ncols) rows))
    as [tf|e] eqn:Htf; [|reflexivity].
  unfold Py.bind at 1. unfold Py.bind at 3.
  destruct (compute_frequency_features
              (column (axis_column axis_type ncols) rows) rate)
    as [ff|e] eqn:Hff; [|reflexivity].
  unfold Py.bind. do 2 f_equal.
  rewrite (@add_signal_features "" tf ff []);
    [reflexivity
    |exact (time_features_return_keys _ Htf)
    |exact (frequency_features_return_keys _ _ Hff)
    |exact single_names_NoDup].
Qed.

(** One turn of the loop over the axes, on a matrix with a column. *)
Lemma axis_features_append (ncols : nat) (rows : list (list R)) (rate : R)
    (i : nat) (axis : string) (d : dict npfloat) (g : rng) :
  (1 <= ncols)%nat ->
  NoDup (dict_keys d ++ feature_names ("_" ++ axis)) ->
  axis_features (Arr2 ncols rows) rate (i, axis) d g =
  (Py.bind (signal_features (column (Nat.min (i + 1) (ncols - 1)) rows)
                            rate ("_" ++ axis))
           (fun f => Return (d ++ f)), g).
Proof.
  intros Hn Hnd. unfold axis_features, axis_signal. cbv zeta.
  unfold fst, snd.
  replace (Z.of_nat i + 1)%Z with (Z.of_nat (i + 1)) by lia.
  rewrite (@clamped_column ncols rows (i + 1) Hn).
  unfold rbind at 1, rlift at 1. unfold signal_features.
  destruct (compute_basic_time_features
              (column (Nat.min (i + 1) (ncols - 1)) rows))
    as [tf|e] eqn:Htf; [|reflexivity].
  unfold rbind at 1, rlift at 1. unfold Py.bind at 1. unfold Py.bind at 2.
  destruct (compute_frequency_features
              (column (Nat.min (i + 1) (ncols - 1)) rows) rate)
    as [ff|e] eqn:Hff; [|reflexivity].
  unfold rbind, rlift, rret, Py.bind. do 2 f_equal.
  apply add_signal_features;
    [exact (time_features_return_keys _ Htf)
    |exact (frequency_features_return_keys _ _ Hff)
    |exact Hnd].
Qed.

(** The loop over the axes collects the features of each. *)
Lemma axis_loop_collect (ncols : nat) (rows : list (list R)) (rate : R)
    (ias : list (nat * string)) (d : dict npfloat) (g : rng) :
  (1 <= ncols)%nat ->
  NoDup (dict_keys d
         ++ flat_map (fun ia => feature_names ("_" ++ snd ia)) ias) ->
  rfor ias (axis_features (Arr2 ncols rows) rate) d g =
  (Py.bind
     (collect (fun ia =>
                 signal_features
                   (column (Nat.min (fst ia + 1) (ncols - 1)) rows)
                   rate ("_" ++ snd ia))
              ias)
     (fun ds => Return (d ++ List.concat ds)), g).
Proof.
  intros Hn. revert d. induction ias as [|[i axis] ias IH]; intros d Hnd.
  - cbn [rfor collect Py.bind List.concat]. rewrite app_nil_r. reflexivity.
  - cbn [flat_map snd] in Hnd. rewrite app_assoc in Hnd.
    rewrite rfor_cons. unfold rbind.
    rewrite (@axis_features_append ncols rows rate i axis d g Hn)
      by (apply NoDup_app_inv in Hnd as (Hnd & _); exact Hnd).
    cbn [collect fst snd].
    destruct (signal_features (column (Nat.min (i + 1) (ncols - 1)) rows)
                              rate ("_" ++ axis)) as [f|e] eqn:Hf;
      cbn [Py.bind]; [|reflexivity].
    rewrite IH
      by (rewrite dict_keys_app, (signal_features_keys _ _ _ Hf);
          exact Hnd).
    destruct (collect _ ias) as [ds|e]; cbn [Py.bind]; [|reflexivity].
    cbn [List.concat]. rewrite app_assoc. reflexivity.
Qed.

(** The 3-axis strategy on a matrix with a column. *)
Lemma three_axis_collect (ncols : nat) (rows : list (list R)) (rate : R)
    (g : rng) :
  (1 <= ncols)%nat ->
  extract_3axis_features (Arr2 ncols rows) rate g =
  (Py.bind
     (collect (fun axis =>
                 signal_features (column (axis_column axis ncols) rows)
                                 rate ("_" ++ axis))
              axes)
     (fun ds => Return (frame_of_dict (List.concat ds))), g).
Proof.
  intros Hn. unfold extract_3axis_features, rbind.
  change (enumerate axes)
    with [(0%nat, "axial"); (1%nat, "radial"); (2%nat, "tangential")].
  rewrite (@axis_loop_collect ncols rows rate
             [(0%nat, "axial"); (1%nat, "radial"); (2%nat, "tangential")]
             [] g Hn) by exact axis_names_NoDup.
  change (collect
            (fun ia : nat * string =>
               signal_features
                 (column (Nat.min (fst ia + 1) (ncols - 1)) rows)
                 rate ("_" ++ snd ia))
            [(0%nat, "axial"); (1%nat, "radial"); (2%nat, "tangential")])
    with (collect
            (fun axis =>
               signal_features (column (axis_column axis ncols) rows)
                               rate ("_" ++ axis))
            axes).
  destruct (collect _ axes) as [ds|e]; reflexivity.
Qed.

Lemma flat_map_enumerate (names : list string) (start : nat) :
  flat_map (fun jc : nat * string => feature_names ("_" ++ snd jc))
           (combine (seq start (List.length names)) names) =
  flat_map (fun c => feature_names ("_" ++ c)) names.
Proof.
  revert start. induction names as [|c names IH]; intros start;
    [reflexivity|].
  cbn [List.length seq combine flat_map snd]. rewrite IH. reflexivity.
Qed.

(** The frame of the collected features: the names of the signals in
    order, one row, one value per name. *)
Lemma frame_of_collected {A : Type} (sig : A -> list R) (suf : A -> string)
    (rate : R) (l : list A) (ds : list (dict npfloat)) :
  collect (fun a => signal_features (sig a) rate (suf a)) l = Return ds ->
  NoDup (flat_map (fun a => feature_names (suf a)) l) ->
  df_columns (frame_of_dict (List.concat ds)) =
    flat_map (fun a => feature_names (suf a)) l /\
  NoDup (df_columns (frame_of_dict (List.concat ds))) /\
  exists row,
    df_rows (frame_of_dict (List.concat ds)) = [row] /\
    List.length row =
      List.length (df_columns (frame_of_dict (List.concat ds))).
Proof.
  intros Hc Hnd. pose proof (collect_keys _ _ _ _ Hc) as Hk.
  cbn [frame_of_dict df_columns df_rows]. rewrite Hk.
  split; [reflexivity|]. split; [exact Hnd|].
  eexists. split; [reflexivity|].
  rewrite <- Hk. unfold dict_values, dict_keys. rewrite !length_map.
  reflexivity.
Qed.

Lemma three_axis_no_columns (rows : list (list R)) (rate : R) (g : rng) :
  exists e, extract_3axis_features (Arr2 0 rows) rate g = (Raise e, g).
Proof. eexists. reflexivity. Qed.

Lemma single_axis_no_columns (rows : list (list R)) (rate : R)
    (axis_type : string) :
  exists e, extract_single_axis_features (Arr2 0 rows) rate axis_type = Raise e.
Proof.
  unfold extract_single_axis_features, single_axis_signal. cbv zeta.
  destruct (String.eqb axis_type "axial"); [eexists; reflexivity|].
  destruct (String.eqb axis_type "radial"); eexists; reflexivity.
Qed.

(** The frame of a single-axis strategy that returns. *)
Lemma single_axis_columns (ncols : nat) (rows : list (list R)) (rate : R)
    (axis_type : string) (df : DataFrame) :
  extract_single_axis_features (Arr2 ncols rows) rate axis_type = Return df ->
  df_columns df = feature_names "" /\
  NoDup (df_columns df) /\
  exists row,
    df_rows df = [row] /\ List.length row = List.length (df_columns df).
Proof.
  destruct ncols as [|n].
  { destruct (single_axis_no_columns rows rate axis_type) as [e ->].
    discriminate. }
  rewrite single_axis_collect by lia.
  destruct (signal_features (column (axis_column axis_type (S n)) rows)
                            rate "") as [d|e] eqn:Hd;
    cbn [Py.bind]; [|discriminate].
  intros H. injection H as <-.
  pose proof (signal_features_keys _ _ _ Hd) as Hk.
  cbn [frame_of_dict df_columns df_rows]. rewrite Hk.
  split; [reflexivity|]. split; [exact single_names_NoDup|].
  eexists. split; [reflexivity|].
  rewrite <- Hk. unfold dict_values, dict_keys. rewrite !length_map.
  reflexivity.
Qed.

End FrameContents.

(** The full strategy, on every matrix: the frame holds, for each of
    the first seven channels in order, the time-domain and then the
    frequency-domain features of that column, under the names
    "time_<feature>_<channel>" and "freq_<feature>_<channel>"; no
    feature overwrites another, and the first exception of a channel is
    the exception of the strategy. *)
Theorem full_frame_contents (ncols : nat) (rows : list (list R)) (rate : R) :
  extract_features_from_multi_channel_data (Arr2 ncols rows) rate =
  Py.bind
    (collect (fun jc => signal_features (column (fst jc) rows) rate
                                        ("_" ++ snd jc))
             (enumerate (firstn (Nat.min 7 ncols) column_names)))
    (fun ds => Return (frame_of_dict (List.concat ds))).
Proof. exact (full_strategy_collect ncols rows rate). Qed.

(** On a matrix with at least one column, a single-axis strategy gives
    the features of one column, column 1 for "axial", 2 for "radial"
    and 3 otherwise, or the last column when the matrix has fewer; the
    3-axis strategy gives the features of these three columns side by
    side, with the axis appended to each name, and draws nothing. *)
Theorem axis_frame_contents (ncols : nat) (rows : list (list R)) (rate : R) :
  (1 <= ncols)%nat ->
  (forall axis_type,
     extract_single_axis_features (Arr2 ncols rows) rate axis_type =
     Py.bind (signal_features (column (axis_column axis_type ncols) rows)
                              rate "")
             (fun d => Return (frame_of_dict d))) /\
  (forall g,
     extract_3axis_features (Arr2 ncols rows) rate g =
     (Py.bind
        (collect (fun axis =>
                    signal_features (column (axis_column axis ncols) rows)
                                    rate ("_" ++ axis))
                 axes)
        (fun ds => Return (frame_of_dict (List.concat ds))), g)).
Proof.
  intros Hn. split.
  - intros axis_type. apply single_axis_collect, Hn.
  - intros g. apply three_axis_collect, Hn.
Qed.

Lemma axis_frame_contents_witness :
  extract_single_axis_features (Arr2 2 [[1%R; 2%R]; [3%R; 4%R]]) 50000
                               "radial" =
  Py.bind (signal_features [2%R; 4%R] 50000 "")
          (fun d => Return (frame_of_dict d)).
Proof.
  exact (proj1 (@axis_frame_contents 2 [[1%R; 2%R]; [3%R; 4%R]] 50000%R
                  (le_S 1 1 (le_n 1))) "radial").
Defined.

(** Whenever the extraction returns a frame for a matrix, its columns
    are the ones the model name selects, in order and without a
    repetition, and it has one row with a value for each column. *)
Theorem feature_frame_columns (ncols : nat) (rows : list (list R))
    (name : string) (rate : R) (g g' : rng) (df : DataFrame) :
  extract_features_by_model_type (Arr2 ncols rows) name rate g =
    (Return df, g') ->
  df_columns df = frame_columns name ncols /\
  NoDup (df_columns df) /\
  exists row,
    df_rows df = [row] /\ List.length row = List.length (df_columns df).
Proof.
  unfold extract_features_by_model_type, frame_columns.
  destruct (contains "3axis" (lower name)).
  { destruct ncols as [|n].
    { destruct (three_axis_no_columns rows rate g) as [e ->]. discriminate. }
    rewrite three_axis_collect by lia.
    destruct (collect
                (fun axis =>
                   signal_features (column (axis_column axis (S n)) rows)
                                   rate ("_" ++ axis)) axes)
      as [ds|e] eqn:C; cbn [Py.bind]; [|discriminate].
    intros H. injection H as <- _.
    apply (frame_of_collected _ _ _ _ C), axis_names_NoDup. }
  assert (Hsingle : forall axis_type,
            rlift (extract_single_axis_features (Arr2 ncols rows) rate
                                                axis_type) g =
              (Return df, g') ->
            df_columns df = feature_names "" /\
            NoDup (df_columns df) /\
            exists row,
              df_rows df = [row] /\
              List.length row = List.length (df_columns df)).
  { intros axis_type H. unfold rlift in H. injection H as H _.
    apply (single_axis_columns _ _ _ _ H). }
  destruct (contains "axial" (lower name)); [apply Hsingle|].
  destruct (contains "radial" (lower name)); [apply Hsingle|].
  destruct (contains "tangential" (lower name)); [apply Hsingle|].
  cbn [orb]. unfold rlift. rewrite full_strategy_collect.
  destruct (collect
              (fun jc : nat * string =>
                 signal_features (column (fst jc) rows) rate
                                 ("_" ++ snd jc))
              (enumerate (firstn (Nat.min 7 ncols) column_names)))
    as [ds|e] eqn:C; cbn [Py.bind]; [|discriminate].
  intros H. injection H as <- _.
  destruct (frame_of_collected _ _ _ _ C) as (Hcols & Hnd & Hrow).
  - unfold enumerate. rewrite flat_map_enumerate. apply channel_names_NoDup.
  - unfold enumerate in Hcols. rewrite flat_map_enumerate in Hcols.
    split; [exact Hcols|]. split; assumption.
Qed.

Lemma feature_frame_columns_witness :
  exists df,
    extract_features_by_model_type (Arr2 2 [[1%R; 2%R]; [3%R; 4%R]])
                                   "myRF_axial_50000" 50000 still_rng =
      (Return df, still_rng) /\
    df_columns df = frame_columns "myRF_axial_50000" 2.
Proof.
  assert (Hrate : 50000%R <> 0%R) by lra.
  assert (Hrows : [[1%R; 2%R]; [3%R; 4%R]] <> []) by discriminate.
  destruct (@extraction_matrix_shape 2 [[1%R; 2%R]; [3%R; 4%R]]
              "myRF_axial_50000" 50000%R Hrate (le_S 1 1 (le_n 1)) Hrows)
    as (df & Hall & _).
  exists df. split; [apply Hall|].
  apply (@feature_frame_columns 2 [[1%R; 2%R]; [3%R; 4%R]]
           "myRF_axial_50000" 50000%R still_rng still_rng df
           (Hall still_rng)).
Defined.

Lemma fold_count_unanimous (c : string) (l : list period_entry) (k : nat) :
  Forall (fun p => entry_class p = c) l ->
  fold_left count_prediction l [(c, k)] = [(c, (k + List.length l)%nat)].
Proof.
  intros H. revert k. induction H as [|p l Hp _ IH]; intros k.
  - cbn. rewrite Nat.add_0_r. reflexivity.
  - cbn [fold_left]. unfold count_prediction at 2. rewrite Hp.
    unfold dict_get_default. cbn [dict_get dict_set].
    rewrite String.eqb_refl. rewrite IH. cbn [List.length].
    do 2 f_equal. lia.
Qed.

(** A period whose successful entries all hold the same class reports
    that class alone, with all of the successful entries.  In
    particular [predict] never raises, so an entry that holds one of
    its error results is a successful entry of the class "unknown": a
    period of such entries reports "unknown" as its most common
    prediction. *)
Theorem unanimous_period (round2 : R -> R) (predictions : list period_entry)
    (c : string) :
  filter entry_success predictions <> [] ->
  (forall p, In p predictions -> entry_success p = true ->
             entry_class p = c) ->
  let n := List.length (filter entry_success predictions) in
  _calculate_period_summary round2 predictions =
  {| prediction_distribution := [(c, class_share_of round2 n n)];
     most_common_prediction := Some (c, class_share_of round2 n n) |}.
Proof.
  intros Hne Hall n. subst n.
  destruct (@period_summary_run round2 predictions Hne)
    as (item & items & F & ->).
  assert (Hl : Forall (fun p => entry_class p = c)
                      (filter entry_success predictions)).
  { apply Forall_forall. intros p Hp. apply filter_In in Hp as [Hin Hs].
    apply Hall; assumption. }
  destruct (filter entry_success predictions) as [|p l];
    [destruct Hne; reflexivity|].
  inversion Hl as [|x m Hp Hm]; subst.
  cbn [fold_left] in F. unfold count_prediction at 2 in F.
  unfold dict_get_default in F. cbn [dict_get dict_set] in F.
  rewrite (fold_count_unanimous (0 + 1) Hm) in F.
  injection F as <- <-. cbn [map fst snd max_by_count List.length].
  replace (0 + 1 + List.length l)%nat with (S (List.length l)) by lia.
  reflexivity.
Qed.

Lemma unanimous_period_witness :
  most_common_prediction
    (_calculate_period_summary (fun x => x)
       [ Predicted "r1" (Error "No features extracted");
         Failed "r2" "timeout";
         Predicted "r3" (Error "No models available") ]) =
  Some ("unknown", class_share_of (fun x => x) 2 2).
Proof.
  rewrite (@unanimous_period (fun x => x)
             [ Predicted "r1" (Error "No features extracted");
               Failed "r2" "timeout";
               Predicted "r3" (Error "No models available") ]
             "unknown").
  - reflexivity.
  - discriminate.
  - intros p [<-|[<-|[<-|[]]]]; intros H; first [reflexivity|discriminate H].
Defined.

(** ** The shape of the spectrum *)

Section SpectralShape.
Local Open Scope R_scope.
Local Open Scope list_scope.

Lemma np_sum_positive (l : list R) :
  l <> [] -> Forall (fun a => 0 < a) l -> 0 < np_sum l.
Proof.
  intros Hne Hl. destruct Hl as [|a l Ha Hl]; [contradiction|].
  rewrite np_sum_cons.
  assert (0 <= np_sum l); [|lra].
  clear - Hl. induction Hl as [|b l Hb _ IH]; [cbn; lra|].
  rewrite np_sum_cons. lra.
Qed.

Lemma positive_amplitudes (amps : list R) :
  Forall (fun a => 0 <= a) amps -> np_sum amps <> 0 ->
  filter (fun a => if Rlt_dec 0 a then true else false) amps <> [] /\
  Forall (fun a => 0 < a)
         (filter (fun a => if Rlt_dec 0 a then true else false) amps).
Proof.
  intros Hpos Hsum. split.
  - intros E. apply Hsum. clear Hsum.
    induction Hpos as [|a l Ha _ IH]; [reflexivity|].
    cbn [filter] in E. destruct (Rlt_dec 0 a) as [|Hn]; [discriminate|].
    rewrite np_sum_cons, (IH E). lra.
  - apply Forall_forall. intros a Ha. apply filter_In in Ha as [_ Ha].
    destruct (Rlt_dec 0 a); [assumption|discriminate].
Qed.

End SpectralShape.

(** With a positive sampling rate and a spectrum that does not vanish,
    the last features of the spectrum are numbers: the spectral energy
    and the spectral flatness are not negative, and the spectral
    bandwidth lies between 0 and half the sampling rate. *)
Theorem spectral_shape_ranges (signal : list R) (sampling_rate : R) :
  (0 < sampling_rate)%R ->
  np_sum (spectrum signal) <> 0%R ->
  exists feats e b q,
    compute_frequency_features signal sampling_rate = Return feats /\
    dict_get "spectral_energy" feats = Some (Fin e) /\
    (0 <= e)%R /\
    dict_get "spectral_bandwidth" feats = Some (Fin b) /\
    (0 <= b <= sampling_rate / 2)%R /\
    dict_get "spectral_flatness" feats = Some (Fin q) /\
    (0 <= q)%R.
Proof.
  intros Hpos Hsum.
  assert (Hsr : sampling_rate <> 0%R) by lra.
  assert (Hne : signal <> []).
  { intros ->. apply Hsum. reflexivity. }
  assert (Hamps : Forall (fun a => (0 <= a)%R) (spectrum signal))
    by (eapply amps_nonneg; eassumption).
  pose proof (length_amps signal) as Hlen. cbv zeta in Hlen.
  rewrite (frequency_features_regular Hsr Hne Hsum).
  set (N := List.length signal) in *.
  set (xf := map (fun k => (INR k * (1 / (INR N * (1 / sampling_rate))))%R)
                 (seq 0 (N / 2))).
  set (amps := spectrum signal) in *.
  set (c := (np_sum (vec_mul xf amps) / np_sum amps)%R).
  assert (Hxf : Forall (fun v => (0 <= v <= sampling_rate / 2)%R) xf).
  { unfold xf. apply Forall_map, Forall_forall. intros k Hk.
    apply in_seq in Hk. apply bin_frequency_in_band; [exact Hpos|lia]. }
  assert (Hl : List.length xf = List.length amps).
  { unfold xf. rewrite length_map, length_seq, Hlen. reflexivity. }
  assert (Hs : (0 < np_sum amps)%R).
  { assert (0 <= np_sum amps)%R; [|lra].
    clear - Hamps. induction Hamps as [|a l Ha _ IH]; [cbn; lra|].
    rewrite np_sum_cons. lra. }
  assert (Hc : (0 <= c <= sampling_rate / 2)%R).
  { destruct (weighted_sum_bounds Hxf Hamps Hl) as [Hlo Hhi]. unfold c. split.
    - apply Rmult_le_pos; [lra|]. left. apply Rinv_0_lt_compat, Hs.
    - apply Rmult_le_reg_r with (np_sum amps); [exact Hs|].
      unfold Rdiv at 1. rewrite Rmult_assoc, Rinv_l by lra. lra. }
  set (h := (sampling_rate / 2)%R) in *.
  assert (Hdev : Forall (fun v => (0 <= v <= h * h)%R)
                        (map (fun f => sq (f - c)) xf)).
  { apply Forall_map. revert Hxf. apply Forall_impl. intros f Hf.
    unfold sq. split; [apply Rle_0_sqr|].
    assert (0 <= (h - (f - c)) * (h + (f - c)))%R
      by (apply Rmult_le_pos; lra).
    lra. }
  assert (Hl' : List.length (map (fun f => sq (f - c)) xf) =
                List.length amps) by (rewrite length_map; exact Hl).
  destruct (weighted_sum_bounds Hdev Hamps Hl') as [Vlo Vhi].
  set (W := np_sum (vec_mul (map (fun f => sq (f - c)) xf) amps)) in *.
  assert (HV : (0 <= W / np_sum amps <= h * h)%R).
  { split.
    - apply Rmult_le_pos; [lra|]. left. apply Rinv_0_lt_compat, Hs.
    - apply Rmult_le_reg_r with (np_sum amps); [exact Hs|].
      unfold Rdiv at 1. rewrite Rmult_assoc, Rinv_l by lra. lra. }
  destruct (positive_amplitudes Hamps Hsum) as [Hfne Hfpos].
  pose proof (np_sum_positive Hfne Hfpos) as Hfs.
  set (nz := filter (fun a => if Rlt_dec 0 a then true else false) amps)
    in *.
  assert (Hn : (0 < INR (List.length nz))%R).
  { apply lt_0_INR. destruct nz; [contradiction|cbn; lia]. }
  assert (Ham : (0 < np_sum nz / INR (List.length nz))%R)
    by (apply Rdiv_lt_0_compat; assumption).
  assert (Hbw : np_sqrt (Fin (W / np_sum amps)) =
                Fin (sqrt (W / np_sum amps))).
  { unfold np_sqrt. destruct (Rlt_dec (W / np_sum amps) 0); [lra|].
    reflexivity. }
  assert (Hfl : ratio_if_pos
                  (Fin match nz with
                       | [] => 0
                       | _ => exp (np_sum (map ln nz)
                                   / INR (List.length nz))
                       end)
                  (Fin match nz with
                       | [] => 0
                       | _ => np_sum nz / INR (List.length nz)
                       end) =
                Fin (exp (np_sum (map ln nz) / INR (List.length nz))
                     / (np_sum nz / INR (List.length nz)))).
  { destruct nz as [|a nz']; [contradiction|].
    unfold ratio_if_pos.
    destruct (Rlt_dec 0 (np_sum (a :: nz') / INR (List.length (a :: nz'))))
      as [_|Hno]; [reflexivity|contradiction]. }
  rewrite Hbw, Hfl.
  eexists. eexists. eexists. eexists. split; [reflexivity|].
  - cbn [dict_get String.eqb Ascii.eqb Bool.eqb].
    split; [reflexivity|]. split; [apply np_sum_sq_nonneg|].
    split; [reflexivity|]. split.
    { split; [apply sqrt_pos|].
      rewrite <- (sqrt_square h) by (unfold h; lra).
      apply sqrt_le_1; lra. }
    split; [reflexivity|].
    left. apply Rdiv_lt_0_compat; [apply exp_pos|exact Ham].
Qed.

Lemma spectral_shape_ranges_witness :
  exists feats b,
    compute_frequency_features [1; 0]%R 25000 = Return feats /\
    dict_get "spectral_bandwidth" feats = Some (Fin b) /\
    (0 <= b <= 25000 / 2)%R.
Proof.
  assert (Hsr : (0 < 25000)%R) by lra.
  assert (Hsum : np_sum (spectrum [1; 0]%R) <> 0%R).
  { rewrite unit_pulse_spectrum. cbn. lra. }
  destruct (@spectral_shape_ranges [1; 0]%R 25000 Hsr Hsum)
    as (feats & e & b & q & Hrun & _ & _ & Hb & Hrange & _).
  exists feats, b. repeat split; try assumption; apply Hrange.
Defined.
